(** * analytics-badge: the badge handler of [badge.go]

    A shallow embedding of the Go program: the OAuth token holder
    ([Account.GetToken], [Account.SetToken]), the magnitude formatter
    [metric], the text-width table [size] and the HTTP handler [badge] with
    its collaborators (memcache, datastore, the analytics API, the log and
    the response writer).

    Go's [int] is the 64-bit signed integer of the amd64 runtime; it is a [Z]
    here and every addition that could leave the range is wrapped
    explicitly.  A Go [string] is a sequence of bytes: Rocq's [string], whose
    characters are 8-bit [ascii] values. *)

From Stdlib Require Import ZArith String Ascii List Lia Bool.
From stdpp Require Import base option countable gmap strings.

Local Open Scope string_scope.
Local Open Scope Z_scope.

(** ** Go's [int] *)

Module GoInt.

Definition minInt : Z := - 2 ^ 63.
Definition maxInt : Z := 2 ^ 63 - 1.

Definition inRange (z : Z) : Prop := minInt <= z <= maxInt.

(** Two's-complement wrap-around of a mathematical result. *)
Definition wrap (z : Z) : Z := (z + 2 ^ 63) mod 2 ^ 64 - 2 ^ 63.

Definition add (x y : Z) : Z := wrap (x + y).
Definition sub (x y : Z) : Z := wrap (x - y).
(** [x / y] of Go truncates toward zero. *)
Definition quo (x y : Z) : Z := wrap (x ÷ y).

End GoInt.

(** ** Package [strconv] of Go's standard library: [Itoa] and [Atoi] *)

Module strconv.

Inductive NumError := ErrSyntax | ErrRange.

Definition digit (d : Z) : ascii := ascii_of_N (Z.to_N (48 + d)).

(** The loop of [formatBits]: digits are produced from the least
    significant one and prepended to [acc] while [u >= 10]; the last
    iteration writes the leading digit.  [fuel] bounds the number of
    turns of the loop. *)
Fixpoint formatBits (fuel : nat) (u : Z) (acc : string) : string :=
  match fuel with
  | O => String (digit (u mod 10)) acc
  | S fuel' =>
      if 10 <=? u
      then formatBits fuel' (u / 10) (String (digit (u mod 10)) acc)
      else String (digit u) acc
  end.

(** A number [u >= 1] has at most [1 + log2 u] decimal digits, so
    [log2 u] turns are enough. *)
Definition Itoa (i : Z) : string :=
  let u := Z.abs i in
  let s := formatBits (Z.to_nat (Z.log2 u)) u "" in
  if i <? 0 then String "-" s else s.

Definition byte (c : ascii) : Z := Z.of_N (N_of_ascii c).

(** The digit loop of [ParseUint] in base 10 on 64 bits: any byte outside
    ['0'..'9'] is a syntax error, and a value that leaves [uint64] is a
    range error as soon as it does. *)
Fixpoint parseDigits (s : string) (acc : Z) : Z + NumError :=
  match s with
  | EmptyString => inl acc
  | String c s' =>
      let d := byte c - 48 in
      if (0 <=? d) && (d <=? 9)
      then (if acc * 10 + d <? 2 ^ 64 then parseDigits s' (acc * 10 + d)
            else inr ErrRange)
      else inr ErrSyntax
  end.

(** [Atoi s] is [ParseInt(s, 10, 0)]: an optional sign, at least one
    digit, and a value that fits in an [int]. *)
Definition Atoi (s : string) : Z + NumError :=
  match s with
  | EmptyString => inr ErrSyntax
  | String c rest =>
      let neg := Ascii.eqb c "-" in
      let ds := if Ascii.eqb c "+" || Ascii.eqb c "-" then rest else s in
      match ds with
      | EmptyString => inr ErrSyntax
      | _ =>
          match parseDigits ds 0 with
          | inr err => inr err
          | inl un =>
              if neg
              then (if un <=? 2 ^ 63 then inl (- un) else inr ErrRange)
              else (if un <? 2 ^ 63 then inl un else inr ErrRange)
          end
      end
  end.

End strconv.

(** ** UTF-8 decoding of Go's runtime: the runes a [range] over a string yields *)

Module utf8.

Definition rune := Z.
Definition RuneError : rune := 0xFFFD.

Definition byte (c : ascii) : Z := Z.of_N (N_of_ascii c).

(** For a leading byte: the length of the encoding it announces and the
    range its second byte must lie in ([first] and [acceptRanges]). *)
Definition lead (b0 : Z) : option (nat * Z * Z) :=
  if (0xC2 <=? b0) && (b0 <=? 0xDF) then Some (2%nat, 0x80, 0xBF)
  else if b0 =? 0xE0 then Some (3%nat, 0xA0, 0xBF)
  else if b0 =? 0xED then Some (3%nat, 0x80, 0x9F)
  else if (0xE1 <=? b0) && (b0 <=? 0xEF) then Some (3%nat, 0x80, 0xBF)
  else if b0 =? 0xF0 then Some (4%nat, 0x90, 0xBF)
  else if b0 =? 0xF4 then Some (4%nat, 0x80, 0x8F)
  else if (0xF1 <=? b0) && (b0 <=? 0xF3) then Some (4%nat, 0x80, 0xBF)
  else None.

Definition between (lo hi b : Z) : bool := (lo <=? b) && (b <=? hi).
(** A continuation byte, [locb..hicb]. *)
Definition cont (b : Z) : bool := between 0x80 0xBF b.

Definition rune2 (b0 b1 : Z) : rune :=
  Z.lor (Z.shiftl (Z.land b0 0x1F) 6) (Z.land b1 0x3F).
Definition rune3 (b0 b1 b2 : Z) : rune :=
  Z.lor (Z.lor (Z.shiftl (Z.land b0 0x0F) 12) (Z.shiftl (Z.land b1 0x3F) 6))
        (Z.land b2 0x3F).
Definition rune4 (b0 b1 b2 b3 : Z) : rune :=
  Z.lor (Z.lor (Z.lor (Z.shiftl (Z.land b0 0x07) 18) (Z.shiftl (Z.land b1 0x3F) 12))
               (Z.shiftl (Z.land b2 0x3F) 6))
        (Z.land b3 0x3F).

(** The sequence of runes of [for _, c := range s]: a byte below 0x80 is
    its own rune, a well-formed multi-byte encoding is one rune, and any
    byte that does not start one yields [RuneError] and is skipped
    alone. *)
Fixpoint runes (s : string) : list rune :=
  match s with
  | EmptyString => []
  | String c0 s1 =>
      let b0 := byte c0 in
      if b0 <? 0x80 then b0 :: runes s1
      else
        match lead b0, s1 with
        | Some (2%nat, lo, hi), String c1 s2 =>
            if between lo hi (byte c1)
            then rune2 b0 (byte c1) :: runes s2
            else RuneError :: runes s1
        | Some (3%nat, lo, hi), String c1 (String c2 s3) =>
            if between lo hi (byte c1) && cont (byte c2)
            then rune3 b0 (byte c1) (byte c2) :: runes s3
            else RuneError :: runes s1
        | Some (4%nat, lo, hi), String c1 (String c2 (String c3 s4)) =>
            if between lo hi (byte c1) && cont (byte c2) && cont (byte c3)
            then rune4 b0 (byte c1) (byte c2) (byte c3) :: runes s4
            else RuneError :: runes s1
        | _, _ => RuneError :: runes s1
        end
  end.

End utf8.

(** ** Package [time] of Go's standard library *)

Module time.

(** A [time.Time] is a comparable struct; the program only copies and
    compares it, so an instant is represented by one integer. *)
Definition Time := Z.

(** [time.Duration] counts nanoseconds. *)
Definition Duration := Z.
Definition Hour : Duration := 3600 * 1000000000.

End time.

(** ** Package [oauth] (goauth2) *)

Module oauth.

Record Token := {
  AccessToken : string;
  RefreshToken : string;
  Expiry : time.Time
}.

End oauth.

(** ** [Account] and its token *)

Record Account := {
  Username : string;
  AccessToken : string;
  RefreshToken : string;
  Expiry : time.Time
}.

(** [GetToken] returns [nil] ([None]) for an account without access token. *)
Definition GetToken (a : Account) : option oauth.Token :=
  if String.eqb (AccessToken a) "" then None
  else Some {| oauth.AccessToken := AccessToken a;
               oauth.RefreshToken := RefreshToken a;
               oauth.Expiry := Expiry a |}.

(** [SetToken] has a pointer receiver: the account after the call is the
    result.  The three assignments are applied in the order of the source. *)
Definition SetToken (a : Account) (t : oauth.Token) : Account :=
  let a1 := {| Username := Username a;
               AccessToken := oauth.AccessToken t;
               RefreshToken := RefreshToken a;
               Expiry := Expiry a |} in
  let a2 := if negb (String.eqb (oauth.RefreshToken t) "")
            then {| Username := Username a1;
                    AccessToken := AccessToken a1;
                    RefreshToken := oauth.RefreshToken t;
                    Expiry := Expiry a1 |}
            else a1 in
  {| Username := Username a2;
     AccessToken := AccessToken a2;
     RefreshToken := RefreshToken a2;
     Expiry := oauth.Expiry t |}.

(** ** [metric]: magnitude and colour *)

Definition metric (i : Z) : string * string :=
  if i >? 1000000 then (strconv.Itoa (i ÷ 1000000) +:+ "M", "#4c1")
  else if i >? 1000 then (strconv.Itoa (i ÷ 1000) +:+ "k", "#a4a61d")
  else (strconv.Itoa i, "#e05d44").

(** ** [size]: the width table *)

Definition isRune (c : utf8.rune) (cases : list ascii) : bool :=
  existsb (fun a => c =? utf8.byte a) cases.

(** The [case] lists of the [switch] of [size], named by the amount added. *)
Definition cases2 : list ascii := ["i"]%char.
Definition cases4 : list ascii := [";"; "I"; "\"; "f"; "j"; "l"; "r"; "t"]%char.
Definition cases6 : list ascii :=
  ["1"; "3"; "5"; "7"; "9"; ":"; "?"; "E"; "F"; "J"; "P"; "T"; "Z"; "["; "]";
   "`"; "b"; "c"; "d"; "g"; "k"; "o"; "p"; "s"; "v"; "y"]%char.
Definition cases7 : list ascii := ["K"; "L"]%char.
Definition cases10 : list ascii := ["<"; ">"; "@"; "G"; "O"; "W"; "m"]%char.

(** The [switch] of [size]: the amount added to [r] for the rune [c]. *)
Definition increment (c : utf8.rune) : Z :=
  if isRune c cases2 then 2
  else if isRune c cases4 then 4
  else if isRune c cases6 then 6
  else if isRune c cases7 then 7
  else if isRune c cases10 then 10
  else 8.

Definition size (s : string) : Z :=
  fold_left (fun r c => GoInt.add r (increment c)) (utf8.runes s) 10.

(** ** The collaborators of the handler

    The App Engine services and the analytics client are libraries the
    program imports; they are represented by the data the handler exchanges
    with them. *)

Module memcache.

Record Item := {
  Key : string;
  Value : string;
  Expiration : time.Duration
}.

End memcache.

Module datastore.

(** [NewKey(c, kind, stringID, 0, nil)]: the keys of this program have a
    kind and a string id, no integer id and no parent. *)
Record Key := NewKey { Kind : string; StringID : string }.

#[global] Instance Key_eq_dec : EqDecision Key.
Proof. solve_decision. Defined.

#[global] Instance Key_countable : Countable Key.
Proof.
  refine (inj_countable' (fun k => (Kind k, StringID k))
                         (fun p => NewKey p.1 p.2) _).
  by intros [].
Defined.

End datastore.

Module analytics.

Record GaData := { TotalsForAllResults : gmap string string }.

End analytics.

(** The [error] values the handler can meet. *)
Inductive error :=
| ErrCacheMiss
| ErrNoSuchEntity
| ErrFieldMismatch
| NumError (e : strconv.NumError)
| ErrService (msg : string).

Record Property := {
  Property_Account : datastore.Key;
  Property_Id : string;
  Property_Profile : string
}.

Inductive Entity :=
| PropertyEntity (p : Property)
| AccountEntity (a : Account).

#[global] Instance Account_eq_dec : EqDecision Account.
Proof. solve_decision. Defined.

(** The anonymous struct handed to the template [badge.svg]. *)
Record Params := {
  Color : string;
  Left : string;
  Right : string;
  LeftWidth : Z;
  RightWidth : Z;
  LeftCenter : Z;
  RightCenter : Z;
  Total : Z
}.

(** What the handler does to the outside, in the order it does it. *)
Inductive Event :=
| CacheGet (key : string)
| CacheSet (item : memcache.Item)
| StoreGet (k : datastore.Key)
| StorePut (k : datastore.Key) (a : Account)
| ApiGet (tok : option oauth.Token) (ids startDate endDate metrics : string)
| LogError (format : string) (err : error)
| LogInfo (format : string) (tok : option oauth.Token)
| Header (key value : string)
| Template (name : string) (params : Params).

(** The state a request runs against.  [cache] and [store] hold what a read
    answers: a key without binding is one whose [memcache.Get] or
    [datastore.Get] returns an error.  [trace] is the log of the calls made
    so far, oldest first. *)
Record World := {
  cache : gmap string memcache.Item;
  store : gmap datastore.Key Entity;
  trace : list Event
}.

(** The answers of the services that the handler cannot determine: whether a
    write fails, whether the API client can be built, and what the analytics
    API replies.  The delegated client may refresh the token it holds while
    the request is made, so the reply carries the token of the transport after
    the call. *)
Record Env := {
  memcacheSetErr : memcache.Item -> option error;
  datastorePutErr : datastore.Key -> Account -> option error;
  analyticsNewErr : option error;
  analyticsDo : option oauth.Token -> string -> string -> string -> string ->
                option oauth.Token * (analytics.GaData + error)
}.

Record Request := { URL_Path : string }.

(** ** The handler monad: state, early [return] and panic *)

Inductive Result (A : Type) :=
| Next (a : A) (w : World)
| Returned (w : World)
| Panicked (w : World).
Arguments Next {A} a w.
Arguments Returned {A} w.
Arguments Panicked {A} w.

Definition M (A : Type) : Type := World -> Result A.

Definition pure {A} (a : A) : M A := fun w => Next a w.

Definition bind {A B} (m : M A) (k : A -> M B) : M B :=
  fun w =>
    match m w with
    | Next a w' => k a w'
    | Returned w' => Returned w'
    | Panicked w' => Panicked w'
    end.

#[global] Instance M_ret : MRet M := @pure.
#[global] Instance M_bind : MBind M := fun A B k m => bind m k.

Definition return_ {A} : M A := fun w => Returned w.
Definition panic {A} : M A := fun w => Panicked w.

(** Appends one event to the trace. *)
Definition record (e : Event) (w : World) : World :=
  {| cache := cache w; store := store w; trace := trace w ++ [e] |}.

Definition emit (e : Event) : M unit := fun w => Next tt (record e w).

Definition len (s : string) : Z := Z.of_nat (String.length s).

(** [s[lo:hi]] on a string: a run-time panic unless [0 <= lo <= hi <= len(s)]. *)
Definition slice (s : string) (lo hi : Z) : option string :=
  if (0 <=? lo) && (lo <=? hi) && (hi <=? len s)
  then Some (substring (Z.to_nat lo) (Z.to_nat (hi - lo)) s)
  else None.

Section Handler.

Variable env : Env.

Definition memcache_Get (key : string) : M (memcache.Item + error) :=
  fun w =>
    Next (match cache w !! key with
          | Some item => inl item
          | None => inr ErrCacheMiss
          end) (record (CacheGet key) w).

Definition memcache_Set (item : memcache.Item) : M (option error) :=
  fun w =>
    let w := record (CacheSet item) w in
    match memcacheSetErr env item with
    | Some err => Next (Some err) w
    | None => Next None {| cache := <[memcache.Key item := item]> (cache w);
                           store := store w;
                           trace := trace w |}
    end.

(** [datastore.Get(c, k, &p)] with [p] a [Property]. *)
Definition datastore_Get_Property (k : datastore.Key) : M (Property + error) :=
  fun w =>
    Next (match store w !! k with
          | Some (PropertyEntity p) => inl p
          | Some (AccountEntity _) => inr ErrFieldMismatch
          | None => inr ErrNoSuchEntity
          end) (record (StoreGet k) w).

(** [datastore.Get(c, k, &a)] with [a] an [Account]. *)
Definition datastore_Get_Account (k : datastore.Key) : M (Account + error) :=
  fun w =>
    Next (match store w !! k with
          | Some (AccountEntity a) => inl a
          | Some (PropertyEntity _) => inr ErrFieldMismatch
          | None => inr ErrNoSuchEntity
          end) (record (StoreGet k) w).

Definition datastore_Put (k : datastore.Key) (a : Account) : M (option error) :=
  fun w =>
    let w := record (StorePut k a) w in
    match datastorePutErr env k a with
    | Some err => Next (Some err) w
    | None => Next None {| cache := cache w;
                           store := <[k := AccountEntity a]> (store w);
                           trace := trace w |}
    end.

(** [analytics.Data.Ga.Get(ids, start, end, metrics).Do()] through a
    transport holding [tok]: the token the transport holds afterwards, and
    the result or the error. *)
Definition analytics_Do (tok : option oauth.Token) (ids startDate endDate metrics : string)
  : M (option oauth.Token * (analytics.GaData + error)) :=
  fun w =>
    Next (analyticsDo env tok ids startDate endDate metrics)
         (record (ApiGet tok ids startDate endDate metrics) w).

Definition c_Errorf (format : string) (err : error) : M unit :=
  emit (LogError format err).
Definition c_Infof (format : string) (tok : option oauth.Token) : M unit :=
  emit (LogInfo format tok).

(** Lines 286-337 of [badge]: the value of [total] when control reaches
    line 338.  Every [return] of the source is a [return_] here. *)
Definition badge_total (path : string) : M Z :=
  got ← memcache_Get ("b:" +:+ path);
  match got with
  | inl item =>
      match strconv.Atoi (memcache.Value item) with
      | inl total => pure total
      | inr err =>
          c_Errorf "badge(Memcache read) error: %#v" (NumError err);;
          return_
      end
  | inr _ =>
      let k := datastore.NewKey "Property" path in
      gotp ← datastore_Get_Property k;
      match gotp with
      | inr err => c_Errorf "badge(Property) error: %#v" err;; return_
      | inl p =>
      gota ← datastore_Get_Account (Property_Account p);
      match gota with
      | inr err => c_Errorf "badge(Account) error: %#v" err;; return_
      | inl a =>
      let loaded := a in
      let tok := GetToken a in
      match analyticsNewErr env with
      | Some err => c_Errorf "badge error: %#v" err;; return_
      | None =>
      '(tok, result) ← analytics_Do tok ("ga:" +:+ Property_Profile p)
                                     "7daysAgo" "yesterday" "ga:users";
      match result with
      | inr err => c_Errorf "badge(Data) error: %#v" err;; return_
      | inl result =>
      match strconv.Atoi
              (default "" (analytics.TotalsForAllResults result !! "ga:users")) with
      | inr err => c_Errorf "badge(Total) error: %#v" (NumError err);; return_
      | inl total =>
      let item := {| memcache.Key := "b:" +:+ path;
                     memcache.Value := strconv.Itoa total;
                     memcache.Expiration := time.Hour * 12 |} in
      seterr ← memcache_Set item;
      match seterr with
      | Some err => c_Errorf "badge(Memcache) error: %#v" err
      | None => pure tt
      end;;
      c_Infof "setting: %#v" tok;;
      (* a.SetToken(t.Token) dereferences the token. *)
      a ← match tok with
           | Some t => pure (SetToken a t)
           | None => panic
           end;
      (* The error of datastore.Put is assigned to err and not read again. *)
      (if decide (a <> loaded)
       then datastore_Put (Property_Account p) a;; pure tt
       else pure tt);;
      pure total
      end end end end end
  end.

(** Lines 338-357 of [badge]: the parameters of the template. *)
Definition badge_params (total : Z) : Params :=
  let '(number, color) := metric total in
  let left := "users" in
  let right := number +:+ "/week" in
  let leftWidth := size left in
  let rightWidth := size right in
  {| Color := color;
     Left := left;
     Right := right;
     LeftWidth := leftWidth;
     RightWidth := rightWidth;
     LeftCenter := GoInt.add (GoInt.quo leftWidth 2) 1;
     RightCenter := GoInt.sub (GoInt.add leftWidth (GoInt.quo rightWidth 2)) 1;
     Total := GoInt.add leftWidth rightWidth |}.

(** Lines 338-360 of [badge]: the template is executed on the parameters
    after the two headers are set. *)
Definition badge_render (total : Z) : M unit :=
  let params := badge_params total in
  emit (Header "Content-Type" "image/svg+xml");;
  emit (Header "Cache-Control" "public, max-age=3600");;
  emit (Template "badge.svg" params).

(** The handler.  [len(r.URL.Path)] is not negative, so [len - 4] does not
    wrap. *)
Definition badge (r : Request) : M unit :=
  path ← match slice (URL_Path r) 7 (len (URL_Path r) - 4) with
          | Some path => pure path
          | None => panic
          end;
  total ← badge_total path;
  badge_render total.

End Handler.

(** ** Auxiliary definitions *)

Definition sumZ (l : list Z) : Z := fold_right Z.add 0 l.

(** The code points of the characters of a [case] list. *)
Definition codes (cases : list ascii) : list utf8.rune := map utf8.byte cases.

(** The byte of value [b]. *)
Definition chr (b : Z) : ascii := ascii_of_N (Z.to_N b).

(** [utf8.ValidRune]: the code points that have an encoding, all of Unicode
    but the surrogates. *)
Definition ValidRune (r : utf8.rune) : bool :=
  ((0 <=? r) && (r <? 0xD800)) || ((0xDFFF <? r) && (r <=? 0x10FFFF)).

(** [utf8.EncodeRune], the conversion [string(r)] of a rune: one to four
    bytes; what is no valid rune is encoded as [RuneError]. *)
Definition encode3 (r : utf8.rune) : string :=
  String (chr (Z.lor 0xE0 (Z.shiftr r 12)))
    (String (chr (Z.lor 0x80 (Z.land (Z.shiftr r 6) 0x3F)))
       (String (chr (Z.lor 0x80 (Z.land r 0x3F))) "")).

Definition EncodeRune (r : utf8.rune) : string :=
  if negb (ValidRune r) then encode3 utf8.RuneError
  else if r <=? 0x7F then String (chr r) ""
  else if r <=? 0x7FF then
    String (chr (Z.lor 0xC0 (Z.shiftr r 6)))
      (String (chr (Z.lor 0x80 (Z.land r 0x3F))) "")
  else if r <=? 0xFFFF then encode3 r
  else
    String (chr (Z.lor 0xF0 (Z.shiftr r 18)))
      (String (chr (Z.lor 0x80 (Z.land (Z.shiftr r 12) 0x3F)))
         (String (chr (Z.lor 0x80 (Z.land (Z.shiftr r 6) 0x3F)))
            (String (chr (Z.lor 0x80 (Z.land r 0x3F))) ""))).

(** [string(rs)] for a slice of runes: the encodings one after the other. *)
Definition stringOfRunes (rs : list utf8.rune) : string :=
  fold_right (fun r s => EncodeRune r +:+ s) "" rs.

(** The events of a rendered badge. *)
Definition rendered (total : Z) : list Event :=
  [Header "Content-Type" "image/svg+xml";
   Header "Cache-Control" "public, max-age=3600";
   Template "badge.svg" (badge_params total)].

(** The world after [events] were appended to the trace. *)
Definition after (w : World) (events : list Event) : World :=
  {| cache := cache w; store := store w; trace := trace w ++ events |}.

(** *** Example worlds *)

(** Services whose writes succeed; the API answers 7 users and leaves the
    token of the transport as it was. *)
Definition quiet_env : Env := {|
  memcacheSetErr := fun _ => None;
  datastorePutErr := fun _ _ => None;
  analyticsNewErr := None;
  analyticsDo := fun tok _ _ _ _ =>
    (tok, inl {| analytics.TotalsForAllResults := {[ "ga:users" := "7" ]} |})
|}.

Definition refreshed_token : oauth.Token :=
  {| oauth.AccessToken := "new"; oauth.RefreshToken := ""; oauth.Expiry := 200 |}.

(** Services whose API call refreshes the access token (the refreshed
    credential carries no refresh token) and whose [datastore.Put] fails. *)
Definition refresh_env : Env := {|
  memcacheSetErr := fun _ => None;
  datastorePutErr := fun _ _ => Some (ErrService "datastore: put failed");
  analyticsNewErr := None;
  analyticsDo := fun _ _ _ _ _ =>
    (Some refreshed_token,
     inl {| analytics.TotalsForAllResults := {[ "ga:users" := "7" ]} |})
|}.

(** The cache item of the value 7 of the property "p3". *)
Definition cached_7 : memcache.Item :=
  {| memcache.Key := "b:p3"; memcache.Value := "7";
     memcache.Expiration := time.Hour * 12 |}.

Definition alice : Account :=
  {| Username := "alice"; AccessToken := "old"; RefreshToken := "r"; Expiry := 100 |}.

Definition alice_key : datastore.Key := datastore.NewKey "Account" "alice".

(** A cache with "b:p1" = "42" and "b:p2" = "not-a-number"; a datastore with
    the property "p3" (profile "123") of the account alice. *)
Definition example_world : World := {|
  cache := {[ "b:p1" := {| memcache.Key := "b:p1"; memcache.Value := "42";
                           memcache.Expiration := time.Hour * 12 |};
              "b:p2" := {| memcache.Key := "b:p2"; memcache.Value := "not-a-number";
                           memcache.Expiration := time.Hour * 12 |} ]};
  store := {[ datastore.NewKey "Property" "p3" :=
                PropertyEntity {| Property_Account := alice_key;
                                  Property_Id := "p3";
                                  Property_Profile := "123" |};
              alice_key := AccountEntity alice ]};
  trace := []
|}.

(** ** Tactics *)

Ltac in_range := unfold GoInt.inRange, GoInt.minInt, GoInt.maxInt in *; lia.

(** Case analysis on every comparison of the goal. *)
Ltac compare_all :=
  repeat match goal with
         | |- context [if ?a =? ?b then _ else _] => destruct (Z.eqb_spec a b)
         | |- context [?a <=? ?b] => destruct (Z.leb_spec a b)
         | |- context [?a <? ?b] => destruct (Z.ltb_spec a b)
         | |- context [?a =? ?b] => destruct (Z.eqb_spec a b)
         end;
  cbn [andb orb negb]; try lia; try reflexivity.

(** Arithmetic with the powers of two of the encoding. *)
Ltac pow2 :=
  change (2 ^ 6) with 64 in *; change (2 ^ 12) with 4096 in *;
  change (2 ^ 18) with 262144 in *; lia.

(** Membership in the evaluated [case] lists. *)
Ltac eval_codes :=
  repeat match goal with
         | H : context [codes ?l] |- _ =>
             let v := eval vm_compute in (codes l) in change (codes l) with v in H
         | |- context [codes ?l] =>
             let v := eval vm_compute in (codes l) in change (codes l) with v
         end.

(** ** Definitions for the further properties *)

(** A string of bytes below 0x80. *)
Fixpoint isASCII (s : string) : bool :=
  match s with
  | EmptyString => true
  | String c s' => (utf8.byte c <? 0x80) && isASCII s'
  end.

(** The code points of the bytes of a string. *)
Fixpoint bytes (s : string) : list utf8.rune :=
  match s with
  | EmptyString => []
  | String c s' => utf8.byte c :: bytes s'
  end.


(** The world a computation ends in. *)
Definition world_of {A} (r : Result A) : World :=
  match r with
  | Next _ w => w
  | Returned w => w
  | Panicked w => w
  end.

(** Calls that read a collaborator. *)
Definition isRead (e : Event) : bool :=
  match e with
  | CacheGet _ | StoreGet _ | ApiGet _ _ _ _ _ => true
  | _ => false
  end.

(** Calls that write to the cache or to the datastore. *)
Definition isWrite (e : Event) : bool :=
  match e with
  | CacheSet _ | StorePut _ _ => true
  | _ => false
  end.

Definition isLogError (e : Event) : bool :=
  match e with
  | LogError _ _ => true
  | _ => false
  end.

(** Calls on the response writer. *)
Definition isResponse (e : Event) : bool :=
  match e with
  | Header _ _ | Template _ _ => true
  | _ => false
  end.


(** *** More example worlds *)

(** Services whose API call fails after the transport refreshed its token. *)
Definition failing_env : Env := {|
  memcacheSetErr := fun _ => None;
  datastorePutErr := fun _ _ => None;
  analyticsNewErr := None;
  analyticsDo := fun _ _ _ _ _ =>
    (Some refreshed_token, inr (ErrService "googleapi: quota exceeded"))
|}.

(** Services whose API answers without a total for "ga:users". *)
Definition no_total_env : Env := {|
  memcacheSetErr := fun _ => None;
  datastorePutErr := fun _ _ => None;
  analyticsNewErr := None;
  analyticsDo := fun tok _ _ _ _ =>
    (tok, inl {| analytics.TotalsForAllResults := ∅ |})
|}.

Definition p3 : Property :=
  {| Property_Account := alice_key; Property_Id := "p3"; Property_Profile := "123" |}.

(** A datastore with the property "p3" and without its account. *)
Definition orphan_world : World := {|
  cache := ∅;
  store := {[ datastore.NewKey "Property" "p3" := PropertyEntity p3 ]};
  trace := []
|}.

(** ** Tactics for the runs of the handler *)

Ltac unfold_badge_total :=
  unfold badge_total, mbind, M_bind, bind, memcache_Get, datastore_Get_Property,
    datastore_Get_Account, analytics_Do, memcache_Set, datastore_Put,
    c_Errorf, c_Infof, emit, pure, return_, panic, record;
  cbn [cache store trace].

(** Uses what is known about the scrutinee the run branches on next. *)
Ltac run_with :=
  match goal with
  | H : ?x = _ |- context [match ?x with _ => _ end] =>
      rewrite H; cbn [cache store trace]
  end.

(** The scrutinee that decides which way a term goes next: that of the
    match in head position, or of the match this scrutinee starts with. *)
Ltac head_scrutinee t :=
  lazymatch t with
  | match ?x with _ => _ end =>
      match x with
      | _ => head_scrutinee x
      | _ => x
      end
  | ?f _ => head_scrutinee f
  end.

(** One branching of the run recorded in [H]. *)
Ltac step_run H :=
  lazymatch type of H with
  | ?run = _ =>
      let x := head_scrutinee run in
      destruct x eqn:?; cbn [cache store trace] in H; try discriminate H
  end.

(** * The session wrapper and the account handlers

    [Wrapper.ServeHTTP], [Session.Key], [auth] and [manage] run against the
    same cache and datastore as [badge]; they also set cookies, redirect,
    answer with an error status and use the batch calls of the services. *)

(** [strconv.FormatInt(i, 36)] for [i >= 0]: the general loop of [formatBits]
    with the digits 0-9a-z. *)
Definition digit36 (d : Z) : ascii :=
  if d <? 10 then ascii_of_N (Z.to_N (48 + d)) else ascii_of_N (Z.to_N (87 + d)).

Fixpoint formatBits36 (fuel : nat) (u : Z) (acc : string) : string :=
  match fuel with
  | O => String (digit36 (u mod 36)) acc
  | S fuel' =>
      if 36 <=? u
      then formatBits36 fuel' (u / 36) (String (digit36 (u mod 36)) acc)
      else String (digit36 u) acc
  end.

Definition FormatInt36 (i : Z) : string :=
  let u := Z.abs i in
  let s := formatBits36 (Z.to_nat (Z.log2 u)) u "" in
  if i <? 0 then String "-" s else s.

(** [datastore.NewIncompleteKey(c, kind, nil)] is [NewKey(c, kind, "", 0,
    nil)]: a key without string id (and without integer id) is incomplete. *)
Definition NewIncompleteKey (kind : string) : datastore.Key :=
  datastore.NewKey kind "".

Definition Incomplete (k : datastore.Key) : bool :=
  String.eqb (datastore.StringID k) "".

#[global] Instance Property_eq_dec : EqDecision Property.
Proof. solve_decision. Defined.

Record Session := {
  Session_Id : string;
  Session_Account : Account;
  Session_Loaded : Account
}.

(** The zero value of [Account]. *)
Definition zeroAccount : Account :=
  {| Username := ""; AccessToken := ""; RefreshToken := ""; Expiry := 0 |}.

Definition Session_Key (s : Session) : datastore.Key :=
  if String.eqb (Username (Session_Account s)) ""
  then NewIncompleteKey "Account"
  else datastore.NewKey "Account" (Username (Session_Account s)).

(** What the analytics management API lists, as far as the program looks
    into it: the user name and the ids of the web properties of each
    account. *)
Record WebPropertySummary := { WebProperty_Id : string }.
Record AccountSummary := { WebProperties : list WebPropertySummary }.
Record AccountSummaries := {
  Summaries_Username : string;
  Items : list AccountSummary
}.

(** The parameters of the template [manage.html]. *)
Record ManageParams := {
  Accounts : AccountSummaries;
  Profiles : gmap string string
}.

(** The calls of these handlers: those [badge] makes too, and the others.
    [LogMultiError] is [c.Errorf] with an [appengine.MultiError], which holds
    one error or nil for each item of a batch. *)
Inductive WebEvent :=
| Svc (e : Event)
| SetCookie (name value : string) (maxAge : Z)
| Redirect (url : string) (code : Z)
| HttpError (err : error) (code : Z)
| Exchange (tok : option oauth.Token) (code : string)
| AccountsList (tok : option oauth.Token)
| StorePutMulti (keys : list datastore.Key) (ps : list Property)
| CacheDeleteMulti (keys : list string)
| StoreQuery (kind : string) (account : datastore.Key)
| ManageTemplate (name : string) (params : ManageParams)
| LogMultiError (format : string) (errs : list (option error)).

Record Web := {
  wcache : gmap string memcache.Item;
  wstore : gmap datastore.Key Entity;
  wtrace : list WebEvent
}.

(** The answers of the services these handlers add to those of [Env]: the
    number [rand.Int63] draws, the token the transport holds after
    [Exchange] (whose error the program drops), the reply of the accounts
    listing with the token of the transport after the call, for each batch
    write whether it fails and, if so, which of its items were written all
    the same, and what the query for the properties of an account returns
    (the datastore answers it from indexes that lag behind the writes). *)
Record WebEnv := {
  services : Env;
  randInt63 : Z;
  exchange : option oauth.Token -> string -> option oauth.Token;
  accountsListDo : option oauth.Token ->
                   option oauth.Token * (AccountSummaries + error);
  putMultiErr : list datastore.Key -> list Property -> option (error * list bool);
  deleteMultiErr : list string -> option (error * list bool);
  queryProperties : datastore.Key -> list Property
}.

Record WebRequest := {
  Method : string;
  Cookies : list (string * string);
  Form : list (string * list string)
}.

(** [r.Cookie(name)]: the first cookie of that name, if any. *)
Fixpoint Cookie (cookies : list (string * string)) (name : string) : option string :=
  match cookies with
  | [] => None
  | (n, v) :: rest => if String.eqb n name then Some v else Cookie rest name
  end.

(** [r.Form[key]]. *)
Fixpoint FormValues (form : list (string * list string)) (key : string) : list string :=
  match form with
  | [] => []
  | (k, vs) :: rest => if String.eqb k key then vs else FormValues rest key
  end.

(** [r.FormValue(key)]: the first value of the key, or the empty string. *)
Definition FormValue (r : WebRequest) (key : string) : string :=
  match FormValues (Form r) key with
  | v :: _ => v
  | [] => ""
  end.

Inductive Outcome (A : Type) :=
| Continue (a : A) (w : Web)
| Done (w : Web)
| Panic (w : Web).
Arguments Continue {A} a w.
Arguments Done {A} w.
Arguments Panic {A} w.

Definition W (A : Type) : Type := Web -> Outcome A.

Definition wpure {A} (a : A) : W A := fun w => Continue a w.

Definition wbind {A B} (m : W A) (k : A -> W B) : W B :=
  fun w =>
    match m w with
    | Continue a w' => k a w'
    | Done w' => Done w'
    | Panic w' => Panic w'
    end.

#[global] Instance W_ret : MRet W := @wpure.
#[global] Instance W_bind : MBind W := fun A B k m => wbind m k.

Definition wreturn {A} : W A := fun w => Done w.
Definition wpanic {A} : W A := fun w => Panic w.

Definition wrecord (e : WebEvent) (w : Web) : Web :=
  {| wcache := wcache w; wstore := wstore w; wtrace := wtrace w ++ [e] |}.

Definition wemit (e : WebEvent) : W unit := fun w => Continue tt (wrecord e w).

(** The stores of a [Web] as the world of [badge], with an empty trace. *)
Definition world_in (w : Web) : World :=
  {| cache := wcache w; store := wstore w; trace := [] |}.

(** The web after a computation of [badge]'s monad left [w'] from
    [world_in w]. *)
Definition absorb (w : Web) (w' : World) : Web :=
  {| wcache := cache w'; wstore := store w';
     wtrace := wtrace w ++ map Svc (trace w') |}.

(** A call that [badge] makes too, run on the stores of the web. *)
Definition lift {A} (m : M A) : W A :=
  fun w =>
    match m (world_in w) with
    | Next a w' => Continue a (absorb w w')
    | Returned w' => Done (absorb w w')
    | Panicked w' => Panic (absorb w w')
    end.

(** The items of [l] the mask marks. *)
Fixpoint masked {A} (mask : list bool) (l : list A) : list A :=
  match mask, l with
  | true :: mask', x :: l' => x :: masked mask' l'
  | false :: mask', _ :: l' => masked mask' l'
  | _, _ => []
  end.

Definition putAll (kps : list (datastore.Key * Property))
    (m : gmap datastore.Key Entity) : gmap datastore.Key Entity :=
  fold_left (fun m kp => <[kp.1 := PropertyEntity kp.2]> m) kps m.

Definition deleteAll (keys : list string) (m : gmap string memcache.Item)
  : gmap string memcache.Item :=
  fold_left (fun m k => delete k m) keys m.

(** What the cache answers for each key of a batch delete: nil for a key it
    held, the cache-miss error for one it did not. *)
Fixpoint deleteStatuses (keys : list string) (m : gmap string memcache.Item)
  : list (option error) :=
  match keys with
  | [] => []
  | k :: rest =>
      match m !! k with
      | Some _ => None
      | None => Some ErrCacheMiss
      end :: deleteStatuses rest (delete k m)
  end.

Section Web.

Variable wenv : WebEnv.

Definition w_Errorf (format : string) (err : error) : W unit :=
  wemit (Svc (LogError format err)).

Definition w_Infof (format : string) (tok : option oauth.Token) : W unit :=
  wemit (Svc (LogInfo format tok)).

Definition w_Header_Set (key value : string) : W unit :=
  wemit (Svc (Header key value)).

Definition w_memcache_Get (key : string) : W (memcache.Item + error) :=
  lift (memcache_Get key).

Definition w_memcache_Set (item : memcache.Item) : W (option error) :=
  lift (memcache_Set (services wenv) item).

(** [datastore.Get(c, k, &a)] with [a] an [Account]: an incomplete key is
    refused. *)
Definition w_datastore_Get_Account (k : datastore.Key) : W (Account + error) :=
  if Incomplete k
  then (wemit (Svc (StoreGet k));;
        wpure (inr (ErrService "datastore: invalid key")))
  else lift (datastore_Get_Account k).

(** [datastore.Put(c, k, &a)]: under an incomplete key the entity is stored
    under a fresh integer id, which no key of this program reaches, so that
    no read of the program sees it. *)
Definition w_datastore_Put (k : datastore.Key) (a : Account) : W (option error) :=
  if Incomplete k
  then (wemit (Svc (StorePut k a));;
        wpure (datastorePutErr (services wenv) k a))
  else lift (datastore_Put (services wenv) k a).

(** [t.Exchange(code)]: the token the transport holds afterwards. *)
Definition w_Exchange (tok : option oauth.Token) (code : string)
  : W (option oauth.Token) :=
  wemit (Exchange tok code);;
  wpure (exchange wenv tok code).

(** [a.Management.AccountSummaries.List().Do()]. *)
Definition w_AccountSummaries_List (tok : option oauth.Token)
  : W (option oauth.Token * (AccountSummaries + error)) :=
  wemit (AccountsList tok);;
  wpure (accountsListDo wenv tok).

(** The entities a batch put writes: those under complete keys. *)
Definition puts (keys : list datastore.Key) (ps : list Property)
  : list (datastore.Key * Property) :=
  filter (fun kp => negb (Incomplete kp.1)) (zip keys ps).

(** [datastore.PutMulti(c, keys, properties)]: no call for an empty batch;
    a failed batch may have written some of its items. *)
Definition w_datastore_PutMulti (keys : list datastore.Key) (ps : list Property)
  : W (option error) :=
  match keys with
  | [] => wpure None
  | _ =>
      fun w =>
        let w := wrecord (StorePutMulti keys ps) w in
        match putMultiErr wenv keys ps with
        | None =>
            Continue None {| wcache := wcache w;
                             wstore := putAll (puts keys ps) (wstore w);
                             wtrace := wtrace w |}
        | Some (err, mask) =>
            Continue (Some err)
                     {| wcache := wcache w;
                        wstore := putAll (masked mask (puts keys ps)) (wstore w);
                        wtrace := wtrace w |}
        end
  end.

(** [memcache.DeleteMulti(c, keys)]: no call for an empty batch; the keys
    are deleted; the error is that of the call, or else the
    [appengine.MultiError] of the answers when a key was not there. *)
Definition w_memcache_DeleteMulti (keys : list string)
  : W (option (error + list (option error))) :=
  match keys with
  | [] => wpure None
  | _ =>
      fun w =>
        let w := wrecord (CacheDeleteMulti keys) w in
        match deleteMultiErr wenv keys with
        | None =>
            let statuses := deleteStatuses keys (wcache w) in
            Continue (if forallb (fun e : option error => bool_decide (e = None))
                                 statuses
                      then None else Some (inr statuses))
                     {| wcache := deleteAll keys (wcache w);
                        wstore := wstore w;
                        wtrace := wtrace w |}
        | Some (err, mask) =>
            Continue (Some (inl err))
                     {| wcache := deleteAll (masked mask keys) (wcache w);
                        wstore := wstore w;
                        wtrace := wtrace w |}
        end
  end.

(** The handler [fn] receives the session by reference: it hands back the
    session as it left it, with its result. *)
Definition Wrapper : Type := WebRequest -> Session -> W (Session * option error).

(** Lines 68-92 of [ServeHTTP]: the session the handler is called with. *)
Definition ServeHTTP_session (r : WebRequest) : W Session :=
  match Cookie (Cookies r) "session" with
  | Some value =>
      let s := {| Session_Id := value;
                  Session_Account := zeroAccount;
                  Session_Loaded := zeroAccount |} in
      got ← w_memcache_Get ("s:" +:+ Session_Id s);
      match got with
      | inl item =>
          let s := {| Session_Id := Session_Id s;
                      Session_Account :=
                        {| Username := memcache.Value item;
                           AccessToken := ""; RefreshToken := "";
                           Expiry := 0 |};
                      Session_Loaded := Session_Loaded s |} in
          gota ← w_datastore_Get_Account (Session_Key s);
          match gota with
          | inr err =>
              w_Errorf "datastore.Get error: %#v" err;;
              wemit (Redirect "/" 302);;
              wreturn
          | inl a =>
              wpure {| Session_Id := Session_Id s;
                       Session_Account := a;
                       Session_Loaded := a |}
          end
      | inr _ => wpure s
      end
  | None =>
      let s := {| Session_Id := FormatInt36 (randInt63 wenv);
                  Session_Account := zeroAccount;
                  Session_Loaded := zeroAccount |} in
      wemit (SetCookie "session" (Session_Id s) 3600);;
      wpure s
  end.

(** Lines 98-111 of [ServeHTTP]: a session whose account the handler
    changed is cached for an hour and its account is put. *)
Definition ServeHTTP_save (s : Session) : W unit :=
  if decide (Session_Loaded s <> Session_Account s)
  then
    let item := {| memcache.Key := "s:" +:+ Session_Id s;
                   memcache.Value := Username (Session_Account s);
                   memcache.Expiration := time.Hour |} in
    seterr ← w_memcache_Set item;
    match seterr with
    | Some err => w_Errorf "Memcache write error: %#v" err
    | None => wpure tt
    end;;
    puterr ← w_datastore_Put (Session_Key s) (Session_Account s);
    match puterr with
    | Some err => w_Errorf "datastore.Put write error: %#v" err
    | None => wpure tt
    end
  else wpure tt.

Definition ServeHTTP (fn : Wrapper) (r : WebRequest) : W unit :=
  s ← ServeHTTP_session r;
  '(s, err) ← fn r s;
  match err with
  | Some err =>
      w_Errorf "Handler error: %#v" err;;
      wemit (HttpError err 500);;
      wreturn
  | None => ServeHTTP_save s
  end.

(** The ids of the listed web properties: the map [loaded] of [manage]. *)
Definition loadedIds (accounts : AccountSummaries) : gmap string bool :=
  fold_left
    (fun loaded account =>
       fold_left (fun loaded property => <[WebProperty_Id property := true]> loaded)
                 (WebProperties account) loaded)
    (Items accounts) ∅.

(** The loop over [r.Form] of [manage]: the slices [keys], [properties] and
    [cache] as collected so far, in the order of the iteration. *)
Fixpoint collect (r : WebRequest) (account : datastore.Key)
    (loaded : gmap string bool) (ids : list string)
    (acc : list datastore.Key * list Property * list string)
  : list datastore.Key * list Property * list string :=
  match ids with
  | [] => acc
  | id :: rest =>
      if negb (default false (loaded !! id))
      then collect r account loaded rest acc
      else
        let '(keys, properties, cachekeys) := acc in
        let profile := FormValue r id in
        let p := {| Property_Account := account;
                    Property_Id := id;
                    Property_Profile := profile |} in
        collect r account loaded rest
                ((keys ++ [datastore.NewKey "Property" (Property_Id p)])%list,
                 (properties ++ [p])%list,
                 (cachekeys ++ ["b:" +:+ Property_Id p])%list)
  end.

(** [datastore.NewQuery("Property").Filter("Account =", key).GetAll]; its
    error is dropped. *)
Definition w_Query_GetAll (account : datastore.Key) : W (list Property) :=
  wemit (StoreQuery "Property" account);;
  wpure (queryProperties wenv account).

(** Lines 150-220. *)
Definition manage : Wrapper := fun r s =>
  let tok := GetToken (Session_Account s) in
  match tok with
  | None => wemit (Redirect "/" 302);; wpure (s, None)
  | Some _ =>
  match analyticsNewErr (services wenv) with
  | Some err => wpure (s, Some err)
  | None =>
  '(tok, listed) ← w_AccountSummaries_List tok;
  match listed with
  | inr err => wpure (s, Some err)
  | inl accounts =>
  let loaded := loadedIds accounts in
  w_Infof "setting: %#v" tok;;
  a ← match tok with
       | Some t => wpure (SetToken (Session_Account s) t)
       | None => wpanic
       end;
  let s := {| Session_Id := Session_Id s;
              Session_Account := a;
              Session_Loaded := Session_Loaded s |} in
  if String.eqb (Method r) "POST"
  then
    w_Header_Set "Content-Type" "text/html";;
    let '(keys, properties, cachekeys) :=
      collect r (Session_Key s) loaded (map fst (Form r)) ([], [], []) in
    puterr ← w_datastore_PutMulti keys properties;
    match puterr with
    | Some err => w_Errorf "datastore.PutMulti error: %#v" err
    | None => wpure tt
    end;;
    delerr ← w_memcache_DeleteMulti cachekeys;
    match delerr with
    | Some (inl err) => w_Errorf "memcache.DeleteMulti error: %#v" err
    | Some (inr errs) => wemit (LogMultiError "memcache.DeleteMulti error: %#v" errs)
    | None => wpure tt
    end;;
    wemit (Redirect "/manage" 302);;
    wpure (s, None)
  else
    w_Header_Set "Content-Type" "text/html";;
    properties ← w_Query_GetAll (Session_Key s);
    let profiles :=
      fold_left (fun profiles p => <[Property_Id p := Property_Profile p]> profiles)
                properties ∅ in
    wemit (ManageTemplate "manage.html"
             {| Accounts := accounts; Profiles := profiles |});;
    wpure (s, None)
  end end end.

(** Lines 222-244.  The result of [t.Exchange] is dropped. *)
Definition auth : Wrapper := fun r s =>
  let tok := GetToken (Session_Account s) in
  tok ← w_Exchange tok (FormValue r "code");
  match analyticsNewErr (services wenv) with
  | Some err => wpure (s, Some err)
  | None =>
  '(tok, listed) ← w_AccountSummaries_List tok;
  match listed with
  | inr err => wpure (s, Some err)
  | inl accounts =>
  let a := {| Username := Summaries_Username accounts;
              AccessToken := AccessToken (Session_Account s);
              RefreshToken := RefreshToken (Session_Account s);
              Expiry := Expiry (Session_Account s) |} in
  w_Infof "setting: %#v" tok;;
  a ← match tok with
       | Some t => wpure (SetToken a t)
       | None => wpanic
       end;
  wemit (Redirect "/manage" 302);;
  wpure ({| Session_Id := Session_Id s;
            Session_Account := a;
            Session_Loaded := Session_Loaded s |}, None)
  end end.

End Web.

(** *** Example requests *)

Definition carol_token : oauth.Token :=
  {| oauth.AccessToken := "at"; oauth.RefreshToken := "rt"; oauth.Expiry := 500 |}.

Definition carol : Account :=
  {| Username := "carol"; AccessToken := "at"; RefreshToken := "rt"; Expiry := 500 |}.

(** The listing of carol: one account with the web properties "UA-1" and
    "UA-2". *)
Definition carol_listing : AccountSummaries :=
  {| Summaries_Username := "carol";
     Items := [ {| WebProperties := [ {| WebProperty_Id := "UA-1" |};
                                      {| WebProperty_Id := "UA-2" |} ] |} ] |}.

(** Services that draw the session id "zz", exchange any code for the token
    of carol, list her account and write without failure. *)
Definition login_env : WebEnv := {|
  services := quiet_env;
  randInt63 := 1295;
  exchange := fun _ _ => Some carol_token;
  accountsListDo := fun tok => (tok, inl carol_listing);
  putMultiErr := fun _ _ => None;
  deleteMultiErr := fun _ => None;
  queryProperties := fun _ => []
|}.

(** Services whose accounts listing fails. *)
Definition login_failing_env : WebEnv := {|
  services := quiet_env;
  randInt63 := 1295;
  exchange := fun _ _ => None;
  accountsListDo := fun tok => (tok, inr (ErrService "oauth: no token supplied"));
  putMultiErr := fun _ _ => None;
  deleteMultiErr := fun _ => None;
  queryProperties := fun _ => []
|}.

Definition empty_web : Web := {| wcache := ∅; wstore := ∅; wtrace := [] |}.

(** The web after carol logged in with the session "zz". *)
Definition carol_web : Web := {|
  wcache := {[ "s:zz" := {| memcache.Key := "s:zz"; memcache.Value := "carol";
                            memcache.Expiration := time.Hour |} ]};
  wstore := {[ datastore.NewKey "Account" "carol" := AccountEntity carol ]};
  wtrace := []
|}.

(** A web whose session "zz" outlived the account it names. *)
Definition stale_web : Web := {|
  wcache := {[ "s:zz" := {| memcache.Key := "s:zz"; memcache.Value := "carol";
                            memcache.Expiration := time.Hour |} ]};
  wstore := ∅;
  wtrace := []
|}.

(** The callback of the authorization server, from a visitor without
    cookie. *)
Definition login_request : WebRequest :=
  {| Method := "GET"; Cookies := []; Form := [("code", ["xyz"])] |}.

Definition session_request : WebRequest :=
  {| Method := "GET"; Cookies := [("session", "zz")]; Form := [] |}.

(** A registration form naming two listed properties and one that is not
    listed. *)
Definition post_request : WebRequest :=
  {| Method := "POST"; Cookies := [("session", "zz")];
     Form := [("UA-2", ["p22"]); ("evil", ["p0"]); ("UA-1", ["p11"; "x"])] |}.

(** A handler that fails without touching the response. *)
Definition failing_handler (err : error) : Wrapper :=
  fun _ s => wpure (s, Some err).

(** A handler that only looks. *)
Definition idle_handler : Wrapper := fun _ s => wpure (s, None).

(** Whether the listing names the web property [id]. *)
Definition listed (accounts : AccountSummaries) (id : string) : bool :=
  existsb (fun account =>
             existsb (fun property => String.eqb (WebProperty_Id property) id)
                     (WebProperties account))
          (Items accounts).

(** The property the loop builds for an id. *)
Definition registration (r : WebRequest) (account : datastore.Key) (id : string)
  : Property :=
  {| Property_Account := account;
     Property_Id := id;
     Property_Profile := FormValue r id |}.

(** The web after [events] were appended to the trace. *)
Definition wafter (w : Web) (events : list WebEvent) : Web :=
  {| wcache := wcache w; wstore := wstore w; wtrace := wtrace w ++ events |}.

(** ** Tactics for the runs of the wrapper *)

Ltac unfold_web :=
  unfold ServeHTTP, ServeHTTP_session, ServeHTTP_save, manage, auth,
    w_memcache_Get, w_memcache_Set, w_datastore_Get_Account, w_datastore_Put,
    w_Exchange, w_AccountSummaries_List, w_datastore_PutMulti,
    w_memcache_DeleteMulti, w_Query_GetAll, w_Errorf, w_Infof, w_Header_Set,
    lift, memcache_Get, memcache_Set, datastore_Get_Account, datastore_Put,
    mbind, W_bind, wbind, wpure, wemit, wreturn, wpanic, wrecord, record,
    absorb, world_in;
  cbn [cache store trace wcache wstore wtrace map app].

Ltac wstep H :=
  lazymatch type of H with
  | ?run = _ =>
      let x := head_scrutinee run in
      destruct x eqn:?;
      cbn [cache store trace wcache wstore wtrace map app] in H;
      try discriminate H
  end.

Ltac wrun_with :=
  match goal with
  | H : ?x = _ |- context [match ?x with _ => _ end] =>
      rewrite H; cbn [cache store trace wcache wstore wtrace map app]
  end.

(** * Properties *)

(** ** [int] arithmetic that stays in range *)

Lemma wrap_id (z : Z) : GoInt.inRange z -> GoInt.wrap z = z.
Proof.
  unfold GoInt.inRange, GoInt.wrap, GoInt.minInt, GoInt.maxInt. intros Hz.
  rewrite Z.mod_small; lia.
Qed.

(** Wrapping an intermediate result does not change the wrapped sum. *)
Lemma wrap_add (a b : Z) : GoInt.wrap (GoInt.wrap a + b) = GoInt.wrap (a + b).
Proof.
  unfold GoInt.wrap.
  replace ((a + 2 ^ 63) mod 2 ^ 64 - 2 ^ 63 + b + 2 ^ 63)
    with ((a + 2 ^ 63) mod 2 ^ 64 + b) by lia.
  rewrite Z.add_mod_idemp_l by lia.
  do 2 f_equal. lia.
Qed.

(** ** [strconv] *)

Section Strconv.

Import strconv.

Lemma byte_digit (d : Z) : 0 <= d <= 9 -> byte (digit d) - 48 = d.
Proof.
  intros Hd. unfold byte, digit.
  rewrite N_ascii_embedding by lia. lia.
Qed.

Lemma parseDigits_digit (d : Z) (s : string) (acc : Z) :
  0 <= d <= 9 -> acc * 10 + d < 2 ^ 64 ->
  parseDigits (String (digit d) s) acc = parseDigits s (acc * 10 + d).
Proof.
  intros Hd Hmax. cbn [parseDigits]. rewrite byte_digit by done.
  destruct (Z.leb_spec 0 d), (Z.leb_spec d 9); simpl; try lia.
  destruct (Z.ltb_spec (acc * 10 + d) (2 ^ 64)); [done|lia].
Qed.

(** Reading back what [formatBits] wrote in front of [rest]: the digits
    of [u] are shifted into the accumulator. *)
Lemma parseDigits_formatBits (fuel : nat) :
  forall (u : Z) (rest : string) (acc : Z),
    0 <= acc -> 0 <= u < 10 ^ Z.of_nat (S fuel) ->
    exists k : Z,
      0 < k /\ u < 10 ^ k /\
      (acc * 10 ^ k + u < 2 ^ 64 ->
       parseDigits (formatBits fuel u rest) acc = parseDigits rest (acc * 10 ^ k + u)).
Proof.
  induction fuel as [|fuel IH]; intros u rest acc Hacc Hu.
  - change (10 ^ Z.of_nat 1) with 10 in Hu.
    exists 1. cbn [formatBits]. rewrite Z.mod_small by lia.
    split; [lia|]. split; [lia|]. intros Hmax.
    rewrite parseDigits_digit by lia. f_equal.
  - cbn [formatBits]. destruct (Z.leb_spec 10 u) as [Hge|Hlt].
    + assert (Hq : 0 <= u / 10 < 10 ^ Z.of_nat (S fuel)).
      { split; [apply Z.div_pos; lia|].
        apply Z.div_lt_upper_bound; [lia|].
        replace (Z.of_nat (S (S fuel))) with (Z.succ (Z.of_nat (S fuel))) in Hu by lia.
        rewrite Z.pow_succ_r in Hu by lia. lia. }
      destruct (IH (u / 10) (String (digit (u mod 10)) rest) acc Hacc Hq)
        as (k & Hk & Hlt & Heq).
      exists (Z.succ k).
      pose proof (Z.mod_pos_bound u 10 ltac:(lia)) as Hm.
      pose proof (Z.div_mod u 10 ltac:(lia)) as Hdm.
      rewrite Z.pow_succ_r by lia.
      assert (Hpk : 0 < 10 ^ k) by (apply Z.pow_pos_nonneg; lia).
      split; [lia|]. split; [lia|]. intros Hmax.
      assert (Hshift : (acc * 10 ^ k + u / 10) * 10 + u mod 10
                       = acc * (10 * 10 ^ k) + u) by lia.
      rewrite Heq by nia.
      rewrite parseDigits_digit by lia.
      by rewrite Hshift.
    + exists 1. split; [lia|]. split; [lia|]. intros Hmax.
      rewrite parseDigits_digit by lia. f_equal.
Qed.

(** [log2 u] turns of the loop are enough for [u]. *)
Lemma fuel_enough (u : Z) : 0 <= u -> u < 10 ^ Z.of_nat (S (Z.to_nat (Z.log2 u))).
Proof.
  intros Hu.
  destruct (Z.eq_dec u 0) as [->|Hne]; [done|].
  pose proof (Z.log2_nonneg u) as Hl.
  replace (Z.of_nat (S (Z.to_nat (Z.log2 u)))) with (Z.succ (Z.log2 u)) by lia.
  pose proof (Z.log2_spec u ltac:(lia)) as [_ Hup].
  eapply Z.lt_le_trans; [exact Hup|].
  apply Z.pow_le_mono_l. lia.
Qed.

Lemma formatBits_length (fuel : nat) :
  forall (u : Z) (rest : string),
    (String.length (formatBits fuel u rest) <= S fuel + String.length rest)%nat.
Proof.
  induction fuel as [|fuel IH]; intros u rest; cbn [formatBits].
  - simpl. lia.
  - destruct (10 <=? u).
    + etrans; [apply IH|]. simpl. lia.
    + simpl. lia.
Qed.

(** An [int] prints in at most 65 bytes (20 in fact; the bound follows
    the fuel). *)
Lemma Itoa_length (i : Z) :
  Z.abs i <= 2 ^ 63 -> (String.length (Itoa i) <= 65)%nat.
Proof.
  intros Hi. unfold Itoa.
  assert (Hf : (Z.to_nat (Z.log2 (Z.abs i)) <= 63)%nat).
  { pose proof (Z.log2_le_mono _ _ Hi) as Hm.
    rewrite Z.log2_pow2 in Hm by lia. lia. }
  pose proof (formatBits_length (Z.to_nat (Z.log2 (Z.abs i))) (Z.abs i) "") as Hl.
  simpl in Hl.
  destruct (i <? 0); simpl; lia.
Qed.

(** The first byte of the digits of a number is a digit, not a sign. *)
Lemma formatBits_head (fuel : nat) :
  forall (u : Z) (rest : string),
    0 <= u ->
    exists (d : Z) (s : string), 0 <= d <= 9 /\ formatBits fuel u rest = String (digit d) s.
Proof.
  induction fuel as [|fuel IH]; intros u rest Hu; cbn [formatBits].
  - exists (u mod 10), rest. split; [|done].
    pose proof (Z.mod_pos_bound u 10 ltac:(lia)). lia.
  - destruct (Z.leb_spec 10 u).
    + apply IH. apply Z.div_pos; lia.
    + exists u, rest. split; [lia|done].
Qed.

Lemma digit_not_sign (d : Z) :
  0 <= d <= 9 -> Ascii.eqb (digit d) "+" = false /\ Ascii.eqb (digit d) "-" = false.
Proof.
  intros Hd.
  assert (d = 0 \/ d = 1 \/ d = 2 \/ d = 3 \/ d = 4 \/ d = 5 \/ d = 6 \/ d = 7
          \/ d = 8 \/ d = 9) as Hc by lia.
  repeat (destruct Hc as [-> | Hc]; [by split|]). by subst.
Qed.

(** What [Itoa] prints, [Atoi] reads back. *)
Lemma Atoi_Itoa (i : Z) : GoInt.inRange i -> Atoi (Itoa i) = inl i.
Proof.
  unfold GoInt.inRange, GoInt.minInt, GoInt.maxInt. intros Hi.
  set (u := Z.abs i).
  assert (Hu : 0 <= u) by (subst u; lia).
  destruct (formatBits_head (Z.to_nat (Z.log2 u)) u "" Hu) as (d & s & Hd & Hs).
  destruct (parseDigits_formatBits (Z.to_nat (Z.log2 u)) u "" 0)
    as (k & Hk & Hlt & Hp); [done| |].
  { split; [done|]. by apply fuel_enough. }
  rewrite Z.mul_0_l, Z.add_0_l in Hp. cbn [parseDigits] in Hp.
  specialize (Hp ltac:(subst u; lia)).
  destruct (digit_not_sign d Hd) as [Hplus Hminus].
  unfold Itoa. fold u. destruct (Z.ltb_spec i 0) as [Hneg|Hpos].
  - unfold Atoi. change (Ascii.eqb "-" "-") with true.
    change (Ascii.eqb "-" "+") with false. cbn [orb].
    rewrite Hs at 1. rewrite Hp.
    destruct (Z.leb_spec u (2 ^ 63)); [|subst u; lia].
    f_equal. subst u. lia.
  - unfold Atoi. rewrite Hs. rewrite Hplus, Hminus. cbn [orb].
    rewrite <- Hs, Hp.
    destruct (Z.ltb_spec u (2 ^ 63)); [|subst u; lia].
    f_equal. subst u. lia.
Qed.

Lemma parseDigits_nonneg (s : string) :
  forall acc un : Z, 0 <= acc -> parseDigits s acc = inl un -> 0 <= un.
Proof.
  induction s as [|c s IH]; intros acc un Hacc; cbn [parseDigits].
  - intros [= <-]. done.
  - destruct (Z.leb_spec 0 (byte c - 48)); cbn [andb]; [|done].
    destruct (byte c - 48 <=? 9); [|done].
    destruct (acc * 10 + (byte c - 48) <? 2 ^ 64); [|done].
    apply IH. lia.
Qed.

(** Whatever [Atoi] accepts is an [int]. *)
Lemma Atoi_inRange (s : string) (n : Z) : Atoi s = inl n -> GoInt.inRange n.
Proof.
  unfold Atoi, GoInt.inRange, GoInt.minInt, GoInt.maxInt.
  destruct s as [|c rest]; [done|].
  set (ds := if Ascii.eqb c "+" || Ascii.eqb c "-" then rest else String c rest).
  destruct ds as [|d ds'] eqn:Hds; [done|].
  destruct (parseDigits (String d ds') 0) as [un|err] eqn:Hp; [|done].
  pose proof (parseDigits_nonneg _ _ _ (Z.le_refl 0) Hp) as Hun.
  destruct (Ascii.eqb c "-").
  - destruct (Z.leb_spec un (2 ^ 63)); [|done]. intros [= <-]. lia.
  - destruct (Z.ltb_spec un (2 ^ 63)); [|done]. intros [= <-]. lia.
Qed.

End Strconv.

(** ** Runes and widths *)

Lemma runes_length_le (n : nat) :
  forall s : string,
    (String.length s <= n)%nat -> (length (utf8.runes s) <= String.length s)%nat.
Proof.
  induction n as [|n IH]; intros s Hs.
  - destruct s; simpl in *; lia.
  - destruct s as [|c0 s1]; [simpl; lia|].
    cbn [utf8.runes String.length] in *.
    assert (H1 : (length (utf8.runes s1) <= String.length s1)%nat) by (apply IH; lia).
    repeat case_match; subst; cbn [length String.length] in *;
      try lia;
      match goal with
      | |- (S (length (utf8.runes ?t)) <= _)%nat =>
          let H := fresh in
          assert (H : (length (utf8.runes t) <= String.length t)%nat)
            by (apply IH; simpl in *; lia);
          simpl in *; lia
      end.
Qed.

Lemma runes_length (s : string) : (length (utf8.runes s) <= String.length s)%nat.
Proof. by apply (runes_length_le (String.length s)). Qed.

Lemma increment_bounds (c : utf8.rune) : 2 <= increment c <= 10.
Proof. unfold increment. repeat case_match; lia. Qed.

Lemma isRune_In (c : utf8.rune) (cases : list ascii) :
  isRune c cases = true <-> In c (codes cases).
Proof.
  unfold isRune, codes. rewrite existsb_exists. split.
  - intros (a & Ha & Hc). apply Z.eqb_eq in Hc. subst. by apply in_map.
  - intros Hin. apply in_map_iff in Hin as (a & <- & Ha).
    exists a. split; [done|]. apply Z.eqb_refl.
Qed.

(** The loop of [size] without wrap-around, as long as the worst case
    (ten per rune) stays in range. *)
Lemma size_loop (l : list utf8.rune) :
  forall r : Z,
    0 <= r -> r + 10 * Z.of_nat (length l) <= GoInt.maxInt ->
    fold_left (fun r c => GoInt.add r (increment c)) l r = r + sumZ (map increment l).
Proof.
  induction l as [|c l IH]; intros r Hr Hmax; cbn [fold_left sumZ map fold_right].
  - lia.
  - pose proof (increment_bounds c) as Hc.
    cbn [length] in Hmax.
    assert (Hadd : GoInt.add r (increment c) = r + increment c).
    { apply wrap_id. unfold GoInt.inRange, GoInt.minInt, GoInt.maxInt in *. lia. }
    rewrite Hadd, IH by lia. fold (sumZ (map increment l)). lia.
Qed.

(** The loop of [size] for any string: the exact sum, reduced to an [int]. *)
Lemma size_loop_wrapped (l : list utf8.rune) :
  forall r : Z,
    fold_left (fun r c => GoInt.add r (increment c)) l (GoInt.wrap r)
    = GoInt.wrap (r + sumZ (map increment l)).
Proof.
  induction l as [|c l IH]; intros r; cbn [fold_left sumZ map fold_right].
  - by rewrite Z.add_0_r.
  - fold (sumZ (map increment l)). unfold GoInt.add at 2.
    rewrite wrap_add, IH. f_equal. lia.
Qed.

Lemma sumZ_member (f : utf8.rune -> Z) (l : list utf8.rune) (c : utf8.rune) :
  (forall x, 0 <= f x) -> In c l -> f c <= sumZ (map f l).
Proof.
  intros Hf. induction l as [|x l IH]; cbn [sumZ map fold_right In]; [done|].
  fold (sumZ (map f l)).
  assert (Hs : 0 <= sumZ (map f l)).
  { clear -Hf. induction l as [|y l IHl]; simpl; [lia|]. specialize (Hf y). lia. }
  intros [->|Hin]; [lia|]. specialize (IH Hin). specialize (Hf x). lia.
Qed.

Lemma size_sum (s : string) :
  10 + 10 * len s <= GoInt.maxInt ->
  size s = 10 + sumZ (map increment (utf8.runes s)).
Proof.
  intros Hs. unfold size. apply size_loop; [lia|].
  pose proof (runes_length s). unfold len in Hs. lia.
Qed.

Lemma size_bounds (s : string) :
  10 + 10 * len s <= GoInt.maxInt ->
  10 <= size s <= 10 + 10 * len s.
Proof.
  intros Hs. rewrite size_sum by done.
  pose proof (runes_length s) as Hl. unfold len.
  assert (Hb : 0 <= sumZ (map increment (utf8.runes s))
               <= 10 * Z.of_nat (length (utf8.runes s))).
  { clear. induction (utf8.runes s) as [|c l IH]; cbn [length sumZ map fold_right]; [lia|].
    pose proof (increment_bounds c). fold (sumZ (map increment l)). lia. }
  lia.
Qed.

Lemma append_length (s1 s2 : string) :
  String.length (s1 +:+ s2) = (String.length s1 + String.length s2)%nat.
Proof. induction s1 as [|c s1 IH]; simpl; [done|]. by rewrite IH. Qed.

Lemma increment_table (c : utf8.rune) :
  (increment c = 2 <-> In c (codes cases2)) /\
  (increment c = 4 <-> In c (codes cases4)) /\
  (increment c = 6 <-> In c (codes cases6)) /\
  (increment c = 7 <-> In c (codes cases7)) /\
  (increment c = 10 <-> In c (codes cases10)) /\
  (increment c = 8 <->
     ~ In c (codes (cases2 ++ cases4 ++ cases6 ++ cases7 ++ cases10))).
Proof.
  unfold increment.
  destruct (isRune c cases2) eqn:H2;
    [apply isRune_In in H2
    |destruct (isRune c cases4) eqn:H4;
       [apply isRune_In in H4
       |destruct (isRune c cases6) eqn:H6;
          [apply isRune_In in H6
          |destruct (isRune c cases7) eqn:H7;
             [apply isRune_In in H7
             |destruct (isRune c cases10) eqn:H10;
                [apply isRune_In in H10|]]]]].
  all: repeat match goal with
              | H : isRune ?x ?l = false |- _ =>
                  let H' := fresh in
                  assert (H' : ~ In x (codes l))
                    by (rewrite <- isRune_In, H; discriminate);
                  clear H
              end.
  all: eval_codes; cbn [In] in *.
  all: repeat split; intros; try lia; try tauto.
Qed.

(** ** The token holder *)

(** C8. [SetToken] always overwrites the access token and the expiry with
    those of the new credential; it overwrites the refresh token exactly when
    the new credential carries a non-empty one, and otherwise leaves the
    account's refresh token as it was.  The user name is never touched. *)
Theorem SetToken_overwrites (a : Account) (t : oauth.Token) :
  AccessToken (SetToken a t) = oauth.AccessToken t /\
  Expiry (SetToken a t) = oauth.Expiry t /\
  Username (SetToken a t) = Username a /\
  ((oauth.RefreshToken t <> "" /\
    RefreshToken (SetToken a t) = oauth.RefreshToken t) \/
   (oauth.RefreshToken t = "" /\
    RefreshToken (SetToken a t) = RefreshToken a)).
Proof.
  unfold SetToken.
  destruct (String.eqb_spec (oauth.RefreshToken t) "") as [He|Hne]; cbn.
  - repeat split. by right.
  - repeat split. by left.
Qed.

(** ** The magnitude formatter *)

(** C5. For every integer exactly one of three buckets applies, chosen by
    strict comparisons: above 1,000,000 the truncated quotient by 1,000,000
    followed by "M" in #4c1; otherwise above 1,000 the truncated quotient by
    1,000 followed by "k" in #a4a61d; otherwise the number itself in
    #e05d44.  The boundaries 1,000,000 and 1,000 fall into the lower
    bucket, 1,000,001 gives "1M", 1500 gives "1k" and 999 gives "999". *)
Theorem metric_buckets (n : Z) :
  ((n > 1000000 /\
    metric n = (strconv.Itoa (n ÷ 1000000) +:+ "M", "#4c1")) \/
   (n <= 1000000 /\ n > 1000 /\
    metric n = (strconv.Itoa (n ÷ 1000) +:+ "k", "#a4a61d")) \/
   (n <= 1000 /\
    metric n = (strconv.Itoa n, "#e05d44"))) /\
  metric 1000000 = ("1000k", "#a4a61d") /\
  metric 1000 = ("1000", "#e05d44") /\
  metric 1000001 = ("1M", "#4c1") /\
  metric 1500 = ("1k", "#a4a61d") /\
  metric 999 = ("999", "#e05d44").
Proof.
  split; [|by vm_compute].
  unfold metric.
  destruct (Z.gtb_spec n 1000000) as [Hm|Hm]; [left; split; [lia|done]|].
  destruct (Z.gtb_spec n 1000) as [Hk|Hk]; right; [left|right].
  - split; [lia|]. split; [lia|done].
  - split; [lia|done].
Qed.

(** C10. [metric] is defined on every integer: at or below 1,000, and so
    for every negative number, the label is the decimal string of the
    number itself in #e05d44.  A negative number keeps its sign (no clamping
    to zero): its label is "-" followed by the label of its opposite, and an
    [int] is read back from its label by [Atoi].  For instance -5 gives
    "-5". *)
Theorem metric_small_or_negative (n : Z) :
  n <= 1000 ->
  metric n = (strconv.Itoa n, "#e05d44") /\
  (n < 0 -> strconv.Itoa n = String "-" (strconv.Itoa (- n))) /\
  (GoInt.inRange n -> strconv.Atoi (metric n).1 = inl n) /\
  metric (-5) = ("-5", "#e05d44").
Proof.
  intros Hn.
  assert (Hm : metric n = (strconv.Itoa n, "#e05d44")).
  { unfold metric.
    destruct (Z.gtb_spec n 1000000); [lia|].
    destruct (Z.gtb_spec n 1000); [lia|done]. }
  split; [done|]. split; [|split; [|by vm_compute]].
  - intros Hneg. unfold strconv.Itoa.
    destruct (Z.ltb_spec n 0); [|lia].
    destruct (Z.ltb_spec (- n) 0); [lia|].
    by rewrite Z.abs_opp.
  - intros Hr. rewrite Hm. by apply Atoi_Itoa.
Qed.

Lemma metric_small_or_negative_witness :
  -5 <= 1000 /\
  metric (-5) = (strconv.Itoa (-5), "#e05d44") /\
  (-5 < 0 -> strconv.Itoa (-5) = String "-" (strconv.Itoa (- -5))) /\
  (GoInt.inRange (-5) -> strconv.Atoi (metric (-5)).1 = inl (-5)) /\
  metric (-5) = ("-5", "#e05d44").
Proof. split; [lia | apply (metric_small_or_negative (-5)); lia]. Defined.

(** ** The width table *)

Lemma byte_chr (b : Z) : 0 <= b < 256 -> utf8.byte (chr b) = b.
Proof.
  intros Hb. unfold utf8.byte, chr. rewrite N_ascii_embedding by lia. lia.
Qed.

Lemma land_shiftl_low (a b n : Z) :
  0 <= n -> 0 <= b < 2 ^ n -> Z.land (a * 2 ^ n) b = 0.
Proof.
  intros Hn Hb. apply Z.bits_inj'. intros i Hi.
  rewrite Z.land_spec, Z.bits_0.
  destruct (Z.lt_ge_cases i n) as [Hlt|Hge].
  - by rewrite Z.mul_pow2_bits_low.
  - destruct (Z.eq_dec b 0) as [->|Hb0]; [by rewrite Z.bits_0, andb_false_r|].
    rewrite (Z.bits_above_log2 b i), andb_false_r; [done|lia|].
    apply Z.log2_lt_pow2; [lia|].
    apply Z.lt_le_trans with (2 ^ n); [lia|]. apply Z.pow_le_mono_r; lia.
Qed.

Lemma lor_add (a b n : Z) :
  0 <= n -> 0 <= b < 2 ^ n -> Z.lor (a * 2 ^ n) b = a * 2 ^ n + b.
Proof.
  intros Hn Hb. pose proof (land_shiftl_low a b n Hn Hb) as H0.
  rewrite <- Z.lxor_lor by done. symmetry. by apply Z.add_nocarry_lxor.
Qed.

Lemma land_63 (x : Z) : Z.land x 0x3F = x mod 64.
Proof. change 0x3F with (Z.ones 6). by rewrite Z.land_ones. Qed.

Lemma tail_byte (x : Z) : Z.lor 0x80 (Z.land x 0x3F) = 128 + x mod 64.
Proof.
  rewrite land_63. change 0x80 with (2 * 2 ^ 6).
  rewrite lor_add; [lia|lia|]. change (2 ^ 6) with 64.
  apply Z.mod_pos_bound. lia.
Qed.

(** The encodings, byte by byte. *)
Lemma EncodeRune_1 (r : Z) :
  0 <= r <= 0x7F -> EncodeRune r = String (chr r) "".
Proof. intros Hr. unfold EncodeRune, ValidRune. compare_all. Qed.

Lemma EncodeRune_2 (r : Z) :
  0x80 <= r <= 0x7FF ->
  EncodeRune r = String (chr (192 + r / 64)) (String (chr (128 + r mod 64)) "").
Proof.
  intros Hr. unfold EncodeRune, ValidRune.
  rewrite tail_byte, Z.shiftr_div_pow2 by lia. change (2 ^ 6) with 64.
  change 0xC0 with (6 * 2 ^ 5). rewrite lor_add; [|lia|].
  - compare_all.
  - change (2 ^ 5) with 32. split; [apply Z.div_pos; lia|].
    apply Z.div_lt_upper_bound; lia.
Qed.

Lemma encode3_bytes (r : Z) :
  0 <= r <= 0xFFFF ->
  encode3 r
  = String (chr (224 + r / 4096))
      (String (chr (128 + (r / 64) mod 64)) (String (chr (128 + r mod 64)) "")).
Proof.
  intros Hr. unfold encode3.
  rewrite !tail_byte, !Z.shiftr_div_pow2 by lia.
  change (2 ^ 6) with 64. change (2 ^ 12) with 4096.
  change 0xE0 with (14 * 2 ^ 4). rewrite lor_add; [done|lia|].
  change (2 ^ 4) with 16. split; [apply Z.div_pos; lia|].
  apply Z.div_lt_upper_bound; lia.
Qed.

Lemma EncodeRune_3 (r : Z) :
  0x800 <= r <= 0xFFFF -> ValidRune r = true ->
  EncodeRune r
  = String (chr (224 + r / 4096))
      (String (chr (128 + (r / 64) mod 64)) (String (chr (128 + r mod 64)) "")).
Proof.
  intros Hr Hv. unfold EncodeRune. rewrite Hv. cbn [negb].
  rewrite encode3_bytes by lia. compare_all.
Qed.

Lemma EncodeRune_4 (r : Z) :
  0x10000 <= r <= 0x10FFFF ->
  EncodeRune r
  = String (chr (240 + r / 262144))
      (String (chr (128 + (r / 4096) mod 64))
         (String (chr (128 + (r / 64) mod 64)) (String (chr (128 + r mod 64)) ""))).
Proof.
  intros Hr. unfold EncodeRune, ValidRune.
  rewrite !tail_byte, !Z.shiftr_div_pow2 by lia.
  change (2 ^ 6) with 64. change (2 ^ 12) with 4096. change (2 ^ 18) with 262144.
  change 0xF0 with (15 * 2 ^ 4). rewrite lor_add; [|lia|].
  - compare_all.
  - change (2 ^ 4) with 16. split; [apply Z.div_pos; lia|].
    apply Z.div_lt_upper_bound; lia.
Qed.

Lemma EncodeRune_invalid (r : Z) :
  ValidRune r = false -> EncodeRune r = EncodeRune utf8.RuneError.
Proof.
  intros Hv. unfold EncodeRune at 1. rewrite Hv. cbn [negb].
  by vm_compute.
Qed.

Lemma lead_2 (b : Z) :
  0xC2 <= b <= 0xDF -> utf8.lead b = Some (2%nat, 0x80, 0xBF).
Proof. intros Hb. unfold utf8.lead. compare_all. Qed.

Lemma lead_3 (b : Z) :
  0xE0 <= b <= 0xEF ->
  utf8.lead b = Some (3%nat, if b =? 0xE0 then 0xA0 else 0x80,
                      if b =? 0xED then 0x9F else 0xBF).
Proof. intros Hb. unfold utf8.lead. compare_all. Qed.

Lemma lead_4 (b : Z) :
  0xF0 <= b <= 0xF4 ->
  utf8.lead b = Some (4%nat, if b =? 0xF0 then 0x90 else 0x80,
                      if b =? 0xF4 then 0x8F else 0xBF).
Proof. intros Hb. unfold utf8.lead. compare_all. Qed.

Lemma mask_tail (x : Z) : 0 <= x < 64 -> Z.land (128 + x) 0x3F = x.
Proof.
  intros Hx. rewrite land_63.
  replace (128 + x) with (x + 2 * 64) by lia.
  rewrite Z_mod_plus_full. by apply Z.mod_small.
Qed.

Lemma mask_lead2 (q : Z) : 0 <= q < 32 -> Z.land (192 + q) 0x1F = q.
Proof.
  intros Hq. change 0x1F with (Z.ones 5). rewrite Z.land_ones by lia.
  change (2 ^ 5) with 32. replace (192 + q) with (q + 6 * 32) by lia.
  rewrite Z_mod_plus_full. by apply Z.mod_small.
Qed.

Lemma mask_lead3 (q : Z) : 0 <= q < 16 -> Z.land (224 + q) 0x0F = q.
Proof.
  intros Hq. change 0x0F with (Z.ones 4). rewrite Z.land_ones by lia.
  change (2 ^ 4) with 16. replace (224 + q) with (q + 14 * 16) by lia.
  rewrite Z_mod_plus_full. by apply Z.mod_small.
Qed.

Lemma mask_lead4 (q : Z) : 0 <= q < 8 -> Z.land (240 + q) 0x07 = q.
Proof.
  intros Hq. change 0x07 with (Z.ones 3). rewrite Z.land_ones by lia.
  change (2 ^ 3) with 8. replace (240 + q) with (q + 30 * 8) by lia.
  rewrite Z_mod_plus_full. by apply Z.mod_small.
Qed.

(** Decoding undoes encoding, whatever follows. *)
Lemma runes_EncodeRune (r : utf8.rune) (s : string) :
  ValidRune r = true ->
  utf8.runes (EncodeRune r +:+ s) = r :: utf8.runes s.
Proof.
  intros Hv.
  assert (Hr : 0 <= r < 0xD800 \/ 0xDFFF < r <= 0x10FFFF).
  { unfold ValidRune in Hv. revert Hv. compare_all; intros; (lia || discriminate). }
  destruct (Z.le_gt_cases r 0x7F) as [H1|H1];
    [|destruct (Z.le_gt_cases r 0x7FF) as [H2|H2];
      [|destruct (Z.le_gt_cases r 0xFFFF) as [H3|H3]]].
  - rewrite EncodeRune_1 by lia.
    change (String ?c "" +:+ s) with (String c s).
    cbn [utf8.runes]. rewrite byte_chr by lia.
    destruct (Z.ltb_spec r 0x80); [done|lia].
  - rewrite EncodeRune_2 by lia.
    pose proof (Z.div_mod r 64 ltac:(lia)) as Hdm.
    pose proof (Z.mod_pos_bound r 64 ltac:(lia)) as Hm.
    assert (Hq : 2 <= r / 64 < 32) by lia.
    change (String ?c0 (String ?c1 "") +:+ s) with (String c0 (String c1 s)).
    cbn [utf8.runes]. rewrite !byte_chr by lia.
    destruct (Z.ltb_spec (192 + r / 64) 0x80); [lia|].
    rewrite lead_2 by lia. unfold utf8.between.
    destruct (Z.leb_spec 0x80 (128 + r mod 64)); [|lia].
    destruct (Z.leb_spec (128 + r mod 64) 0xBF); [|lia].
    cbn [andb]. f_equal. unfold utf8.rune2.
    rewrite mask_tail by lia.
    rewrite mask_lead2 by lia.
    rewrite Z.shiftl_mul_pow2 by lia.
    rewrite lor_add by pow2. pow2.
  - rewrite EncodeRune_3 by (done || lia).
    pose proof (Z.div_mod r 64 ltac:(lia)) as Hdm.
    pose proof (Z.mod_pos_bound r 64 ltac:(lia)) as Hm.
    pose proof (Z.div_mod (r / 64) 64 ltac:(lia)) as Hdm2.
    pose proof (Z.mod_pos_bound (r / 64) 64 ltac:(lia)) as Hm2.
    assert (Hqq : r / 4096 = r / 64 / 64)
      by (rewrite Z.div_div by lia; done).
    assert (Hq : 0 <= r / 4096 < 16) by lia.
    change (String ?c0 (String ?c1 (String ?c2 "")) +:+ s)
      with (String c0 (String c1 (String c2 s))).
    cbn [utf8.runes]. rewrite !byte_chr by lia.
    destruct (Z.ltb_spec (224 + r / 4096) 0x80); [lia|].
    rewrite lead_3 by lia. unfold utf8.between, utf8.cont, utf8.between.
    assert (Hok : ((if 224 + r / 4096 =? 0xE0 then 0xA0 else 0x80)
                     <=? 128 + (r / 64) mod 64)
                  && (128 + (r / 64) mod 64
                        <=? (if 224 + r / 4096 =? 0xED then 0x9F else 0xBF))
                  && ((0x80 <=? 128 + r mod 64) && (128 + r mod 64 <=? 0xBF))
                  = true).
    { compare_all. }
    rewrite Hok. f_equal. unfold utf8.rune3.
    rewrite !mask_tail by lia.
    rewrite mask_lead3 by lia.
    rewrite !Z.shiftl_mul_pow2 by lia.
    rewrite (lor_add (r / 4096) ((r / 64) mod 64 * 2 ^ 6) 12) by pow2.
    replace (r / 4096 * 2 ^ 12 + (r / 64) mod 64 * 2 ^ 6)
      with ((r / 4096 * 64 + (r / 64) mod 64) * 2 ^ 6) by pow2.
    rewrite lor_add by pow2. pow2.
  - rewrite EncodeRune_4 by lia.
    pose proof (Z.div_mod r 64 ltac:(lia)) as Hdm.
    pose proof (Z.mod_pos_bound r 64 ltac:(lia)) as Hm.
    pose proof (Z.div_mod (r / 64) 64 ltac:(lia)) as Hdm2.
    pose proof (Z.mod_pos_bound (r / 64) 64 ltac:(lia)) as Hm2.
    pose proof (Z.div_mod (r / 4096) 64 ltac:(lia)) as Hdm3.
    pose proof (Z.mod_pos_bound (r / 4096) 64 ltac:(lia)) as Hm3.
    assert (Hqq : r / 4096 = r / 64 / 64)
      by (rewrite Z.div_div by lia; done).
    assert (Hqqq : r / 262144 = r / 4096 / 64)
      by (rewrite Z.div_div by lia; done).
    assert (Hq : 0 <= r / 262144 <= 4) by lia.
    change (String ?c0 (String ?c1 (String ?c2 (String ?c3 ""))) +:+ s)
      with (String c0 (String c1 (String c2 (String c3 s)))).
    cbn [utf8.runes]. rewrite !byte_chr by lia.
    destruct (Z.ltb_spec (240 + r / 262144) 0x80); [lia|].
    rewrite lead_4 by lia. unfold utf8.between, utf8.cont, utf8.between.
    assert (Hok : ((if 240 + r / 262144 =? 0xF0 then 0x90 else 0x80)
                     <=? 128 + (r / 4096) mod 64)
                  && (128 + (r / 4096) mod 64
                        <=? (if 240 + r / 262144 =? 0xF4 then 0x8F else 0xBF))
                  && ((0x80 <=? 128 + (r / 64) mod 64)
                      && (128 + (r / 64) mod 64 <=? 0xBF))
                  && ((0x80 <=? 128 + r mod 64) && (128 + r mod 64 <=? 0xBF))
                  = true).
    { compare_all. }
    rewrite Hok. f_equal. unfold utf8.rune4.
    rewrite !mask_tail by lia.
    rewrite mask_lead4 by lia.
    rewrite !Z.shiftl_mul_pow2 by lia.
    rewrite (lor_add (r / 262144) ((r / 4096) mod 64 * 2 ^ 12) 18) by pow2.
    replace (r / 262144 * 2 ^ 18 + (r / 4096) mod 64 * 2 ^ 12)
      with ((r / 262144 * 64 + (r / 4096) mod 64) * 2 ^ 12) by pow2.
    rewrite (lor_add _ ((r / 64) mod 64 * 2 ^ 6) 12) by pow2.
    replace ((r / 262144 * 64 + (r / 4096) mod 64) * 2 ^ 12
             + (r / 64) mod 64 * 2 ^ 6)
      with (((r / 262144 * 64 + (r / 4096) mod 64) * 64 + (r / 64) mod 64) * 2 ^ 6)
      by pow2.
    rewrite lor_add by pow2. pow2.
Qed.

Lemma runes_stringOfRunes (rs : list utf8.rune) :
  Forall (fun r => 0 <= r < 0xD800 \/ 0xE000 <= r <= 0x10FFFF) rs ->
  utf8.runes (stringOfRunes rs) = rs.
Proof.
  induction 1 as [|r rs Hr _ IH]; [done|].
  cbn [stringOfRunes fold_right]. fold (stringOfRunes rs).
  rewrite runes_EncodeRune, IH; [done|].
  unfold ValidRune. compare_all.
Qed.

(** A string of bytes below 0x80 has its bytes as runes. *)
Lemma runes_bytes (s : string) :
  Forall (fun a => (N_of_ascii a < 128)%N) (list_ascii_of_string s) ->
  utf8.runes s = map (fun a => Z.of_N (N_of_ascii a)) (list_ascii_of_string s).
Proof.
  induction s as [|c s IH]; [done|].
  cbn [list_ascii_of_string map utf8.runes]. intros [Hc Hs]%Forall_cons.
  unfold utf8.byte at 1. destruct (Z.ltb_spec (Z.of_N (N_of_ascii c)) 0x80); [|lia].
  unfold utf8.byte. f_equal. by apply IH.
Qed.

(** C6. [size s] is 10 plus, for each rune of [s], the increment of the
    table, computed in [int].  The table, by code point: 2 for 'i' (105); 4
    for ; I \ f j l r t; 6 for 1 3 5 7 9 : ? E F J P T Z [ ] ` b c d g k o p
    s v y; 7 for 'K' and 'L'; 10 for < > @ G O W m; and 8 for every other
    rune.  The runes are the characters of the string: the bytes of a string
    of bytes below 0x80, and for every sequence of Unicode code points the
    runes of its UTF-8 encoding are these code points, so that the string
    measures 10 plus the sum of their increments; a byte that starts no
    encoding counts as one rune of the default width.  The sum is exact as
    long as the worst case of ten per byte fits in an [int], and then a
    string with a 'W' measures at least 10 more than the base.  The empty
    string measures 10, "users" 42. *)
Theorem size_table_sum (s : string) :
  size s = GoInt.wrap (10 + sumZ (map increment (utf8.runes s))) /\
  (10 + 10 * len s <= GoInt.maxInt ->
   size s = 10 + sumZ (map increment (utf8.runes s)) /\
   (In 87 (utf8.runes s) -> 10 + 10 <= size s)) /\
  (forall c : utf8.rune,
      (increment c = 2 <-> c = 105) /\
      (increment c = 4 <-> In c [59; 73; 92; 102; 106; 108; 114; 116]) /\
      (increment c = 6 <->
         In c [49; 51; 53; 55; 57; 58; 63; 69; 70; 74; 80; 84; 90; 91; 93; 96;
               98; 99; 100; 103; 107; 111; 112; 115; 118; 121]) /\
      (increment c = 7 <-> c = 75 \/ c = 76) /\
      (increment c = 10 <-> In c [60; 62; 64; 71; 79; 87; 109]) /\
      (increment c = 8 <->
         ~ In c [105; 59; 73; 92; 102; 106; 108; 114; 116;
                 49; 51; 53; 55; 57; 58; 63; 69; 70; 74; 80; 84; 90; 91; 93; 96;
                 98; 99; 100; 103; 107; 111; 112; 115; 118; 121;
                 75; 76; 60; 62; 64; 71; 79; 87; 109])) /\
  (Forall (fun a => (N_of_ascii a < 128)%N) (list_ascii_of_string s) ->
   utf8.runes s = map (fun a => Z.of_N (N_of_ascii a)) (list_ascii_of_string s)) /\
  (forall rs : list utf8.rune,
      Forall (fun r => 0 <= r < 0xD800 \/ 0xE000 <= r <= 0x10FFFF) rs ->
      utf8.runes (stringOfRunes rs) = rs /\
      size (stringOfRunes rs) = GoInt.wrap (10 + sumZ (map increment rs))) /\
  (map (fun a => Z.of_N (N_of_ascii a)) (list_ascii_of_string "i")
   = [105] /\
   map (fun a => Z.of_N (N_of_ascii a)) (list_ascii_of_string ";I\fjlrt")
   = [59; 73; 92; 102; 106; 108; 114; 116] /\
   map (fun a => Z.of_N (N_of_ascii a))
       (list_ascii_of_string "13579:?EFJPTZ[]`bcdgkopsvy")
   = [49; 51; 53; 55; 57; 58; 63; 69; 70; 74; 80; 84; 90; 91; 93; 96;
      98; 99; 100; 103; 107; 111; 112; 115; 118; 121] /\
   map (fun a => Z.of_N (N_of_ascii a)) (list_ascii_of_string "KL")
   = [75; 76] /\
   map (fun a => Z.of_N (N_of_ascii a)) (list_ascii_of_string "<>@GOWm")
   = [60; 62; 64; 71; 79; 87; 109]) /\
  (size "" = 10 /\ size "i" = 12 /\ size "W" = 20 /\ size "KL" = 24 /\
   size "users" = 42 /\ size "1500/week" = 76 /\ size "2k/week" = 62 /\
   size ";I\fjlrt" = 42 /\ size "13579:?EFJPTZ[]`bcdgkopsvy" = 166 /\
   size "<>@GOWm" = 80 /\ size "aW" = 28) /\
  (utf8.runes "é" = [233] /\ size "é" = 18 /\
   utf8.runes "€" = [8364] /\ size "€" = 18 /\
   utf8.runes "😀" = [128512] /\ size "😀" = 18 /\
   utf8.runes "iéW" = [105; 233; 87] /\ size "iéW" = 30 /\
   stringOfRunes [105; 233; 8364; 128512; 87] = "ié€😀W") /\
  (utf8.runes (String (ascii_of_N 255) "i") = [0xFFFD; 105] /\
   size (String (ascii_of_N 255) "i") = 20 /\
   utf8.runes (String (ascii_of_N 0xC3) "") = [0xFFFD] /\
   utf8.runes (String (ascii_of_N 0xC0) (String (ascii_of_N 0x80) ""))
   = [0xFFFD; 0xFFFD] /\
   utf8.runes (String (ascii_of_N 0xED)
                 (String (ascii_of_N 0xA0) (String (ascii_of_N 0x80) "")))
   = [0xFFFD; 0xFFFD; 0xFFFD] /\
   size (String (ascii_of_N 0xED)
           (String (ascii_of_N 0xA0) (String (ascii_of_N 0x80) ""))) = 34).
Proof.
  assert (Hwrap : forall s0,
             size s0 = GoInt.wrap (10 + sumZ (map increment (utf8.runes s0)))).
  { intros s0. unfold size. change 10 with (GoInt.wrap 10) at 1.
    apply size_loop_wrapped. }
  split; [apply Hwrap|]. split; [|split; [|split; [|split]]].
  - intros Hs. split; [by apply size_sum|].
    intros HW. rewrite size_sum by done.
    pose proof (sumZ_member increment (utf8.runes s) 87) as Hle.
    change (increment 87) with 10 in Hle.
    assert (Hnn : forall x, 0 <= increment x)
      by (intros x; pose proof (increment_bounds x); lia).
    specialize (Hle Hnn HW). lia.
  - intros c. destruct (increment_table c) as (T2 & T4 & T6 & T7 & T10 & T8).
    eval_codes.
    split; [|split; [exact T4|split; [exact T6|split; [|split; [exact T10|exact T8]]]]].
    + rewrite T2. cbn [In]. split; [by intros [<-|[]]|intros ->; by left].
    + rewrite T7. cbn [In].
      split; [intros [<-|[<-|[]]]; [by left|by right]
             |intros [-> | ->]; [by left|right; by left]].
  - apply runes_bytes.
  - intros rs Hrs. rewrite Hwrap, runes_stringOfRunes by done. done.
  - vm_compute. repeat split; reflexivity.
Qed.

Lemma size_table_sum_witness :
  size "Wi" = 10 + sumZ (map increment (utf8.runes "Wi")) /\
  10 + 10 <= size "Wi".
Proof.
  assert (Hs : 10 + 10 * len "Wi" <= GoInt.maxInt) by (vm_compute; discriminate).
  destruct (size_table_sum "Wi") as (_ & Hexact & _).
  destruct (Hexact Hs) as (Hsum & HW).
  split; [exact Hsum|]. apply HW. vm_compute. tauto.
Defined.

(** ** The layout *)

(** The label of an [int] has at most 66 bytes. *)
Lemma metric_label_length (n : Z) :
  GoInt.inRange n -> (String.length (metric n).1 <= 66)%nat.
Proof.
  unfold GoInt.inRange, GoInt.minInt, GoInt.maxInt. intros Hn. unfold metric.
  destruct (Z.gtb_spec n 1000000) as [Hm|Hm]; [|destruct (Z.gtb_spec n 1000) as [Hk|Hk]];
    cbn [fst]; rewrite ?append_length; cbn [String.length].
  - pose proof (Itoa_length (n ÷ 1000000)) as Hl.
    rewrite Z.quot_div_nonneg in * by lia.
    assert (0 <= n / 1000000 <= n) by (split; [apply Z.div_pos|apply Z.div_le_upper_bound]; lia).
    specialize (Hl ltac:(lia)). lia.
  - pose proof (Itoa_length (n ÷ 1000)) as Hl.
    rewrite Z.quot_div_nonneg in * by lia.
    assert (0 <= n / 1000 <= n) by (split; [apply Z.div_pos|apply Z.div_le_upper_bound]; lia).
    specialize (Hl ltac:(lia)). lia.
  - pose proof (Itoa_length n ltac:(lia)). lia.
Qed.

(** C7. For every metric value the left label is "users", the right label
    is the magnitude followed by "/week", each width is the [size] of its
    label, and the rest of the geometry is plain integer arithmetic on the
    widths (no wrap-around): total = left + right, left centre =
    left / 2 + 1, right centre = left + right / 2 - 1, with truncating
    division. *)
Theorem badge_params_geometry (n : Z) :
  GoInt.inRange n ->
  Left (badge_params n) = "users" /\
  Right (badge_params n) = (metric n).1 +:+ "/week" /\
  Color (badge_params n) = (metric n).2 /\
  LeftWidth (badge_params n) = size (Left (badge_params n)) /\
  RightWidth (badge_params n) = size (Right (badge_params n)) /\
  Total (badge_params n) = LeftWidth (badge_params n) + RightWidth (badge_params n) /\
  LeftCenter (badge_params n) = LeftWidth (badge_params n) ÷ 2 + 1 /\
  RightCenter (badge_params n) =
    LeftWidth (badge_params n) + RightWidth (badge_params n) ÷ 2 - 1.
Proof.
  intros Hn. pose proof (metric_label_length n Hn) as Hlen.
  unfold badge_params. destruct (metric n) as [number color]. cbn [fst snd] in *.
  cbn [Left Right Color LeftWidth RightWidth Total LeftCenter RightCenter].
  change (size "users") with 42.
  assert (Hr : 10 <= size (number +:+ "/week") <= 720).
  { assert (Hl : len (number +:+ "/week") <= 71).
    { unfold len. rewrite append_length. cbn [String.length]. lia. }
    pose proof (size_bounds (number +:+ "/week")) as Hb.
    unfold GoInt.maxInt in Hb. lia. }
  set (rw := size (number +:+ "/week")) in *.
  assert (Hq : 0 <= rw ÷ 2 <= 720).
  { rewrite Z.quot_div_nonneg by lia.
    split; [apply Z.div_pos|apply Z.div_le_upper_bound]; lia. }
  unfold GoInt.add, GoInt.sub, GoInt.quo.
  change (42 ÷ 2) with 21.
  rewrite (wrap_id 21) by in_range.
  rewrite (wrap_id (21 + 1)) by in_range.
  rewrite (wrap_id (rw ÷ 2)) by in_range.
  rewrite (wrap_id (42 + rw)) by in_range.
  rewrite (wrap_id (42 + rw ÷ 2)) by in_range.
  rewrite (wrap_id (42 + rw ÷ 2 - 1)) by in_range.
  repeat split.
Qed.

Lemma badge_params_geometry_witness :
  Left (badge_params 1500) = "users" /\
  Right (badge_params 1500) = "1k/week" /\
  Color (badge_params 1500) = "#a4a61d" /\
  LeftWidth (badge_params 1500) = 42 /\
  RightWidth (badge_params 1500) = 60 /\
  Total (badge_params 1500) = 42 + 60 /\
  LeftCenter (badge_params 1500) = 42 ÷ 2 + 1 /\
  RightCenter (badge_params 1500) = 42 + 60 ÷ 2 - 1.
Proof.
  assert (Hn : GoInt.inRange 1500) by (vm_compute; split; discriminate).
  exact (badge_params_geometry 1500 Hn).
Defined.

(** ** The handler *)

Lemma badge_render_run (total : Z) (w : World) :
  badge_render total w = Next tt (after w (rendered total)).
Proof.
  unfold badge_render, after, rendered, mbind, M_bind, bind, emit, record.
  cbn [cache store trace]. by rewrite <- !app_assoc.
Qed.

(** The handler once the path has been cut. *)
Lemma badge_run (env : Env) (r : Request) (w : World) (id : string) :
  slice (URL_Path r) 7 (len (URL_Path r) - 4) = Some id ->
  badge env r w = (badge_total env id ≫= badge_render) w.
Proof. intros Hid. unfold badge. by rewrite Hid. Qed.

Lemma after_after (w : World) (l1 l2 : list Event) :
  after (after w l1) l2 = after w (l1 ++ l2).
Proof. unfold after. cbn [cache store trace]. by rewrite app_assoc. Qed.

Lemma record_after (w : World) (e : Event) : record e w = after w [e].
Proof. done. Qed.

(** A cache entry that parses is the whole resolution. *)
Lemma badge_total_hit (env : Env) (w : World) (id : string)
    (item : memcache.Item) (n : Z) :
  cache w !! ("b:" +:+ id) = Some item ->
  strconv.Atoi (memcache.Value item) = inl n ->
  badge_total env id w = Next n (after w [CacheGet ("b:" +:+ id)]).
Proof.
  intros Hc Hn.
  unfold badge_total, mbind, M_bind, bind, memcache_Get.
  by rewrite Hc, Hn.
Qed.

(** C2. When the cache holds an entry for "b:" + id whose value parses as
    an integer, the resolution yields that integer after the single cache
    read: nothing is read from or written to the datastore, the API is not
    called, and the badge of that integer is rendered. *)
Theorem badge_cache_hit (env : Env) (r : Request) (w : World)
    (id : string) (item : memcache.Item) (n : Z) :
  slice (URL_Path r) 7 (len (URL_Path r) - 4) = Some id ->
  cache w !! ("b:" +:+ id) = Some item ->
  strconv.Atoi (memcache.Value item) = inl n ->
  badge_total env id w = Next n (after w [CacheGet ("b:" +:+ id)]) /\
  badge env r w = Next tt (after w (CacheGet ("b:" +:+ id) :: rendered n)).
Proof.
  intros Hid Hc Hn.
  pose proof (badge_total_hit env w id item n Hc Hn) as Ht.
  split; [done|].
  rewrite (badge_run env r w id Hid). unfold mbind, M_bind, bind.
  rewrite Ht, badge_render_run, after_after. done.
Qed.

Lemma badge_cache_hit_witness :
  badge_total quiet_env "p1" example_world
    = Next 42 (after example_world [CacheGet "b:p1"]) /\
  badge quiet_env {| URL_Path := "/badge/p1.svg" |} example_world
    = Next tt (after example_world (CacheGet "b:p1" :: rendered 42)).
Proof.
  exact (badge_cache_hit quiet_env {| URL_Path := "/badge/p1.svg" |} example_world
           "p1" {| memcache.Key := "b:p1"; memcache.Value := "42";
                   memcache.Expiration := time.Hour * 12 |} 42
           eq_refl eq_refl eq_refl).
Defined.

(** C3. When the cache holds an entry for "b:" + id whose value does not
    parse as an integer, the handler logs the parse error and returns:
    neither the datastore nor the API is consulted, no header is set and no
    template is executed. *)
Theorem badge_cache_corrupt (env : Env) (r : Request) (w : World)
    (id : string) (item : memcache.Item) (e : strconv.NumError) :
  slice (URL_Path r) 7 (len (URL_Path r) - 4) = Some id ->
  cache w !! ("b:" +:+ id) = Some item ->
  strconv.Atoi (memcache.Value item) = inr e ->
  badge_total env id w
    = Returned (after w [CacheGet ("b:" +:+ id);
                         LogError "badge(Memcache read) error: %#v" (NumError e)]) /\
  badge env r w
    = Returned (after w [CacheGet ("b:" +:+ id);
                         LogError "badge(Memcache read) error: %#v" (NumError e)]).
Proof.
  intros Hid Hc He.
  assert (Ht : badge_total env id w
               = Returned (after w [CacheGet ("b:" +:+ id);
                                    LogError "badge(Memcache read) error: %#v" (NumError e)])).
  { unfold badge_total, mbind, M_bind, bind, memcache_Get.
    rewrite Hc, He. unfold c_Errorf, emit, return_.
    by rewrite !record_after, after_after. }
  split; [done|].
  rewrite (badge_run env r w id Hid). unfold mbind, M_bind, bind.
  by rewrite Ht.
Qed.

Lemma badge_cache_corrupt_witness :
  badge quiet_env {| URL_Path := "/badge/p2.svg" |} example_world
    = Returned (after example_world
                  [CacheGet "b:p2";
                   LogError "badge(Memcache read) error: %#v"
                            (NumError strconv.ErrSyntax)]).
Proof.
  exact (proj2 (badge_cache_corrupt quiet_env {| URL_Path := "/badge/p2.svg" |}
                  example_world "p2"
                  {| memcache.Key := "b:p2"; memcache.Value := "not-a-number";
                     memcache.Expiration := time.Hour * 12 |}
                  strconv.ErrSyntax eq_refl eq_refl eq_refl)).
Defined.

(** C4. When the cache has no entry for "b:" + id and the datastore has no
    entity under the Property key of id, the handler logs the datastore's
    no-such-entity error and returns: the cache is not written, and no
    header is set and no template executed. *)
Theorem badge_unknown_property (env : Env) (r : Request) (w : World) (id : string) :
  slice (URL_Path r) 7 (len (URL_Path r) - 4) = Some id ->
  cache w !! ("b:" +:+ id) = None ->
  store w !! datastore.NewKey "Property" id = None ->
  badge_total env id w
    = Returned (after w [CacheGet ("b:" +:+ id);
                         StoreGet (datastore.NewKey "Property" id);
                         LogError "badge(Property) error: %#v" ErrNoSuchEntity]) /\
  badge env r w
    = Returned (after w [CacheGet ("b:" +:+ id);
                         StoreGet (datastore.NewKey "Property" id);
                         LogError "badge(Property) error: %#v" ErrNoSuchEntity]).
Proof.
  intros Hid Hc Hs.
  assert (Ht : badge_total env id w
               = Returned (after w [CacheGet ("b:" +:+ id);
                                    StoreGet (datastore.NewKey "Property" id);
                                    LogError "badge(Property) error: %#v" ErrNoSuchEntity])).
  { unfold badge_total, mbind, M_bind, bind, memcache_Get, datastore_Get_Property.
    rewrite Hc. cbn [store record]. rewrite Hs.
    unfold c_Errorf, emit, return_.
    rewrite !record_after. fold (after w [CacheGet ("b:" +:+ id)]).
    by rewrite !after_after. }
  split; [done|].
  rewrite (badge_run env r w id Hid). unfold mbind, M_bind, bind.
  by rewrite Ht.
Qed.

Lemma badge_unknown_property_witness :
  badge quiet_env {| URL_Path := "/badge/ghost.svg" |} example_world
    = Returned (after example_world
                  [CacheGet "b:ghost";
                   StoreGet (datastore.NewKey "Property" "ghost");
                   LogError "badge(Property) error: %#v" ErrNoSuchEntity]).
Proof.
  exact (proj2 (badge_unknown_property quiet_env {| URL_Path := "/badge/ghost.svg" |}
                  example_world "ghost" eq_refl eq_refl eq_refl)).
Defined.

(** *** The path *)

Lemma substring_0_append (s suf : string) :
  substring 0 (String.length s) (s +:+ suf) = s.
Proof.
  induction s as [|c s IH].
  - destruct suf; reflexivity.
  - simpl. by rewrite IH.
Qed.

Lemma substring_middle (pre s suf : string) :
  substring (String.length pre) (String.length s) (pre +:+ s +:+ suf) = s.
Proof.
  induction pre as [|c pre IH].
  - exact (substring_0_append s suf).
  - simpl. exact IH.
Qed.

(** Cutting a path made of seven bytes, an id and four more bytes. *)
Lemma slice_path (pre id suf : string) :
  String.length pre = 7%nat -> String.length suf = 4%nat ->
  slice (pre +:+ id +:+ suf) 7 (len (pre +:+ id +:+ suf) - 4) = Some id.
Proof.
  intros Hpre Hsuf. unfold slice, len. rewrite !append_length, Hpre, Hsuf.
  destruct (Z.leb_spec 0 7); [|lia].
  destruct (Z.leb_spec 7 (Z.of_nat (7 + (String.length id + 4)) - 4)); [|lia].
  destruct (Z.leb_spec (Z.of_nat (7 + (String.length id + 4)) - 4)
                       (Z.of_nat (7 + (String.length id + 4)))); [|lia].
  cbn [andb]. f_equal.
  replace (Z.to_nat (Z.of_nat (7 + (String.length id + 4)) - 4 - 7))
    with (String.length id) by lia.
  replace (Z.to_nat 7) with (String.length pre) by lia.
  apply substring_middle.
Qed.

(** C9. The handler cuts the path as [path[7 : len(path)-4]] whatever the
    path is.  A path shorter than 11 bytes makes the bounds invalid and the
    handler panics before any call is made; otherwise the id is what lies
    between the first seven and the last four bytes, whether or not these
    four are ".svg": "/badge/abc.png" resolves the id "abc", and
    "/badge/abc" panics. *)
Theorem badge_path_slice (env : Env) (r : Request) (w : World) :
  ((len (URL_Path r) < 11 /\ badge env r w = Panicked w) \/
   (11 <= len (URL_Path r) /\
    badge env r w
      = (badge_total env
           (substring 7 (String.length (URL_Path r) - 11) (URL_Path r))
         ≫= badge_render) w)) /\
  (forall pre id suf : string,
      String.length pre = 7%nat -> String.length suf = 4%nat ->
      badge env {| URL_Path := pre +:+ id +:+ suf |} w
        = (badge_total env id ≫= badge_render) w) /\
  badge env {| URL_Path := "/badge/abc.png" |} w
    = (badge_total env "abc" ≫= badge_render) w /\
  badge env {| URL_Path := "/badge/abc" |} w = Panicked w.
Proof.
  split; [|split; [|split]].
  - destruct (Z.lt_ge_cases (len (URL_Path r)) 11) as [Hlt|Hge]; [left|right];
      (split; [done|]).
    + unfold badge, slice.
      destruct (Z.leb_spec 7 (len (URL_Path r) - 4)); [lia|].
      by rewrite andb_false_r.
    + apply badge_run. unfold slice.
      destruct (Z.leb_spec 0 7); [|lia].
      destruct (Z.leb_spec 7 (len (URL_Path r) - 4)); [|lia].
      destruct (Z.leb_spec (len (URL_Path r) - 4) (len (URL_Path r))); [|lia].
      cbn [andb]. unfold len in *. do 2 f_equal; lia.
  - intros pre id suf Hpre Hsuf. apply badge_run. cbn [URL_Path].
    by apply slice_path.
  - by apply badge_run.
  - done.
Qed.

(** *** The miss path *)

(** After a cache miss, a successful fetch and a successful parse: the
    value is written to the cache for twelve hours (a failed write is
    logged), the token of the transport is stored into the account, and the
    account is put back exactly when it differs from the one loaded.  The
    error of a failed put is dropped. *)
Lemma badge_total_miss (env : Env) (w : World) (id : string) (p : Property)
    (a : Account) (t' : oauth.Token) (result : analytics.GaData) (n : Z) :
  cache w !! ("b:" +:+ id) = None ->
  store w !! datastore.NewKey "Property" id = Some (PropertyEntity p) ->
  store w !! Property_Account p = Some (AccountEntity a) ->
  analyticsNewErr env = None ->
  analyticsDo env (GetToken a) ("ga:" +:+ Property_Profile p)
              "7daysAgo" "yesterday" "ga:users" = (Some t', inl result) ->
  strconv.Atoi (default "" (analytics.TotalsForAllResults result !! "ga:users"))
    = inl n ->
  let item := {| memcache.Key := "b:" +:+ id;
                 memcache.Value := strconv.Itoa n;
                 memcache.Expiration := time.Hour * 12 |} in
  let a' := SetToken a t' in
  badge_total env id w
  = Next n
      {| cache := match memcacheSetErr env item with
                  | Some _ => cache w
                  | None => <["b:" +:+ id := item]> (cache w)
                  end;
         store := if decide (a' <> a)
                  then match datastorePutErr env (Property_Account p) a' with
                       | Some _ => store w
                       | None => <[Property_Account p := AccountEntity a']> (store w)
                       end
                  else store w;
         trace := trace w
                  ++ [CacheGet ("b:" +:+ id);
                      StoreGet (datastore.NewKey "Property" id);
                      StoreGet (Property_Account p);
                      ApiGet (GetToken a) ("ga:" +:+ Property_Profile p)
                             "7daysAgo" "yesterday" "ga:users";
                      CacheSet item]
                  ++ match memcacheSetErr env item with
                     | Some err => [LogError "badge(Memcache) error: %#v" err]
                     | None => []
                     end
                  ++ [LogInfo "setting: %#v" (Some t')]
                  ++ (if decide (a' <> a)
                      then [StorePut (Property_Account p) a']
                      else []) |}.
Proof.
  intros Hc Hp Ha Hnew Hdo Hn item a'.
  unfold badge_total, mbind, M_bind, bind, memcache_Get, datastore_Get_Property,
    datastore_Get_Account, analytics_Do, memcache_Set, datastore_Put,
    c_Errorf, c_Infof, emit, pure, record.
  rewrite Hc. cbn [cache store trace]. rewrite Hp. cbn [cache store trace].
  rewrite Ha, Hnew, Hdo, Hn. cbn [cache store trace].
  fold item. fold a'.
  destruct (memcacheSetErr env item) as [err|];
    cbn [cache store trace];
    destruct (decide (a' <> a)) as [Hd|Hd];
    cbn [cache store trace];
    try destruct (datastorePutErr env (Property_Account p) a') as [err'|];
    cbn [cache store trace];
    f_equal; f_equal; by rewrite <- ?app_assoc.
Qed.

(** The two tiers agree: once the miss path has written the cache, the
    next resolution of the same id is a hit with the same value, whatever the
    services then answer. *)
Lemma badge_total_miss_then_hit (env env' : Env) (w w' : World) (id : string)
    (p : Property) (a : Account) (t' : oauth.Token) (result : analytics.GaData)
    (n : Z) :
  cache w !! ("b:" +:+ id) = None ->
  store w !! datastore.NewKey "Property" id = Some (PropertyEntity p) ->
  store w !! Property_Account p = Some (AccountEntity a) ->
  analyticsNewErr env = None ->
  analyticsDo env (GetToken a) ("ga:" +:+ Property_Profile p)
              "7daysAgo" "yesterday" "ga:users" = (Some t', inl result) ->
  strconv.Atoi (default "" (analytics.TotalsForAllResults result !! "ga:users"))
    = inl n ->
  memcacheSetErr env {| memcache.Key := "b:" +:+ id;
                        memcache.Value := strconv.Itoa n;
                        memcache.Expiration := time.Hour * 12 |} = None ->
  badge_total env id w = Next n w' ->
  badge_total env' id w' = Next n (after w' [CacheGet ("b:" +:+ id)]).
Proof.
  intros Hc Hp Ha Hnew Hdo Hn Hset Hrun.
  rewrite (badge_total_miss env w id p a t' result n Hc Hp Ha Hnew Hdo Hn) in Hrun.
  cbv zeta in Hrun. rewrite Hset in Hrun. injection Hrun as <-.
  eapply badge_total_hit.
  - cbn [cache]. apply lookup_insert_eq.
  - cbn [memcache.Value]. apply Atoi_Itoa. by eapply Atoi_inRange.
Qed.

(** C1. A request for "/badge/p3.svg" on a cold cache, while the API call
    refreshes the access token and [datastore.Put] fails.  The fetched 7 is
    written to the cache under "b:p3" for twelve hours, the account is put
    back with the new access token and expiry and with its old refresh
    token, the put fails and leaves the datastore as it was, and the badge of
    7 is rendered.  Between the put and the headers the trace holds no
    [LogError]: the error of the failed put is assigned and never logged. *)
Theorem badge_put_failure_not_logged :
  datastorePutErr refresh_env alice_key (SetToken alice refreshed_token)
    = Some (ErrService "datastore: put failed") /\
  badge refresh_env {| URL_Path := "/badge/p3.svg" |} example_world
  = Next tt
      {| cache := <["b:p3" := cached_7]> (cache example_world);
         store := store example_world;
         trace := [CacheGet "b:p3";
                   StoreGet (datastore.NewKey "Property" "p3");
                   StoreGet alice_key;
                   ApiGet (Some {| oauth.AccessToken := "old";
                                   oauth.RefreshToken := "r";
                                   oauth.Expiry := 100 |})
                          "ga:123" "7daysAgo" "yesterday" "ga:users";
                   CacheSet cached_7;
                   LogInfo "setting: %#v" (Some refreshed_token);
                   StorePut alice_key
                            {| Username := "alice"; AccessToken := "new";
                               RefreshToken := "r"; Expiry := 200 |};
                   Header "Content-Type" "image/svg+xml";
                   Header "Cache-Control" "public, max-age=3600";
                   Template "badge.svg" (badge_params 7)] |}.
Proof.
  split; [done|].
  rewrite (badge_run refresh_env {| URL_Path := "/badge/p3.svg" |} example_world
             "p3" eq_refl).
  unfold mbind, M_bind, bind.
  rewrite (badge_total_miss refresh_env example_world "p3"
             {| Property_Account := alice_key; Property_Id := "p3";
                Property_Profile := "123" |}
             alice refreshed_token
             {| analytics.TotalsForAllResults := {[ "ga:users" := "7" ]} |} 7
             eq_refl eq_refl eq_refl eq_refl eq_refl eq_refl).
  rewrite badge_render_run. unfold after. cbn [cache store trace].
  rewrite decide_True by discriminate.
  reflexivity.
Qed.

(** * Further properties *)

(** ** More on the token holder *)

Lemma SetToken_GetToken_id (a : Account) (t : oauth.Token) :
  GetToken a = Some t -> SetToken a t = a.
Proof.
  unfold GetToken. destruct (String.eqb (AccessToken a) ""); [done|].
  intros [= <-]. unfold SetToken. destruct a as [u at_ rt ex]. cbn.
  by destruct (String.eqb rt "").
Qed.

(** X1. Putting back the token that [GetToken] handed out leaves the
    account exactly as it was: an account has a token only when its access
    token is not empty, the token carries the account's three credential
    fields, and [SetToken] with it changes nothing. *)
Theorem GetToken_SetToken_round_trip (a : Account) (t : oauth.Token) :
  GetToken a = Some t ->
  SetToken a t = a /\
  AccessToken a <> "" /\
  oauth.AccessToken t = AccessToken a /\
  oauth.RefreshToken t = RefreshToken a /\
  oauth.Expiry t = Expiry a.
Proof.
  intros Ht. split; [by apply SetToken_GetToken_id|].
  unfold GetToken in Ht.
  destruct (String.eqb_spec (AccessToken a) "") as [|Hne]; [done|].
  injection Ht as <-. done.
Qed.

Lemma GetToken_SetToken_round_trip_witness :
  SetToken alice {| oauth.AccessToken := "old"; oauth.RefreshToken := "r";
                    oauth.Expiry := 100 |} = alice.
Proof.
  exact (proj1 (GetToken_SetToken_round_trip alice
                  {| oauth.AccessToken := "old"; oauth.RefreshToken := "r";
                     oauth.Expiry := 100 |} eq_refl)).
Defined.

(** X2. After [SetToken], [GetToken] hands out the new access token and
    expiry together with the refresh token that was kept (the new one, or
    the account's when the new one is empty); a credential with an empty
    access token leaves the account without a token.  Setting the same
    token twice is the same as setting it once. *)
Theorem SetToken_then_GetToken (a : Account) (t : oauth.Token) :
  ((oauth.AccessToken t = "" /\ GetToken (SetToken a t) = None) \/
   (oauth.AccessToken t <> "" /\
    GetToken (SetToken a t)
    = Some {| oauth.AccessToken := oauth.AccessToken t;
              oauth.RefreshToken := if String.eqb (oauth.RefreshToken t) ""
                                    then RefreshToken a
                                    else oauth.RefreshToken t;
              oauth.Expiry := oauth.Expiry t |})) /\
  SetToken (SetToken a t) t = SetToken a t.
Proof.
  split.
  - unfold GetToken, SetToken.
    destruct (String.eqb_spec (oauth.RefreshToken t) "") as [Hr|Hr]; cbn;
      destruct (String.eqb_spec (oauth.AccessToken t) "") as [Ha|Ha];
      (left; by split) || (right; by split).
  - unfold SetToken.
    by destruct (String.eqb (oauth.RefreshToken t) "").
Qed.

(** ** More on widths *)

Lemma sumZ_app (l1 l2 : list Z) : sumZ (l1 ++ l2) = sumZ l1 + sumZ l2.
Proof.
  induction l1 as [|x l1 IH]; cbn [app sumZ fold_right]; [done|].
  fold (sumZ (l1 ++ l2)). fold (sumZ l1). lia.
Qed.

Lemma runes_ascii_app (s1 s2 : string) :
  isASCII s1 = true -> utf8.runes (s1 +:+ s2) = (bytes s1 ++ utf8.runes s2)%list.
Proof.
  induction s1 as [|c s1 IH]; [done|].
  cbn [isASCII]. intros [Hc Hs]%andb_true_iff.
  change (String c s1 +:+ s2) with (String c (s1 +:+ s2)).
  cbn [utf8.runes bytes app]. rewrite Hc. f_equal. by apply IH.
Qed.

Lemma append_empty_r (s : string) : s +:+ "" = s.
Proof.
  induction s as [|c s IH]; [done|].
  change (String c s +:+ "") with (String c (s +:+ "")). by rewrite IH.
Qed.

Lemma runes_ascii (s : string) : isASCII s = true -> utf8.runes s = bytes s.
Proof.
  intros Hs. pose proof (runes_ascii_app s "" Hs) as H.
  rewrite append_empty_r in H. rewrite H. cbn [utf8.runes]. apply app_nil_r.
Qed.

Lemma isASCII_app (s1 s2 : string) :
  isASCII s1 = true -> isASCII s2 = true -> isASCII (s1 +:+ s2) = true.
Proof.
  induction s1 as [|c s1 IH]; [done|].
  cbn [isASCII]. intros [Hc Hs]%andb_true_iff H2.
  change (String c s1 +:+ s2) with (String c (s1 +:+ s2)).
  cbn [isASCII]. rewrite Hc. by apply IH.
Qed.

Lemma runes_nonempty (s : string) : s <> "" -> utf8.runes s <> [].
Proof.
  destruct s as [|c s]; [done|]. intros _. cbn [utf8.runes].
  repeat case_match; discriminate.
Qed.

Lemma sumZ_increment_bounds (l : list utf8.rune) :
  2 * Z.of_nat (length l) <= sumZ (map increment l) <= 10 * Z.of_nat (length l).
Proof.
  induction l as [|c l IH]; cbn [length sumZ map fold_right]; [lia|].
  fold (sumZ (map increment l)). pose proof (increment_bounds c). lia.
Qed.

(** Appending to a string of bytes below 0x80 adds the widths, counting
    the base once. *)
Lemma size_app_ascii (s1 s2 : string) :
  isASCII s1 = true ->
  10 + 10 * len (s1 +:+ s2) <= GoInt.maxInt ->
  size (s1 +:+ s2) = size s1 + size s2 - 10.
Proof.
  intros Ha Hmax.
  assert (Hlen : len (s1 +:+ s2) = len s1 + len s2).
  { unfold len. rewrite append_length. lia. }
  assert (0 <= len s1 /\ 0 <= len s2) as [? ?] by (unfold len; lia).
  rewrite (size_sum (s1 +:+ s2)) by done.
  rewrite (size_sum s1), (size_sum s2) by lia.
  rewrite runes_ascii_app, (runes_ascii s1) by done.
  rewrite map_app, sumZ_app. lia.
Qed.

(** X3. As long as ten per byte fits in an [int], [size s] lies between
    10 + 2 and 10 + 10 per rune, a string has no more runes than bytes, and
    only the empty string measures less than 12. *)
Theorem size_bounds_by_runes (s : string) :
  10 + 10 * len s <= GoInt.maxInt ->
  10 + 2 * Z.of_nat (length (utf8.runes s)) <= size s
    <= 10 + 10 * Z.of_nat (length (utf8.runes s)) /\
  (length (utf8.runes s) <= String.length s)%nat /\
  (s <> "" -> 12 <= size s).
Proof.
  intros Hmax. rewrite size_sum by done.
  pose proof (sumZ_increment_bounds (utf8.runes s)) as Hb.
  split; [lia|]. split; [apply runes_length|].
  intros Hne. apply runes_nonempty in Hne.
  destruct (utf8.runes s) as [|c l]; [done|]. cbn [length] in Hb. lia.
Qed.

Lemma size_bounds_by_runes_witness :
  10 + 2 * 2 <= size "Wi" <= 10 + 10 * 2.
Proof.
  assert (Hs : 10 + 10 * len "Wi" <= GoInt.maxInt) by (vm_compute; discriminate).
  exact (proj1 (size_bounds_by_runes "Wi" Hs)).
Defined.

(** X4. Appending to a string of bytes below 0x80: the runes of the
    whole are the bytes of the first part followed by the runes of the
    second, and the widths add up, the base of 10 counted once. *)
Theorem size_append_ascii (s1 s2 : string) :
  isASCII s1 = true ->
  10 + 10 * len (s1 +:+ s2) <= GoInt.maxInt ->
  utf8.runes (s1 +:+ s2) = (bytes s1 ++ utf8.runes s2)%list /\
  size (s1 +:+ s2) = size s1 + size s2 - 10.
Proof.
  intros Ha Hmax. split; [by apply runes_ascii_app|by apply size_app_ascii].
Qed.

Lemma size_append_ascii_witness :
  size "1k/week" = size "1k" + size "/week" - 10.
Proof.
  assert (Hs : 10 + 10 * len ("1k" +:+ "/week") <= GoInt.maxInt)
    by (vm_compute; discriminate).
  exact (proj2 (size_append_ascii "1k" "/week" eq_refl Hs)).
Defined.

(** ** More on the layout *)

Lemma isASCII_formatBits (fuel : nat) :
  forall (u : Z) (rest : string),
    0 <= u -> isASCII rest = true ->
    isASCII (strconv.formatBits fuel u rest) = true.
Proof.
  assert (Hd : forall d, 0 <= d <= 9 -> (utf8.byte (strconv.digit d) <? 0x80) = true).
  { intros d Hd. pose proof (byte_digit d Hd) as Hb.
    change (strconv.byte (strconv.digit d)) with (utf8.byte (strconv.digit d)) in Hb.
    apply Z.ltb_lt. lia. }
  induction fuel as [|fuel IH]; intros u rest Hu Hrest; cbn [strconv.formatBits].
  - cbn [isASCII]. rewrite Hd, Hrest; [done|].
    pose proof (Z.mod_pos_bound u 10 ltac:(lia)). lia.
  - destruct (Z.leb_spec 10 u).
    + apply IH; [apply Z.div_pos; lia|].
      cbn [isASCII]. rewrite Hd, Hrest; [done|].
      pose proof (Z.mod_pos_bound u 10 ltac:(lia)). lia.
    + cbn [isASCII]. rewrite Hd, Hrest; [done|lia].
Qed.

Lemma isASCII_Itoa (i : Z) : isASCII (strconv.Itoa i) = true.
Proof.
  unfold strconv.Itoa.
  pose proof (isASCII_formatBits (Z.to_nat (Z.log2 (Z.abs i))) (Z.abs i) ""
                ltac:(lia) eq_refl) as H.
  destruct (i <? 0); [|done]. cbn [isASCII]. by rewrite H.
Qed.

Lemma Itoa_nonempty (i : Z) : strconv.Itoa i <> "".
Proof.
  unfold strconv.Itoa.
  destruct (formatBits_head (Z.to_nat (Z.log2 (Z.abs i))) (Z.abs i) "" ltac:(lia))
    as (d & s & _ & ->).
  by destruct (i <? 0).
Qed.

(** The label of [metric] is a non-empty string of bytes below 0x80. *)
Lemma metric_label_ascii (n : Z) :
  isASCII (metric n).1 = true /\ (metric n).1 <> "".
Proof.
  unfold metric.
  destruct (n >? 1000000); [|destruct (n >? 1000)]; cbn [fst].
  - split; [apply isASCII_app; [apply isASCII_Itoa|done]|].
    pose proof (Itoa_nonempty (n ÷ 1000000)).
    by destruct (strconv.Itoa (n ÷ 1000000)).
  - split; [apply isASCII_app; [apply isASCII_Itoa|done]|].
    pose proof (Itoa_nonempty (n ÷ 1000)).
    by destruct (strconv.Itoa (n ÷ 1000)).
  - split; [apply isASCII_Itoa|apply Itoa_nonempty].
Qed.

(** X5. For every [int] the left segment is 42 wide with its text centred
    at 22, the right segment is 38 wider than the [size] of the magnitude
    label and between 50 and 720 wide, and each text centre lies strictly
    inside its own segment. *)
Theorem badge_params_centres (n : Z) :
  GoInt.inRange n ->
  LeftWidth (badge_params n) = 42 /\
  LeftCenter (badge_params n) = 22 /\
  RightWidth (badge_params n) = size (metric n).1 + 38 /\
  50 <= RightWidth (badge_params n) <= 720 /\
  0 < LeftCenter (badge_params n) < LeftWidth (badge_params n) /\
  LeftWidth (badge_params n) < RightCenter (badge_params n)
    < Total (badge_params n).
Proof.
  intros Hn. pose proof (metric_label_length n Hn) as Hlen.
  destruct (metric_label_ascii n) as [Hascii Hne].
  unfold badge_params. destruct (metric n) as [number color]. cbn [fst snd] in *.
  cbn [Left Right Color LeftWidth RightWidth Total LeftCenter RightCenter].
  change (size "users") with 42.
  assert (Hl : len (number +:+ "/week") <= 71).
  { unfold len. rewrite append_length. cbn [String.length]. lia. }
  assert (Hmax : 10 + 10 * len (number +:+ "/week") <= GoInt.maxInt)
    by (unfold GoInt.maxInt; lia).
  assert (Hadd : size (number +:+ "/week") = size number + 38).
  { rewrite size_app_ascii by done. change (size "/week") with 48. lia. }
  assert (Hnum : 12 <= size number).
  { assert (Hmax' : 10 + 10 * len number <= GoInt.maxInt).
    { unfold GoInt.maxInt, len in *. rewrite append_length in Hl. lia. }
    rewrite size_sum by done.
    pose proof (sumZ_increment_bounds (utf8.runes number)) as Hb.
    apply runes_nonempty in Hne.
    destruct (utf8.runes number) as [|c l]; [done|]. cbn [length] in Hb. lia. }
  pose proof (size_bounds (number +:+ "/week") Hmax) as Hb.
  set (rw := size (number +:+ "/week")) in *.
  assert (Hq : 0 <= rw ÷ 2 /\ 2 * (rw ÷ 2) <= rw /\ rw < 2 * (rw ÷ 2) + 2).
  { rewrite Z.quot_div_nonneg by lia.
    pose proof (Z.div_mod rw 2 ltac:(lia)).
    pose proof (Z.mod_pos_bound rw 2 ltac:(lia)). lia. }
  unfold GoInt.add, GoInt.sub, GoInt.quo.
  change (42 ÷ 2) with 21.
  rewrite (wrap_id 21) by in_range.
  rewrite (wrap_id (21 + 1)) by in_range.
  rewrite (wrap_id (rw ÷ 2)) by in_range.
  rewrite (wrap_id (42 + rw)) by in_range.
  rewrite (wrap_id (42 + rw ÷ 2)) by in_range.
  rewrite (wrap_id (42 + rw ÷ 2 - 1)) by in_range.
  lia.
Qed.

Lemma badge_params_centres_witness :
  LeftWidth (badge_params 1500) < RightCenter (badge_params 1500)
    < Total (badge_params 1500).
Proof.
  assert (Hn : GoInt.inRange 1500) by (vm_compute; split; discriminate).
  destruct (badge_params_centres 1500 Hn) as (_ & _ & _ & _ & _ & H).
  exact H.
Defined.


(** ** All the paths of the handler *)

(** An early return of the resolution: nothing was written, and what was
    appended to the trace are reads and the log of the error. *)
Lemma badge_total_returned (env : Env) (id : string) (w w' : World) :
  badge_total env id w = Returned w' ->
  cache w' = cache w /\ store w' = store w /\
  exists evs : list Event,
    trace w' = (trace w ++ evs)%list /\
    forallb (fun e => isRead e || isLogError e) evs = true /\
    existsb isLogError evs = true.
Proof.
  unfold_badge_total. intros H.
  repeat step_run H; injection H as <-; cbn [cache store trace];
    rewrite <- ?app_assoc; cbn [app];
    (split; [done|]; split; [done|]; eexists; split; [done|]; by split).
Qed.

(** A resolution that yields a value: the value is an [int], and no call
    on the response writer was made yet. *)
Lemma badge_total_next (env : Env) (id : string) (w w' : World) (n : Z) :
  badge_total env id w = Next n w' ->
  GoInt.inRange n /\
  exists evs : list Event,
    trace w' = (trace w ++ evs)%list /\
    forallb (fun e => negb (isResponse e)) evs = true.
Proof.
  unfold_badge_total. intros H.
  repeat step_run H; injection H as <- <-; cbn [cache store trace];
    rewrite <- ?app_assoc; cbn [app];
    (split; [by eapply Atoi_inRange|]; eexists; by split).
Qed.

Lemma SetToken_Username (a : Account) (t : oauth.Token) :
  Username (SetToken a t) = Username a.
Proof. unfold SetToken. by destruct (negb (String.eqb (oauth.RefreshToken t) "")). Qed.

(** Whatever the resolution does, it leaves every other cache entry alone,
    it rewrites at most the account of the property, under its own key and
    with its own user name, and it only adds to the trace. *)
Lemma badge_total_frame (env : Env) (id : string) (w : World) (r : Result Z) :
  badge_total env id w = r ->
  (forall k : string,
      k <> "b:" +:+ id -> cache (world_of r) !! k = cache w !! k) /\
  (forall (k : datastore.Key) (e' : Entity),
      store (world_of r) !! k = Some e' -> store w !! k <> Some e' ->
      exists (p : Property) (a a' : Account),
        store w !! datastore.NewKey "Property" id = Some (PropertyEntity p) /\
        k = Property_Account p /\
        store w !! k = Some (AccountEntity a) /\
        e' = AccountEntity a' /\
        Username a' = Username a) /\
  dom (store (world_of r)) = dom (store w) /\
  exists evs : list Event, trace (world_of r) = (trace w ++ evs)%list.
Proof.
  unfold_badge_total. intros H.
  repeat step_run H; subst r; cbn [world_of cache store trace].
  all: rewrite <- ?app_assoc; cbn [app].
  all: (split; [intros k Hk; by rewrite ?lookup_insert_ne by done|]).
  all: (split; [|split; [|by eexists]]).
  all: try done.
  all: try (apply dom_insert_lookup_L; by eexists).
  all: intros k e' Hk Hne;
    match goal with
    | Hk : <[?ka := _]> _ !! _ = _ |- _ =>
        destruct (decide (k = ka)) as [->|Hd];
        [rewrite lookup_insert_eq in Hk; injection Hk as <-
        |by rewrite lookup_insert_ne in Hk by done]
    end;
    match goal with
    | Hne : _ ≠ Some (AccountEntity (SetToken ?a ?t)),
      Hp : _ = Some (PropertyEntity ?p) |- _ =>
        exists p, a, (SetToken a t)
    end;
    repeat split; try done; try apply SetToken_Username.
Qed.


(** The handler in terms of the resolution. *)
Lemma badge_cases (env : Env) (r : Request) (w : World) :
  (slice (URL_Path r) 7 (len (URL_Path r) - 4) = None /\
   badge env r w = Panicked w) \/
  (exists id : string,
      slice (URL_Path r) 7 (len (URL_Path r) - 4) = Some id /\
      badge env r w
      = match badge_total env id w with
        | Next n w1 => Next tt (after w1 (rendered n))
        | Returned w1 => Returned w1
        | Panicked w1 => Panicked w1
        end).
Proof.
  unfold badge, mbind, M_bind, bind.
  destruct (slice (URL_Path r) 7 (len (URL_Path r) - 4)) as [id|]; [right|by left].
  exists id. split; [done|].
  unfold pure. destruct (badge_total env id w); [apply badge_render_run|done..].
Qed.

(** X6. Whenever the handler returns early it has written nothing: the
    cache and the datastore are as before, and all it added to the trace
    are reads of the collaborators and at least one error log; in
    particular no header, no template, no cache write and no put. *)
Theorem badge_early_return_writes_nothing (env : Env) (r : Request) (w w' : World) :
  badge env r w = Returned w' ->
  cache w' = cache w /\ store w' = store w /\
  exists evs : list Event,
    trace w' = (trace w ++ evs)%list /\
    forallb (fun e => isRead e || isLogError e) evs = true /\
    existsb isLogError evs = true.
Proof.
  destruct (badge_cases env r w) as [[_ ->]|(id & _ & ->)]; [done|].
  destruct (badge_total env id w) as [n w1|w1|w1] eqn:Ht; [done| |done].
  intros [= <-]. by apply (badge_total_returned env id).
Qed.

Lemma badge_early_return_writes_nothing_witness :
  cache (after example_world
           [CacheGet "b:ghost"; StoreGet (datastore.NewKey "Property" "ghost");
            LogError "badge(Property) error: %#v" ErrNoSuchEntity])
  = cache example_world.
Proof.
  exact (proj1 (badge_early_return_writes_nothing quiet_env
                  {| URL_Path := "/badge/ghost.svg" |} example_world _ eq_refl)).
Defined.

(** X7. Whenever the handler runs to its end, the last things it did
    are the two headers and the template on the parameters of some value of
    [int], and it touched the response writer at no earlier point. *)
Theorem badge_completed_renders (env : Env) (r : Request) (w w' : World) :
  badge env r w = Next tt w' ->
  exists (n : Z) (evs : list Event),
    GoInt.inRange n /\
    trace w' = (trace w ++ evs ++ rendered n)%list /\
    forallb (fun e => negb (isResponse e)) evs = true.
Proof.
  destruct (badge_cases env r w) as [[_ ->]|(id & _ & ->)]; [done|].
  destruct (badge_total env id w) as [n w1|w1|w1] eqn:Ht; [|done..].
  intros [= <-].
  destruct (badge_total_next env id w w1 n Ht) as (Hn & evs & Htr & Hq).
  exists n, evs. split; [done|]. split; [|done].
  unfold after. cbn [trace]. by rewrite Htr, app_assoc.
Qed.

Lemma badge_completed_renders_witness :
  exists (n : Z) (evs : list Event),
    GoInt.inRange n /\
    trace (after example_world (CacheGet "b:p1" :: rendered 42))
    = (trace example_world ++ evs ++ rendered n)%list /\
    forallb (fun e => negb (isResponse e)) evs = true.
Proof.
  exact (badge_completed_renders quiet_env {| URL_Path := "/badge/p1.svg" |}
           example_world _ eq_refl).
Defined.

(** X8. Whatever a request for the id does, it leaves every cache entry
    other than "b:" + id alone; if it changes a datastore entity, that
    entity is the account the property of the id refers to, rewritten under
    the same key with the same user name; it creates and deletes no
    entity; and it only adds to the trace. *)
Theorem badge_frame (env : Env) (r : Request) (w : World) (id : string) :
  slice (URL_Path r) 7 (len (URL_Path r) - 4) = Some id ->
  (forall k : string,
      k <> "b:" +:+ id -> cache (world_of (badge env r w)) !! k = cache w !! k) /\
  (forall (k : datastore.Key) (e' : Entity),
      store (world_of (badge env r w)) !! k = Some e' ->
      store w !! k <> Some e' ->
      exists (p : Property) (a a' : Account),
        store w !! datastore.NewKey "Property" id = Some (PropertyEntity p) /\
        k = Property_Account p /\
        store w !! k = Some (AccountEntity a) /\
        e' = AccountEntity a' /\
        Username a' = Username a) /\
  dom (store (world_of (badge env r w))) = dom (store w) /\
  exists evs : list Event, trace (world_of (badge env r w)) = (trace w ++ evs)%list.
Proof.
  intros Hid.
  destruct (badge_cases env r w) as [[Hn _]|(id' & Hid' & ->)]; [congruence|].
  assert (id' = id) as -> by congruence.
  pose proof (badge_total_frame env id w _ eq_refl) as (Hc & Hs & Hd & evs & Htr).
  destruct (badge_total env id w) as [n w1|w1|w1];
    cbn [world_of after cache store trace] in *;
    (split; [done|]; split; [done|]; split; [done|]).
  - exists (evs ++ rendered n)%list. by rewrite Htr, app_assoc.
  - by exists evs.
  - by exists evs.
Qed.

Lemma badge_frame_witness :
  cache (world_of (badge refresh_env {| URL_Path := "/badge/p3.svg" |} example_world))
    !! "b:p1"
  = cache example_world !! "b:p1".
Proof.
  exact (proj1 (badge_frame refresh_env {| URL_Path := "/badge/p3.svg" |}
                  example_world "p3" eq_refl) "b:p1" ltac:(discriminate)).
Defined.

(** A panic of the resolution comes from a call that succeeded without
    leaving a token in the transport. *)
Lemma badge_total_panicked (env : Env) (id : string) (w w' : World) :
  badge_total env id w = Panicked w' ->
  exists (tok : option oauth.Token) (ids : string) (result : analytics.GaData),
    analyticsDo env tok ids "7daysAgo" "yesterday" "ga:users" = (None, inl result).
Proof.
  unfold_badge_total. intros H.
  repeat step_run H; eauto.
Qed.

(** X9. A request whose path has at least 11 bytes never panics, provided
    the analytics client never reports success while holding no token. *)
Theorem badge_never_panics (env : Env) (r : Request) (w w' : World) :
  11 <= len (URL_Path r) ->
  (forall (tok : option oauth.Token) (ids startDate endDate metrics : string)
          (result : analytics.GaData),
      analyticsDo env tok ids startDate endDate metrics <> (None, inl result)) ->
  badge env r w <> Panicked w'.
Proof.
  intros Hlen Htok.
  destruct (badge_cases env r w) as [[Hn _]|(id & _ & ->)].
  - exfalso. unfold slice in Hn.
    destruct (Z.leb_spec 0 7); [|lia].
    destruct (Z.leb_spec 7 (len (URL_Path r) - 4)); [|lia].
    destruct (Z.leb_spec (len (URL_Path r) - 4) (len (URL_Path r))); [|lia].
    done.
  - destruct (badge_total env id w) as [n w1|w1|w1] eqn:Ht; [done..|].
    destruct (badge_total_panicked env id w w1 Ht) as (tok & ids & result & Hdo).
    by destruct (Htok tok ids "7daysAgo" "yesterday" "ga:users" result).
Qed.

Lemma badge_never_panics_witness :
  badge refresh_env {| URL_Path := "/badge/p3.svg" |} example_world
  <> Panicked example_world.
Proof.
  apply (badge_never_panics refresh_env {| URL_Path := "/badge/p3.svg" |}
           example_world example_world).
  - vm_compute. discriminate.
  - intros tok ids startDate endDate metrics result. discriminate.
Defined.

(** X10. A request on a cold cache whose fetch and parse succeed: the
    value is written to the cache under "b:" + id as its decimal string for
    twelve hours (a failed write is logged and leaves the cache as it was),
    the token of the transport is stored into the account, the account is
    put back exactly when that changed it (a failed put leaves the datastore
    as it was), and the badge of the value is rendered. *)
Theorem badge_miss_fetch_renders (env : Env) (r : Request) (w : World)
    (id : string) (p : Property) (a : Account) (t' : oauth.Token)
    (result : analytics.GaData) (n : Z) :
  slice (URL_Path r) 7 (len (URL_Path r) - 4) = Some id ->
  cache w !! ("b:" +:+ id) = None ->
  store w !! datastore.NewKey "Property" id = Some (PropertyEntity p) ->
  store w !! Property_Account p = Some (AccountEntity a) ->
  analyticsNewErr env = None ->
  analyticsDo env (GetToken a) ("ga:" +:+ Property_Profile p)
              "7daysAgo" "yesterday" "ga:users" = (Some t', inl result) ->
  strconv.Atoi (default "" (analytics.TotalsForAllResults result !! "ga:users"))
    = inl n ->
  let item := {| memcache.Key := "b:" +:+ id;
                 memcache.Value := strconv.Itoa n;
                 memcache.Expiration := time.Hour * 12 |} in
  let a' := SetToken a t' in
  badge env r w
  = Next tt
      {| cache := match memcacheSetErr env item with
                  | Some _ => cache w
                  | None => <["b:" +:+ id := item]> (cache w)
                  end;
         store := if decide (a' <> a)
                  then match datastorePutErr env (Property_Account p) a' with
                       | Some _ => store w
                       | None => <[Property_Account p := AccountEntity a']> (store w)
                       end
                  else store w;
         trace := (trace w
                  ++ [CacheGet ("b:" +:+ id);
                      StoreGet (datastore.NewKey "Property" id);
                      StoreGet (Property_Account p);
                      ApiGet (GetToken a) ("ga:" +:+ Property_Profile p)
                             "7daysAgo" "yesterday" "ga:users";
                      CacheSet item]
                  ++ match memcacheSetErr env item with
                     | Some err => [LogError "badge(Memcache) error: %#v" err]
                     | None => []
                     end
                  ++ [LogInfo "setting: %#v" (Some t')]
                  ++ (if decide (a' <> a)
                      then [StorePut (Property_Account p) a']
                      else [])
                  ++ rendered n)%list |}.
Proof.
  intros Hid Hc Hp Ha Hnew Hdo Hn item a'.
  rewrite (badge_run env r w id Hid). unfold mbind, M_bind, bind.
  rewrite (badge_total_miss env w id p a t' result n Hc Hp Ha Hnew Hdo Hn).
  cbv zeta. fold item a'. rewrite badge_render_run. unfold after.
  cbn [cache store trace]. f_equal. f_equal. by rewrite <- !app_assoc.
Qed.

Lemma badge_miss_fetch_renders_witness :
  exists w' : World,
    badge quiet_env {| URL_Path := "/badge/p3.svg" |} example_world = Next tt w' /\
    cache w' !! "b:p3" = Some cached_7.
Proof.
  eexists. split.
  - exact (badge_miss_fetch_renders quiet_env {| URL_Path := "/badge/p3.svg" |}
             example_world "p3" p3 alice
             {| oauth.AccessToken := "old"; oauth.RefreshToken := "r";
                oauth.Expiry := 100 |}
             {| analytics.TotalsForAllResults := {[ "ga:users" := "7" ]} |} 7
             eq_refl eq_refl eq_refl eq_refl eq_refl eq_refl eq_refl).
  - reflexivity.
Defined.

(** X11. When the fetch leaves the token of the account as it was, a
    request on a cold cache puts nothing: the datastore is unchanged and
    the trace holds no put before the badge is rendered. *)
Theorem badge_miss_token_unchanged (env : Env) (r : Request) (w : World)
    (id : string) (p : Property) (a : Account) (t : oauth.Token)
    (result : analytics.GaData) (n : Z) :
  slice (URL_Path r) 7 (len (URL_Path r) - 4) = Some id ->
  cache w !! ("b:" +:+ id) = None ->
  store w !! datastore.NewKey "Property" id = Some (PropertyEntity p) ->
  store w !! Property_Account p = Some (AccountEntity a) ->
  analyticsNewErr env = None ->
  GetToken a = Some t ->
  analyticsDo env (Some t) ("ga:" +:+ Property_Profile p)
              "7daysAgo" "yesterday" "ga:users" = (Some t, inl result) ->
  strconv.Atoi (default "" (analytics.TotalsForAllResults result !! "ga:users"))
    = inl n ->
  exists w' : World,
    badge env r w = Next tt w' /\
    store w' = store w /\
    exists evs : list Event,
      trace w' = (trace w ++ evs ++ rendered n)%list /\
      forallb (fun e => match e with StorePut _ _ => false | _ => true end) evs
      = true.
Proof.
  intros Hid Hc Hp Ha Hnew Ht Hdo Hn.
  rewrite <- Ht in Hdo at 1.
  pose proof (badge_miss_fetch_renders env r w id p a t result n
                Hid Hc Hp Ha Hnew Hdo Hn) as Hrun.
  cbv zeta in Hrun. rewrite (SetToken_GetToken_id a t Ht) in Hrun.
  destruct (decide (a <> a)) as [Hne|_]; [done|].
  set (item := {| memcache.Key := "b:" +:+ id;
                  memcache.Value := strconv.Itoa n;
                  memcache.Expiration := time.Hour * 12 |}) in *.
  set (reads := [CacheGet ("b:" +:+ id);
                 StoreGet (datastore.NewKey "Property" id);
                 StoreGet (Property_Account p);
                 ApiGet (GetToken a) ("ga:" +:+ Property_Profile p)
                        "7daysAgo" "yesterday" "ga:users";
                 CacheSet item]) in *.
  destruct (memcacheSetErr env item) as [err|];
    (eexists; split; [exact Hrun|]; cbn [store trace]; split; [done|]).
  - exists (reads ++ [LogError "badge(Memcache) error: %#v" err;
                      LogInfo "setting: %#v" (Some t)])%list.
    split; [|done]. rewrite <- !app_assoc. by cbn [app].
  - exists (reads ++ [LogInfo "setting: %#v" (Some t)])%list.
    split; [|done]. rewrite <- !app_assoc. by cbn [app].
Qed.

Lemma badge_miss_token_unchanged_witness :
  exists w' : World,
    badge quiet_env {| URL_Path := "/badge/p3.svg" |} example_world = Next tt w' /\
    store w' = store example_world /\
    exists evs : list Event,
      trace w' = (trace example_world ++ evs ++ rendered 7)%list /\
      forallb (fun e => match e with StorePut _ _ => false | _ => true end) evs
      = true.
Proof.
  exact (badge_miss_token_unchanged quiet_env {| URL_Path := "/badge/p3.svg" |}
           example_world "p3" p3 alice
           {| oauth.AccessToken := "old"; oauth.RefreshToken := "r";
              oauth.Expiry := 100 |}
           {| analytics.TotalsForAllResults := {[ "ga:users" := "7" ]} |} 7
           eq_refl eq_refl eq_refl eq_refl eq_refl eq_refl eq_refl eq_refl).
Defined.

(** X12. A property whose account is missing from the datastore: the
    handler logs the account error and returns after the two datastore
    reads, without calling the API, writing the cache or rendering. *)
Theorem badge_dangling_account (env : Env) (r : Request) (w : World)
    (id : string) (p : Property) :
  slice (URL_Path r) 7 (len (URL_Path r) - 4) = Some id ->
  cache w !! ("b:" +:+ id) = None ->
  store w !! datastore.NewKey "Property" id = Some (PropertyEntity p) ->
  store w !! Property_Account p = None ->
  badge env r w
  = Returned (after w [CacheGet ("b:" +:+ id);
                       StoreGet (datastore.NewKey "Property" id);
                       StoreGet (Property_Account p);
                       LogError "badge(Account) error: %#v" ErrNoSuchEntity]).
Proof.
  intros Hid Hc Hp Ha.
  rewrite (badge_run env r w id Hid). unfold mbind, M_bind, bind.
  unfold_badge_total. do 3 run_with.
  unfold after. cbn [cache store trace]. by rewrite <- !app_assoc.
Qed.

Lemma badge_dangling_account_witness :
  badge quiet_env {| URL_Path := "/badge/p3.svg" |} orphan_world
  = Returned (after orphan_world
                [CacheGet "b:p3"; StoreGet (datastore.NewKey "Property" "p3");
                 StoreGet alice_key;
                 LogError "badge(Account) error: %#v" ErrNoSuchEntity]).
Proof.
  exact (badge_dangling_account quiet_env {| URL_Path := "/badge/p3.svg" |}
           orphan_world "p3" p3 eq_refl eq_refl eq_refl eq_refl).
Defined.

(** X13. A failed API call: the handler logs the error and returns.  The
    cache gets no entry, and the token the transport holds after the call,
    refreshed or not, is dropped: the account is not put back. *)
Theorem badge_fetch_failure (env : Env) (r : Request) (w : World)
    (id : string) (p : Property) (a : Account) (tok' : option oauth.Token)
    (err : error) :
  slice (URL_Path r) 7 (len (URL_Path r) - 4) = Some id ->
  cache w !! ("b:" +:+ id) = None ->
  store w !! datastore.NewKey "Property" id = Some (PropertyEntity p) ->
  store w !! Property_Account p = Some (AccountEntity a) ->
  analyticsNewErr env = None ->
  analyticsDo env (GetToken a) ("ga:" +:+ Property_Profile p)
              "7daysAgo" "yesterday" "ga:users" = (tok', inr err) ->
  badge env r w
  = Returned (after w [CacheGet ("b:" +:+ id);
                       StoreGet (datastore.NewKey "Property" id);
                       StoreGet (Property_Account p);
                       ApiGet (GetToken a) ("ga:" +:+ Property_Profile p)
                              "7daysAgo" "yesterday" "ga:users";
                       LogError "badge(Data) error: %#v" err]).
Proof.
  intros Hid Hc Hp Ha Hnew Hdo.
  rewrite (badge_run env r w id Hid). unfold mbind, M_bind, bind.
  unfold_badge_total. do 5 run_with.
  unfold after. cbn [cache store trace]. by rewrite <- !app_assoc.
Qed.

Lemma badge_fetch_failure_witness :
  badge failing_env {| URL_Path := "/badge/p3.svg" |} example_world
  = Returned (after example_world
                [CacheGet "b:p3"; StoreGet (datastore.NewKey "Property" "p3");
                 StoreGet alice_key;
                 ApiGet (GetToken alice) "ga:123" "7daysAgo" "yesterday" "ga:users";
                 LogError "badge(Data) error: %#v"
                          (ErrService "googleapi: quota exceeded")]).
Proof.
  exact (badge_fetch_failure failing_env {| URL_Path := "/badge/p3.svg" |}
           example_world "p3" p3 alice (Some refreshed_token)
           (ErrService "googleapi: quota exceeded")
           eq_refl eq_refl eq_refl eq_refl eq_refl eq_refl).
Defined.

(** X14. A reply without a total for "ga:users": the missing map entry
    reads as the empty string, which does not parse, so the handler logs a
    syntax error and returns; no zero is cached or rendered. *)
Theorem badge_total_unparsable (env : Env) (r : Request) (w : World)
    (id : string) (p : Property) (a : Account) (tok' : option oauth.Token)
    (result : analytics.GaData) :
  slice (URL_Path r) 7 (len (URL_Path r) - 4) = Some id ->
  cache w !! ("b:" +:+ id) = None ->
  store w !! datastore.NewKey "Property" id = Some (PropertyEntity p) ->
  store w !! Property_Account p = Some (AccountEntity a) ->
  analyticsNewErr env = None ->
  analyticsDo env (GetToken a) ("ga:" +:+ Property_Profile p)
              "7daysAgo" "yesterday" "ga:users" = (tok', inl result) ->
  analytics.TotalsForAllResults result !! "ga:users" = None ->
  badge env r w
  = Returned (after w [CacheGet ("b:" +:+ id);
                       StoreGet (datastore.NewKey "Property" id);
                       StoreGet (Property_Account p);
                       ApiGet (GetToken a) ("ga:" +:+ Property_Profile p)
                              "7daysAgo" "yesterday" "ga:users";
                       LogError "badge(Total) error: %#v"
                                (NumError strconv.ErrSyntax)]).
Proof.
  intros Hid Hc Hp Ha Hnew Hdo Hnone.
  rewrite (badge_run env r w id Hid). unfold mbind, M_bind, bind.
  unfold_badge_total. do 5 run_with. rewrite Hnone.
  unfold after. cbn [cache store trace default strconv.Atoi].
  by rewrite <- !app_assoc.
Qed.

Lemma badge_total_unparsable_witness :
  badge no_total_env {| URL_Path := "/badge/p3.svg" |} example_world
  = Returned (after example_world
                [CacheGet "b:p3"; StoreGet (datastore.NewKey "Property" "p3");
                 StoreGet alice_key;
                 ApiGet (GetToken alice) "ga:123" "7daysAgo" "yesterday" "ga:users";
                 LogError "badge(Total) error: %#v" (NumError strconv.ErrSyntax)]).
Proof.
  exact (badge_total_unparsable no_total_env {| URL_Path := "/badge/p3.svg" |}
           example_world "p3" p3 alice (GetToken alice)
           {| analytics.TotalsForAllResults := ∅ |}
           eq_refl eq_refl eq_refl eq_refl eq_refl eq_refl eq_refl).
Defined.

(** X15. After a request on a cold cache that fetched a value and wrote
    it to the cache, the next request for the same path renders the same
    value from the cache alone, whatever the services would answer then. *)
Theorem badge_second_request_hits (env env' : Env) (r : Request) (w w1 : World)
    (id : string) (p : Property) (a : Account) (t' : oauth.Token)
    (result : analytics.GaData) (n : Z) :
  slice (URL_Path r) 7 (len (URL_Path r) - 4) = Some id ->
  cache w !! ("b:" +:+ id) = None ->
  store w !! datastore.NewKey "Property" id = Some (PropertyEntity p) ->
  store w !! Property_Account p = Some (AccountEntity a) ->
  analyticsNewErr env = None ->
  analyticsDo env (GetToken a) ("ga:" +:+ Property_Profile p)
              "7daysAgo" "yesterday" "ga:users" = (Some t', inl result) ->
  strconv.Atoi (default "" (analytics.TotalsForAllResults result !! "ga:users"))
    = inl n ->
  memcacheSetErr env {| memcache.Key := "b:" +:+ id;
                        memcache.Value := strconv.Itoa n;
                        memcache.Expiration := time.Hour * 12 |} = None ->
  badge env r w = Next tt w1 ->
  badge env' r w1 = Next tt (after w1 (CacheGet ("b:" +:+ id) :: rendered n)).
Proof.
  intros Hid Hc Hp Ha Hnew Hdo Hn Hset Hrun.
  pose proof (badge_total_miss env w id p a t' result n Hc Hp Ha Hnew Hdo Hn) as Ht.
  cbv zeta in Ht. rewrite Hset in Ht.
  rewrite (badge_run env r w id Hid) in Hrun.
  unfold mbind, M_bind, bind in Hrun.
  rewrite Ht, badge_render_run in Hrun. injection Hrun as <-.
  rewrite (badge_run env' r _ id Hid). unfold mbind, M_bind, bind.
  erewrite badge_total_hit.
  - by rewrite badge_render_run, after_after.
  - unfold after. cbn [cache]. apply lookup_insert_eq.
  - cbn [memcache.Value]. apply Atoi_Itoa. by eapply Atoi_inRange.
Qed.

Lemma badge_second_request_hits_witness :
  exists w1 : World,
    badge quiet_env {| URL_Path := "/badge/p3.svg" |} example_world = Next tt w1 /\
    badge failing_env {| URL_Path := "/badge/p3.svg" |} w1
    = Next tt (after w1 (CacheGet "b:p3" :: rendered 7)).
Proof.
  eexists. split; [reflexivity|].
  exact (badge_second_request_hits quiet_env failing_env
           {| URL_Path := "/badge/p3.svg" |} example_world _ "p3" p3 alice
           {| oauth.AccessToken := "old"; oauth.RefreshToken := "r";
              oauth.Expiry := 100 |}
           {| analytics.TotalsForAllResults := {[ "ga:users" := "7" ]} |} 7
           eq_refl eq_refl eq_refl eq_refl eq_refl eq_refl eq_refl eq_refl eq_refl).
Defined.

(** * The session wrapper *)

(** X16.  The datastore key of a session is determined by the user name of
    its account: it is the key of kind Account whose string id is that user
    name, it is incomplete exactly when the user name is empty, and two
    sessions have the same key exactly when their accounts have the same
    user name. *)
Theorem Session_Key_by_username (s1 s2 : Session) :
  Session_Key s1 = datastore.NewKey "Account" (Username (Session_Account s1)) /\
  (Incomplete (Session_Key s1) = true <-> Username (Session_Account s1) = "") /\
  (Session_Key s1 = Session_Key s2 <->
   Username (Session_Account s1) = Username (Session_Account s2)).
Proof.
  assert (Hk : forall s, Session_Key s
                         = datastore.NewKey "Account" (Username (Session_Account s))).
  { intros s. unfold Session_Key, NewIncompleteKey.
    destruct (String.eqb_spec (Username (Session_Account s)) "") as [->|]; done. }
  split; [apply Hk|]. split.
  - rewrite Hk. unfold Incomplete. cbn [datastore.StringID].
    apply String.eqb_eq.
  - rewrite !Hk. split; [by intros [= ?]|by intros ->].
Qed.

(** X17.  Whenever [ServeHTTP] gets as far as calling the handler, the
    session it hands over has [Loaded] equal to [Account], and neither the
    cache nor the datastore has been written.  There are three ways to get
    there: without a session cookie the id is drawn at random (base 36), the
    account is empty and the cookie is set for 3600 seconds; with a cookie
    whose session is not in the cache the id is the cookie's value, the
    account is empty and only the cache was read; with a cookie whose
    session is cached the cached user name is not empty and the account is
    the entity the datastore holds under that user name. *)
Theorem ServeHTTP_session_outcomes (wenv : WebEnv) (r : WebRequest)
    (w w' : Web) (s : Session) :
  ServeHTTP_session wenv r w = Continue s w' ->
  Session_Loaded s = Session_Account s /\
  wcache w' = wcache w /\ wstore w' = wstore w /\
  ((Cookie (Cookies r) "session" = None /\
    Session_Id s = FormatInt36 (randInt63 wenv) /\
    Session_Account s = zeroAccount /\
    wtrace w' = (wtrace w ++ [SetCookie "session" (Session_Id s) 3600])%list) \/
   (Cookie (Cookies r) "session" = Some (Session_Id s) /\
    wcache w !! ("s:" +:+ Session_Id s) = None /\
    Session_Account s = zeroAccount /\
    wtrace w' = (wtrace w ++ [Svc (CacheGet ("s:" +:+ Session_Id s))])%list) \/
   (Cookie (Cookies r) "session" = Some (Session_Id s) /\
    exists item : memcache.Item,
      wcache w !! ("s:" +:+ Session_Id s) = Some item /\
      memcache.Value item <> "" /\
      wstore w !! datastore.NewKey "Account" (memcache.Value item)
      = Some (AccountEntity (Session_Account s)) /\
      wtrace w' = (wtrace w
                   ++ [Svc (CacheGet ("s:" +:+ Session_Id s));
                       Svc (StoreGet (datastore.NewKey "Account"
                                                       (memcache.Value item)))])%list)).
Proof.
  unfold_web. unfold Session_Key, Incomplete, NewIncompleteKey.
  cbn [Session_Account Session_Id Session_Loaded Username datastore.StringID].
  destruct (Cookie (Cookies r) "session") as [value|] eqn:Hcookie;
    cbn [cache store trace wcache wstore wtrace map app].
  - destruct (wcache w !! ("s:" +:+ value)) as [item|] eqn:Hitem;
      cbn [cache store trace wcache wstore wtrace map app].
    + destruct (String.eqb_spec (memcache.Value item) "") as [He|Hne];
        cbn [datastore.StringID]; [rewrite String.eqb_refl; by cbn|].
      destruct (String.eqb_spec (memcache.Value item) "") as [|_]; [done|].
      cbn [cache store trace wcache wstore wtrace map app].
      destruct (wstore w !! datastore.NewKey "Account" (memcache.Value item))
        as [[p|a]|] eqn:Hacct;
        cbn [cache store trace wcache wstore wtrace map app]; try done.
      intros [= <- <-].
      cbn [Session_Account Session_Id Session_Loaded wcache wstore wtrace].
      repeat split; try done. right. right. split; [done|].
      exists item. repeat split; try done. by rewrite <- app_assoc.
    + intros [= <- <-]. cbn. repeat split; try done. right. left. done.
  - intros [= <- <-]. cbn. repeat split; try done. by left.
Qed.

Lemma ServeHTTP_session_outcomes_witness :
  Session_Loaded {| Session_Id := "zz"; Session_Account := carol;
                    Session_Loaded := carol |}
  = Session_Account {| Session_Id := "zz"; Session_Account := carol;
                       Session_Loaded := carol |}.
Proof.
  exact (proj1 (ServeHTTP_session_outcomes login_env session_request carol_web
                  _ _ eq_refl)).
Defined.

(** X18.  A session cookie whose cached user name has no account in the
    datastore ends the request before the handler runs: the failed read is
    logged, the visitor is redirected to "/" with status 302, and neither
    cache nor datastore changes.  The logged error is the invalid-key error
    when the cached user name is empty, the no-such-entity error
    otherwise. *)
Theorem ServeHTTP_stale_session (wenv : WebEnv) (fn : Wrapper) (r : WebRequest)
    (w : Web) (value : string) (item : memcache.Item) :
  Cookie (Cookies r) "session" = Some value ->
  wcache w !! ("s:" +:+ value) = Some item ->
  wstore w !! datastore.NewKey "Account" (memcache.Value item) = None ->
  ServeHTTP wenv fn r w
  = Done (wafter w
            [Svc (CacheGet ("s:" +:+ value));
             Svc (StoreGet (datastore.NewKey "Account" (memcache.Value item)));
             Svc (LogError "datastore.Get error: %#v"
                           (if String.eqb (memcache.Value item) ""
                            then ErrService "datastore: invalid key"
                            else ErrNoSuchEntity));
             Redirect "/" 302]).
Proof.
  intros Hcookie Hitem Hacct.
  assert (Hkey : Session_Key {| Session_Id := value;
                                Session_Account :=
                                  {| Username := memcache.Value item;
                                     AccessToken := ""; RefreshToken := "";
                                     Expiry := 0 |};
                                Session_Loaded := zeroAccount |}
                 = datastore.NewKey "Account" (memcache.Value item)).
  { unfold Session_Key, NewIncompleteKey. cbn [Session_Account Username].
    by destruct (String.eqb_spec (memcache.Value item) "") as [->|]. }
  unfold_web. rewrite Hcookie.
  cbn [cache store trace wcache wstore wtrace map app Session_Id Session_Loaded].
  rewrite Hitem. cbn [cache store trace wcache wstore wtrace map app].
  rewrite Hkey. unfold Incomplete. cbn [datastore.StringID].
  unfold wafter.
  destruct (String.eqb (memcache.Value item) "");
    cbn [cache store trace wcache wstore wtrace map app].
  - by rewrite <- !app_assoc.
  - rewrite Hacct. cbn [cache store trace wcache wstore wtrace map app].
    by rewrite <- !app_assoc.
Qed.

Lemma ServeHTTP_stale_session_witness :
  ServeHTTP login_env idle_handler session_request stale_web
  = Done (wafter stale_web
            [Svc (CacheGet "s:zz");
             Svc (StoreGet (datastore.NewKey "Account" "carol"));
             Svc (LogError "datastore.Get error: %#v" ErrNoSuchEntity);
             Redirect "/" 302]).
Proof.
  exact (ServeHTTP_stale_session login_env idle_handler session_request stale_web
           "zz" {| memcache.Key := "s:zz"; memcache.Value := "carol";
                   memcache.Expiration := time.Hour |}
           eq_refl eq_refl eq_refl).
Defined.

(** The wrapper once the session is there and the handler has run. *)
Lemma ServeHTTP_run (wenv : WebEnv) (fn : Wrapper) (r : WebRequest)
    (w w1 w2 : Web) (s0 s : Session) (err : option error) :
  ServeHTTP_session wenv r w = Continue s0 w1 ->
  fn r s0 w1 = Continue (s, err) w2 ->
  ServeHTTP wenv fn r w
  = match err with
    | Some err =>
        Done (wafter w2 [Svc (LogError "Handler error: %#v" err);
                         HttpError err 500])
    | None => ServeHTTP_save wenv s w2
    end.
Proof.
  intros Hs Hfn. unfold ServeHTTP, mbind, W_bind, wbind.
  rewrite Hs, Hfn. destruct err as [err|]; [|done].
  unfold w_Errorf, wemit, wreturn, wrecord, wafter.
  cbn [wcache wstore wtrace]. by rewrite <- !app_assoc.
Qed.

(** X19.  When the handler returns an error, [ServeHTTP] logs it, answers
    with status 500 and returns: it adds no cache write and no datastore
    write to what the handler did, whatever the handler made of the
    session. *)
Theorem ServeHTTP_handler_error (wenv : WebEnv) (fn : Wrapper) (r : WebRequest)
    (w w1 w2 : Web) (s0 s : Session) (err : error) :
  ServeHTTP_session wenv r w = Continue s0 w1 ->
  fn r s0 w1 = Continue (s, Some err) w2 ->
  ServeHTTP wenv fn r w
  = Done {| wcache := wcache w2;
            wstore := wstore w2;
            wtrace := wtrace w2 ++ [Svc (LogError "Handler error: %#v" err);
                                    HttpError err 500] |}.
Proof.
  intros Hs Hfn. by rewrite (ServeHTTP_run wenv fn r w w1 w2 s0 s (Some err)).
Qed.

Lemma ServeHTTP_handler_error_witness :
  ServeHTTP login_env (failing_handler ErrFieldMismatch) session_request carol_web
  = Done {| wcache := wcache carol_web;
            wstore := wstore carol_web;
            wtrace := [Svc (CacheGet "s:zz");
                       Svc (StoreGet (datastore.NewKey "Account" "carol"));
                       Svc (LogError "Handler error: %#v" ErrFieldMismatch);
                       HttpError ErrFieldMismatch 500] |}.
Proof.
  exact (ServeHTTP_handler_error login_env (failing_handler ErrFieldMismatch)
           session_request carol_web _ _ _ _ ErrFieldMismatch eq_refl eq_refl).
Defined.

(** X20.  When the handler succeeds and leaves the account of the session
    equal to the loaded one, [ServeHTTP] does nothing after it: the run ends
    in the very state the handler left. *)
Theorem ServeHTTP_unchanged_session (wenv : WebEnv) (fn : Wrapper)
    (r : WebRequest) (w w1 w2 : Web) (s0 s : Session) :
  ServeHTTP_session wenv r w = Continue s0 w1 ->
  fn r s0 w1 = Continue (s, None) w2 ->
  Session_Loaded s = Session_Account s ->
  ServeHTTP wenv fn r w = Continue tt w2.
Proof.
  intros Hs Hfn Heq.
  rewrite (ServeHTTP_run wenv fn r w w1 w2 s0 s None Hs Hfn).
  unfold ServeHTTP_save. by rewrite decide_False by (by intros Hne).
Qed.

Lemma ServeHTTP_unchanged_session_witness :
  ServeHTTP login_env idle_handler session_request carol_web
  = Continue tt (wafter carol_web
                   [Svc (CacheGet "s:zz");
                    Svc (StoreGet (datastore.NewKey "Account" "carol"))]).
Proof.
  exact (ServeHTTP_unchanged_session login_env idle_handler session_request
           carol_web _ _ _ _ eq_refl eq_refl eq_refl).
Defined.

(** The save of a changed session under a complete key. *)
Lemma ServeHTTP_save_changed (wenv : WebEnv) (s : Session) (w : Web) :
  Session_Loaded s <> Session_Account s ->
  Username (Session_Account s) <> "" ->
  let item := {| memcache.Key := "s:" +:+ Session_Id s;
                 memcache.Value := Username (Session_Account s);
                 memcache.Expiration := time.Hour |} in
  let key := datastore.NewKey "Account" (Username (Session_Account s)) in
  ServeHTTP_save wenv s w
  = Continue tt
      {| wcache := match memcacheSetErr (services wenv) item with
                   | Some _ => wcache w
                   | None => <["s:" +:+ Session_Id s := item]> (wcache w)
                   end;
         wstore := match datastorePutErr (services wenv) key (Session_Account s) with
                   | Some _ => wstore w
                   | None => <[key := AccountEntity (Session_Account s)]> (wstore w)
                   end;
         wtrace := wtrace w
                   ++ [Svc (CacheSet item)]
                   ++ match memcacheSetErr (services wenv) item with
                      | Some err => [Svc (LogError "Memcache write error: %#v" err)]
                      | None => []
                      end
                   ++ [Svc (StorePut key (Session_Account s))]
                   ++ match datastorePutErr (services wenv) key (Session_Account s) with
                      | Some err =>
                          [Svc (LogError "datastore.Put write error: %#v" err)]
                      | None => []
                      end |}.
Proof.
  intros Hchanged Huser item key.
  assert (Hkey : Session_Key s = key).
  { unfold Session_Key, key.
    by destruct (String.eqb_spec (Username (Session_Account s)) ""). }
  unfold ServeHTTP_save. rewrite decide_True by done. fold item.
  rewrite Hkey. unfold_web. unfold Incomplete. cbn [datastore.StringID key].
  destruct (String.eqb_spec (Username (Session_Account s)) "") as [|_]; [done|].
  fold key.
  destruct (memcacheSetErr (services wenv) item) as [e1|];
    cbn [cache store trace wcache wstore wtrace map app];
    destruct (datastorePutErr (services wenv) key (Session_Account s)) as [e2|];
    cbn [cache store trace wcache wstore wtrace map app];
    rewrite <- ?app_assoc; reflexivity.
Qed.

(** X21.  When the handler succeeds and has changed the account of the
    session (to one with a user name), [ServeHTTP] caches the user name under
    "s:" followed by the session id for one hour and puts the account under
    the key of its user name, each write taking effect only if it does not
    fail.  A failure of either write is logged, and, unlike in [badge], this
    includes the datastore put; the put is attempted even when the cache
    write failed. *)
Theorem ServeHTTP_saves_changed_session (wenv : WebEnv) (fn : Wrapper)
    (r : WebRequest) (w w1 w2 : Web) (s0 s : Session) :
  ServeHTTP_session wenv r w = Continue s0 w1 ->
  fn r s0 w1 = Continue (s, None) w2 ->
  Session_Loaded s <> Session_Account s ->
  Username (Session_Account s) <> "" ->
  let item := {| memcache.Key := "s:" +:+ Session_Id s;
                 memcache.Value := Username (Session_Account s);
                 memcache.Expiration := time.Hour |} in
  let key := datastore.NewKey "Account" (Username (Session_Account s)) in
  ServeHTTP wenv fn r w
  = Continue tt
      {| wcache := match memcacheSetErr (services wenv) item with
                   | Some _ => wcache w2
                   | None => <["s:" +:+ Session_Id s := item]> (wcache w2)
                   end;
         wstore := match datastorePutErr (services wenv) key (Session_Account s) with
                   | Some _ => wstore w2
                   | None => <[key := AccountEntity (Session_Account s)]> (wstore w2)
                   end;
         wtrace := wtrace w2
                   ++ [Svc (CacheSet item)]
                   ++ match memcacheSetErr (services wenv) item with
                      | Some err => [Svc (LogError "Memcache write error: %#v" err)]
                      | None => []
                      end
                   ++ [Svc (StorePut key (Session_Account s))]
                   ++ match datastorePutErr (services wenv) key (Session_Account s) with
                      | Some err =>
                          [Svc (LogError "datastore.Put write error: %#v" err)]
                      | None => []
                      end |}.
Proof.
  intros Hs Hfn Hchanged Huser item key.
  rewrite (ServeHTTP_run wenv fn r w w1 w2 s0 s None Hs Hfn).
  by apply ServeHTTP_save_changed.
Qed.

Lemma ServeHTTP_saves_changed_session_witness :
  exists w' : Web,
    ServeHTTP login_env (auth login_env) login_request empty_web = Continue tt w' /\
    wcache w' !! "s:zz"
    = Some {| memcache.Key := "s:zz"; memcache.Value := "carol";
              memcache.Expiration := time.Hour |} /\
    wstore w' !! datastore.NewKey "Account" "carol" = Some (AccountEntity carol).
Proof.
  eexists. split.
  - exact (ServeHTTP_saves_changed_session login_env (auth login_env)
             login_request empty_web _ _
             {| Session_Id := "zz"; Session_Account := zeroAccount;
                Session_Loaded := zeroAccount |}
             {| Session_Id := "zz"; Session_Account := carol;
                Session_Loaded := zeroAccount |}
             eq_refl eq_refl ltac:(discriminate) ltac:(discriminate)).
  - split; reflexivity.
Defined.

(** A saved session is found again by the request that carries its id. *)
Lemma ServeHTTP_session_restored (wenv wenv' : WebEnv) (s : Session)
    (r' : WebRequest) (w w' : Web) :
  Session_Loaded s <> Session_Account s ->
  Username (Session_Account s) <> "" ->
  memcacheSetErr (services wenv)
    {| memcache.Key := "s:" +:+ Session_Id s;
       memcache.Value := Username (Session_Account s);
       memcache.Expiration := time.Hour |} = None ->
  datastorePutErr (services wenv)
    (datastore.NewKey "Account" (Username (Session_Account s)))
    (Session_Account s) = None ->
  ServeHTTP_save wenv s w = Continue tt w' ->
  Cookie (Cookies r') "session" = Some (Session_Id s) ->
  ServeHTTP_session wenv' r' w'
  = Continue {| Session_Id := Session_Id s;
                Session_Account := Session_Account s;
                Session_Loaded := Session_Account s |}
             (wafter w'
                [Svc (CacheGet ("s:" +:+ Session_Id s));
                 Svc (StoreGet (datastore.NewKey "Account"
                                  (Username (Session_Account s))))]).
Proof.
  intros Hchanged Huser Hset Hput Hsave Hcookie.
  rewrite (ServeHTTP_save_changed wenv s w Hchanged Huser) in Hsave.
  cbv zeta in Hsave. rewrite Hset, Hput in Hsave. injection Hsave as <-.
  unfold_web. rewrite Hcookie.
  cbn [cache store trace wcache wstore wtrace map app Session_Id Session_Loaded].
  rewrite lookup_insert_eq.
  cbn [cache store trace wcache wstore wtrace map app memcache.Value].
  unfold Session_Key, Incomplete, NewIncompleteKey.
  cbn [Session_Account Username datastore.StringID].
  destruct (String.eqb_spec (Username (Session_Account s)) "") as [|_]; [done|].
  cbn [datastore.StringID].
  destruct (String.eqb_spec (Username (Session_Account s)) "") as [|_]; [done|].
  cbn [cache store trace wcache wstore wtrace map app].
  rewrite lookup_insert_eq.
  cbn [cache store trace wcache wstore wtrace map app Session_Id].
  unfold wafter. cbn [wcache wstore wtrace]. by rewrite <- !app_assoc.
Qed.

(** X22.  Saving and restoring a session round-trips: after [ServeHTTP] has
    saved a changed session without a write failure, a later request that
    carries the session id in its cookie is handed a session with the same
    id and the saved account, marked as loaded, after exactly one cache read
    and one datastore read, whatever the other services answer then. *)
Theorem ServeHTTP_session_round_trip (wenv wenv' : WebEnv) (s : Session)
    (r' : WebRequest) (w w' : Web) :
  Session_Loaded s <> Session_Account s ->
  Username (Session_Account s) <> "" ->
  memcacheSetErr (services wenv)
    {| memcache.Key := "s:" +:+ Session_Id s;
       memcache.Value := Username (Session_Account s);
       memcache.Expiration := time.Hour |} = None ->
  datastorePutErr (services wenv)
    (datastore.NewKey "Account" (Username (Session_Account s)))
    (Session_Account s) = None ->
  ServeHTTP_save wenv s w = Continue tt w' ->
  Cookie (Cookies r') "session" = Some (Session_Id s) ->
  ServeHTTP_session wenv' r' w'
  = Continue {| Session_Id := Session_Id s;
                Session_Account := Session_Account s;
                Session_Loaded := Session_Account s |}
             (wafter w'
                [Svc (CacheGet ("s:" +:+ Session_Id s));
                 Svc (StoreGet (datastore.NewKey "Account"
                                  (Username (Session_Account s))))]).
Proof.
  intros Hchanged Huser Hset Hput Hsave Hcookie.
  by apply (ServeHTTP_session_restored wenv wenv' s r' w w').
Qed.

Lemma ServeHTTP_session_round_trip_witness :
  exists w' : Web,
    ServeHTTP_save login_env
      {| Session_Id := "zz"; Session_Account := carol;
         Session_Loaded := zeroAccount |} empty_web = Continue tt w' /\
    ServeHTTP_session login_failing_env session_request w'
    = Continue {| Session_Id := "zz"; Session_Account := carol;
                  Session_Loaded := carol |}
               (wafter w' [Svc (CacheGet "s:zz");
                           Svc (StoreGet (datastore.NewKey "Account" "carol"))]).
Proof.
  eexists. split; [vm_compute; reflexivity|].
  exact (ServeHTTP_session_round_trip login_env login_failing_env
           {| Session_Id := "zz"; Session_Account := carol;
              Session_Loaded := zeroAccount |}
           session_request empty_web _
           ltac:(discriminate) ltac:(discriminate)
           eq_refl eq_refl eq_refl eq_refl).
Defined.

(** * The account handlers *)

Lemma loaded_properties (id : string) (properties : list WebPropertySummary) :
  forall loaded : gmap string bool,
    default false
      (fold_left (fun loaded property => <[WebProperty_Id property := true]> loaded)
                 properties loaded !! id)
    = existsb (fun property => String.eqb (WebProperty_Id property) id) properties
      || default false (loaded !! id).
Proof.
  induction properties as [|p ps IH]; intros loaded; cbn [fold_left existsb]; [done|].
  rewrite IH.
  destruct (String.eqb_spec (WebProperty_Id p) id) as [->|Hne].
  - rewrite lookup_insert_eq. cbn. by rewrite orb_true_r.
  - by rewrite lookup_insert_ne.
Qed.

Lemma loaded_accounts (id : string) (accounts : list AccountSummary) :
  forall loaded : gmap string bool,
    default false
      (fold_left
         (fun loaded account =>
            fold_left (fun loaded property => <[WebProperty_Id property := true]> loaded)
                      (WebProperties account) loaded)
         accounts loaded !! id)
    = existsb (fun account =>
                 existsb (fun property => String.eqb (WebProperty_Id property) id)
                         (WebProperties account))
              accounts
      || default false (loaded !! id).
Proof.
  induction accounts as [|a l IH]; intros loaded; cbn [fold_left existsb]; [done|].
  rewrite IH, loaded_properties.
  by destruct (existsb _ (WebProperties a)), (existsb _ l).
Qed.

(** The map [loaded] answers true exactly for the listed ids. *)
Lemma loadedIds_listed (accounts : AccountSummaries) (id : string) :
  default false (loadedIds accounts !! id) = listed accounts id.
Proof.
  unfold loadedIds, listed. rewrite loaded_accounts, lookup_empty. cbn [default].
  apply orb_false_r.
Qed.

Lemma listed_In (accounts : AccountSummaries) (id : string) :
  listed accounts id = true <->
  exists (a : AccountSummary) (p : WebPropertySummary),
    In a (Items accounts) /\ In p (WebProperties a) /\ WebProperty_Id p = id.
Proof.
  unfold listed. rewrite existsb_exists. split.
  - intros (a & Ha & Hp). apply existsb_exists in Hp as (p & Hp & He).
    apply String.eqb_eq in He. by exists a, p.
  - intros (a & p & Ha & Hp & He). exists a. split; [done|].
    apply existsb_exists. exists p. split; [done|]. by apply String.eqb_eq.
Qed.

(** The loop appends, for each listed id in turn, its key, its property and
    its cache key. *)
Lemma collect_append (r : WebRequest) (account : datastore.Key)
    (accounts : AccountSummaries) (ids : list string) :
  forall (keys : list datastore.Key) (properties : list Property)
         (cachekeys : list string),
    collect r account (loadedIds accounts) ids (keys, properties, cachekeys)
    = ((keys ++ map (datastore.NewKey "Property") (filter (listed accounts) ids))%list,
       (properties ++ map (registration r account) (filter (listed accounts) ids))%list,
       (cachekeys ++ map (fun id => "b:" +:+ id) (filter (listed accounts) ids))%list).
Proof.
  induction ids as [|id ids IH]; intros keys properties cachekeys;
    cbn [collect filter map].
  - by rewrite !app_nil_r.
  - rewrite loadedIds_listed, (filter_cons (listed accounts)).
    destruct (listed accounts id) eqn:Hl.
    + rewrite decide_True by done. cbn [negb map Property_Id].
      rewrite IH. by rewrite <- !app_assoc.
    + rewrite decide_False by (by intros ?). cbn [negb]. apply IH.
Qed.

(** X23.  The registration loop of [manage] keeps exactly the form keys the
    analytics listing names: the three slices it builds are, in the order of
    the iteration, the Property keys, the properties (owner, id and first
    form value) and the cache keys "b:" followed by the id of the form keys
    that are the id of some web property of some listed account.  A form key
    that is not listed contributes nothing. *)
Theorem manage_registers_listed_only (r : WebRequest) (account : datastore.Key)
    (accounts : AccountSummaries) :
  collect r account (loadedIds accounts) (map fst (Form r)) ([], [], [])
  = (map (datastore.NewKey "Property")
         (filter (listed accounts) (map fst (Form r))),
     map (registration r account) (filter (listed accounts) (map fst (Form r))),
     map (fun id => "b:" +:+ id) (filter (listed accounts) (map fst (Form r)))) /\
  (forall id : string,
      In id (filter (listed accounts) (map fst (Form r))) <->
      In id (map fst (Form r)) /\
      exists (a : AccountSummary) (p : WebPropertySummary),
        In a (Items accounts) /\ In p (WebProperties a) /\ WebProperty_Id p = id).
Proof.
  split; [apply collect_append|].
  intros id. rewrite <- listed_In, <- !list_elem_of_In, list_elem_of_filter.
  split; intros [? ?]; split; try done; by destruct (listed accounts id).
Qed.

Lemma putAll_lookup_other (kps : list (datastore.Key * Property)) (k : datastore.Key) :
  forall m : gmap datastore.Key Entity,
    (forall p, ~ In (k, p) kps) -> putAll kps m !! k = m !! k.
Proof.
  unfold putAll.
  induction kps as [|[k1 p1] kps IH]; intros m Hk; cbn [fold_left]; [done|].
  rewrite IH by (intros p Hp; apply (Hk p); by right).
  cbn [fst snd]. apply lookup_insert_ne. intros ->. apply (Hk p1). by left.
Qed.

Lemma putAll_lookup (kps : list (datastore.Key * Property)) (k : datastore.Key)
    (p : Property) :
  forall m : gmap datastore.Key Entity,
    In (k, p) kps -> (forall p', In (k, p') kps -> p' = p) ->
    putAll kps m !! k = Some (PropertyEntity p).
Proof.
  induction kps as [|[k1 p1] kps IH]; intros m Hin Hall; [done|].
  change (putAll ((k1, p1) :: kps) m)
    with (putAll kps (<[k1 := PropertyEntity p1]> m)).
  destruct (decide ((k, p) ∈ kps)) as [Hrest|Hrest];
    rewrite list_elem_of_In in Hrest.
  - apply IH; [done|]. intros p' Hp'. apply Hall. by right.
  - destruct Hin as [[= -> ->]|Hin]; [|by destruct (Hrest Hin)].
    rewrite putAll_lookup_other.
    + apply lookup_insert_eq.
    + intros p' Hp'. apply Hrest.
      by rewrite <- (Hall p' (or_intror Hp')).
Qed.

Lemma deleteAll_lookup_None (keys : list string) (k : string) :
  forall m : gmap string memcache.Item,
    m !! k = None -> deleteAll keys m !! k = None.
Proof.
  unfold deleteAll.
  induction keys as [|k1 keys IH]; intros m Hm; cbn [fold_left]; [done|].
  apply IH. destruct (decide (k1 = k)) as [->|Hne].
  - apply lookup_delete_eq.
  - by rewrite lookup_delete_ne.
Qed.

Lemma deleteAll_lookup (keys : list string) (k : string) :
  forall m : gmap string memcache.Item,
    In k keys -> deleteAll keys m !! k = None.
Proof.
  induction keys as [|k1 keys IH]; intros m Hin; [done|].
  change (deleteAll (k1 :: keys) m) with (deleteAll keys (delete k1 m)).
  destruct Hin as [->|Hin]; [|by apply IH].
  apply deleteAll_lookup_None, lookup_delete_eq.
Qed.

Lemma deleteAll_lookup_other (keys : list string) (k : string) :
  forall m : gmap string memcache.Item,
    ~ In k keys -> deleteAll keys m !! k = m !! k.
Proof.
  induction keys as [|k1 keys IH]; intros m Hin; [done|].
  change (deleteAll (k1 :: keys) m) with (deleteAll keys (delete k1 m)).
  rewrite IH by (intros H; apply Hin; by right).
  apply lookup_delete_ne. intros ->. apply Hin. by left.
Qed.

(** The entities a registration writes: one per listed id that is not
    empty. *)
Lemma puts_registrations (r : WebRequest) (account : datastore.Key)
    (ids : list string) :
  puts (map (datastore.NewKey "Property") ids) (map (registration r account) ids)
  = map (fun id => (datastore.NewKey "Property" id, registration r account id))
        (filter (fun id => negb (String.eqb id "")) ids).
Proof.
  unfold puts. induction ids as [|id ids IH]; [done|].
  cbn [map zip zip_with].
  rewrite (filter_cons (fun kp => negb (Incomplete kp.1))).
  rewrite (filter_cons (fun id => negb (String.eqb id ""))).
  destruct (decide (id = "")) as [->|Hne].
  - rewrite !decide_False by (by intros ?). apply IH.
  - assert (He : String.eqb id "" = false) by (by apply String.eqb_neq).
    rewrite !decide_True
      by (unfold Incomplete; cbn [fst datastore.StringID]; by rewrite He).
    cbn [map]. f_equal. apply IH.
Qed.

(** X24.  [manage] for a session whose account has no access token
    redirects to "/" with status 302 and does nothing else: no call of the
    analytics API, no read or write of cache or datastore, the session is
    unchanged and no error is returned. *)
Theorem manage_unauthenticated (wenv : WebEnv) (r : WebRequest) (s : Session)
    (w : Web) :
  AccessToken (Session_Account s) = "" ->
  manage wenv r s w = Continue (s, None) (wafter w [Redirect "/" 302]).
Proof.
  intros Hat. unfold manage, GetToken. rewrite Hat. cbn [String.eqb].
  by unfold_web.
Qed.

Lemma manage_unauthenticated_witness :
  manage login_env post_request
         {| Session_Id := "zz"; Session_Account := zeroAccount;
            Session_Loaded := zeroAccount |} carol_web
  = Continue ({| Session_Id := "zz"; Session_Account := zeroAccount;
                 Session_Loaded := zeroAccount |}, None)
             (wafter carol_web [Redirect "/" 302]).
Proof.
  exact (manage_unauthenticated login_env post_request
           {| Session_Id := "zz"; Session_Account := zeroAccount;
              Session_Loaded := zeroAccount |} carol_web eq_refl).
Defined.

(** A batch put that does not fail writes its entities and nothing else. *)
Lemma w_datastore_PutMulti_ok (wenv : WebEnv) (keys : list datastore.Key)
    (ps : list Property) (w : Web) :
  putMultiErr wenv keys ps = None ->
  exists w' : Web,
    w_datastore_PutMulti wenv keys ps w = Continue None w' /\
    wcache w' = wcache w /\
    wstore w' = putAll (puts keys ps) (wstore w).
Proof.
  intros Hok. unfold w_datastore_PutMulti.
  destruct keys as [|k keys]; [by eexists|].
  rewrite Hok. by eexists.
Qed.

(** A batch delete without a fault of the service deletes its keys and
    nothing else. *)
Lemma w_memcache_DeleteMulti_ok (wenv : WebEnv) (keys : list string) (w : Web) :
  deleteMultiErr wenv keys = None ->
  exists (e : option (error + list (option error))) (w' : Web),
    w_memcache_DeleteMulti wenv keys w = Continue e w' /\
    wcache w' = deleteAll keys (wcache w) /\
    wstore w' = wstore w.
Proof.
  intros Hok. unfold w_memcache_DeleteMulti.
  destruct keys as [|k keys]; [by eexists _, _|].
  rewrite Hok. by eexists _, _.
Qed.

(** X25.  A POST to [manage] by a logged-in account, when the listing
    succeeds and the batch calls do not fail, returns no error, takes over
    the token of the transport into the session and, for every form key that
    is listed and not empty, stores the property (owned by the key of the
    session, with the first form value as profile) under its id and leaves
    no cached badge "b:" followed by the id.  No other cache entry changes,
    and no datastore entity of another kind than Property changes. *)
Theorem manage_post_registers (wenv : WebEnv) (r : WebRequest) (s : Session)
    (w : Web) (t0 t : oauth.Token) (accounts : AccountSummaries) :
  GetToken (Session_Account s) = Some t0 ->
  analyticsNewErr (services wenv) = None ->
  accountsListDo wenv (Some t0) = (Some t, inl accounts) ->
  Method r = "POST" ->
  (forall keys ps, putMultiErr wenv keys ps = None) ->
  (forall keys, deleteMultiErr wenv keys = None) ->
  exists w' : Web,
    manage wenv r s w
    = Continue ({| Session_Id := Session_Id s;
                   Session_Account := SetToken (Session_Account s) t;
                   Session_Loaded := Session_Loaded s |}, None) w' /\
    (forall id : string,
        In id (map fst (Form r)) -> listed accounts id = true -> id <> "" ->
        wstore w' !! datastore.NewKey "Property" id
        = Some (PropertyEntity (registration r (Session_Key s) id)) /\
        wcache w' !! ("b:" +:+ id) = None) /\
    (forall k : string,
        ~ In k (map (fun id => "b:" +:+ id)
                    (filter (listed accounts) (map fst (Form r)))) ->
        wcache w' !! k = wcache w !! k) /\
    (forall k : datastore.Key,
        datastore.Kind k <> "Property" -> wstore w' !! k = wstore w !! k).
Proof.
  intros Htok Hnew Hlist Hpost Hput Hdel.
  assert (Hkey : Session_Key {| Session_Id := Session_Id s;
                                Session_Account := SetToken (Session_Account s) t;
                                Session_Loaded := Session_Loaded s |}
                 = Session_Key s).
  { unfold Session_Key. cbn [Session_Account]. by rewrite SetToken_Username. }
  unfold manage. rewrite Htok, Hnew.
  unfold w_AccountSummaries_List, mbind, W_bind, wbind, wemit, wpure.
  rewrite Hlist. unfold w_Infof, wemit. rewrite Hpost. cbn [String.eqb Ascii.eqb Bool.eqb].
  unfold w_Header_Set, wemit. rewrite Hkey, collect_append. cbn [app].
  set (ids := filter (listed accounts) (map fst (Form r))).
  set (w1 := wrecord _ (wrecord _ (wrecord _ w))).
  assert (Hw1 : wcache w1 = wcache w /\ wstore w1 = wstore w) by done.
  destruct Hw1 as [Hc1 Hs1]. clearbody w1.
  destruct (w_datastore_PutMulti_ok wenv
              (map (datastore.NewKey "Property") ids)
              (map (registration r (Session_Key s)) ids) w1 (Hput _ _))
    as (w2 & -> & Hc2 & Hs2).
  destruct (w_memcache_DeleteMulti_ok wenv (map (fun id => "b:" +:+ id) ids)
              w2 (Hdel _))
    as (e & w3 & -> & Hc3 & Hs3).
  assert (Hlog : exists w4, match e with
                            | Some (inl err) =>
                                w_Errorf "memcache.DeleteMulti error: %#v" err
                            | Some (inr errs) =>
                                fun w0 =>
                                  Continue tt
                                    (wrecord (LogMultiError
                                                "memcache.DeleteMulti error: %#v"
                                                errs) w0)
                            | None => fun w0 => Continue tt w0
                            end w3 = Continue tt w4
                            /\ wcache w4 = wcache w3 /\ wstore w4 = wstore w3).
  { destruct e as [[err|errs]|]; eexists; (split; [reflexivity|done]). }
  destruct Hlog as (w4 & -> & Hc4 & Hs4).
  eexists. split; [reflexivity|]. unfold wrecord. cbn [wcache wstore].
  rewrite Hc4, Hc3, Hc2, Hc1, Hs4, Hs3, Hs2, Hs1, puts_registrations.
  assert (Hids : forall id, In id (map fst (Form r)) -> listed accounts id = true ->
                            In id ids).
  { intros id Hin Hl. apply list_elem_of_In, list_elem_of_filter.
    split; [by rewrite Hl|by apply list_elem_of_In]. }
  split; [intros id Hin Hl Hid; split|split].
  - apply putAll_lookup.
    + apply in_map_iff. exists id. split; [done|].
      apply list_elem_of_In, list_elem_of_filter. split.
      * apply String.eqb_neq in Hid. by rewrite Hid.
      * apply list_elem_of_In. by apply Hids.
    + intros p' Hp'. by apply in_map_iff in Hp' as (id' & [= <- <-] & _).
  - apply deleteAll_lookup, in_map. by apply Hids.
  - intros k' Hk'. by apply deleteAll_lookup_other.
  - intros k' Hk'. apply putAll_lookup_other. intros p Hp.
    apply in_map_iff in Hp as (id & [= <- _] & _). by apply Hk'.
Qed.

Lemma manage_post_registers_witness :
  exists w' : Web,
    manage login_env post_request
           {| Session_Id := "zz"; Session_Account := carol;
              Session_Loaded := carol |} carol_web
    = Continue ({| Session_Id := "zz"; Session_Account := carol;
                   Session_Loaded := carol |}, None) w' /\
    wstore w' !! datastore.NewKey "Property" "UA-1"
    = Some (PropertyEntity {| Property_Account := datastore.NewKey "Account" "carol";
                              Property_Id := "UA-1";
                              Property_Profile := "p11" |}) /\
    wcache w' !! "b:UA-1" = None.
Proof.
  destruct (manage_post_registers login_env post_request
              {| Session_Id := "zz"; Session_Account := carol;
                 Session_Loaded := carol |} carol_web carol_token carol_token
              carol_listing eq_refl eq_refl eq_refl eq_refl
              (fun _ _ => eq_refl) (fun _ => eq_refl))
    as (w' & Hrun & Hreg & _).
  exists w'. split; [exact Hrun|].
  apply (Hreg "UA-1"); [vm_compute; tauto|reflexivity|discriminate].
Defined.

(** The handler [auth] when the listing succeeds. *)
Lemma auth_run (wenv : WebEnv) (r : WebRequest) (s : Session) (w : Web)
    (t : oauth.Token) (accounts : AccountSummaries) :
  analyticsNewErr (services wenv) = None ->
  accountsListDo wenv (exchange wenv (GetToken (Session_Account s))
                                (FormValue r "code"))
  = (Some t, inl accounts) ->
  auth wenv r s w
  = Continue
      ({| Session_Id := Session_Id s;
          Session_Account :=
            SetToken {| Username := Summaries_Username accounts;
                        AccessToken := AccessToken (Session_Account s);
                        RefreshToken := RefreshToken (Session_Account s);
                        Expiry := Expiry (Session_Account s) |} t;
          Session_Loaded := Session_Loaded s |}, None)
      (wafter w
         [Exchange (GetToken (Session_Account s)) (FormValue r "code");
          AccountsList (exchange wenv (GetToken (Session_Account s))
                                 (FormValue r "code"));
          Svc (LogInfo "setting: %#v" (Some t));
          Redirect "/manage" 302]).
Proof.
  intros Hnew Hlist. unfold auth, w_Exchange, w_AccountSummaries_List, w_Infof,
    mbind, W_bind, wbind, wemit, wpure.
  rewrite Hnew, Hlist. unfold wrecord, wafter. cbn [wcache wstore wtrace].
  by rewrite <- !app_assoc.
Qed.

(** X26.  [auth], when the accounts listing succeeds, returns no error and
    leaves a session with the same id and the same loaded account whose
    account has the listed user name and the token of the transport: access
    token and expiry are overwritten, the refresh token only by a non-empty
    one.  It writes neither cache nor datastore itself, and its calls are, in
    order, the code exchange, the listing, the log of the token and the
    redirect to "/manage" with status 302. *)
Theorem auth_logs_in (wenv : WebEnv) (r : WebRequest) (s : Session) (w : Web)
    (t : oauth.Token) (accounts : AccountSummaries) :
  analyticsNewErr (services wenv) = None ->
  accountsListDo wenv (exchange wenv (GetToken (Session_Account s))
                                (FormValue r "code"))
  = (Some t, inl accounts) ->
  exists (s' : Session) (w' : Web),
    auth wenv r s w = Continue (s', None) w' /\
    Session_Id s' = Session_Id s /\
    Session_Loaded s' = Session_Loaded s /\
    Username (Session_Account s') = Summaries_Username accounts /\
    AccessToken (Session_Account s') = oauth.AccessToken t /\
    Expiry (Session_Account s') = oauth.Expiry t /\
    RefreshToken (Session_Account s')
    = (if String.eqb (oauth.RefreshToken t) ""
       then RefreshToken (Session_Account s)
       else oauth.RefreshToken t) /\
    wcache w' = wcache w /\ wstore w' = wstore w /\
    wtrace w'
    = (wtrace w
       ++ [Exchange (GetToken (Session_Account s)) (FormValue r "code");
           AccountsList (exchange wenv (GetToken (Session_Account s))
                                  (FormValue r "code"));
           Svc (LogInfo "setting: %#v" (Some t));
           Redirect "/manage" 302])%list.
Proof.
  intros Hnew Hlist. eexists _, _.
  split; [by apply (auth_run wenv r s w t accounts)|].
  cbn [Session_Id Session_Loaded Session_Account wafter wcache wstore wtrace].
  unfold SetToken.
  destruct (String.eqb (oauth.RefreshToken t) ""); cbn; by repeat split.
Qed.

Lemma auth_logs_in_witness :
  exists (s' : Session) (w' : Web),
    auth login_env login_request
         {| Session_Id := "zz"; Session_Account := zeroAccount;
            Session_Loaded := zeroAccount |} empty_web
    = Continue (s', None) w' /\
    Session_Account s' = carol.
Proof.
  destruct (auth_logs_in login_env login_request
              {| Session_Id := "zz"; Session_Account := zeroAccount;
                 Session_Loaded := zeroAccount |} empty_web
              carol_token carol_listing eq_refl eq_refl)
    as (s' & w' & Hrun & _).
  exists s', w'. split; [exact Hrun|].
  vm_compute in Hrun. by injection Hrun as <- _.
Defined.

(** X27.  [auth], when the accounts listing fails, returns that error and
    leaves the session exactly as it was, after the code exchange and the
    listing only: nothing is logged by the handler, there is no redirect and
    no write. *)
Theorem auth_failure_keeps_session (wenv : WebEnv) (r : WebRequest) (s : Session)
    (w : Web) (tok' : option oauth.Token) (err : error) :
  analyticsNewErr (services wenv) = None ->
  accountsListDo wenv (exchange wenv (GetToken (Session_Account s))
                                (FormValue r "code"))
  = (tok', inr err) ->
  auth wenv r s w
  = Continue (s, Some err)
      (wafter w
         [Exchange (GetToken (Session_Account s)) (FormValue r "code");
          AccountsList (exchange wenv (GetToken (Session_Account s))
                                 (FormValue r "code"))]).
Proof.
  intros Hnew Hlist.
  unfold auth, w_Exchange, w_AccountSummaries_List, mbind, W_bind, wbind,
    wemit, wpure.
  rewrite Hnew, Hlist. unfold wrecord, wafter. cbn [wcache wstore wtrace].
  by rewrite <- !app_assoc.
Qed.

Lemma auth_failure_keeps_session_witness :
  auth login_failing_env login_request
       {| Session_Id := "zz"; Session_Account := zeroAccount;
          Session_Loaded := zeroAccount |} empty_web
  = Continue ({| Session_Id := "zz"; Session_Account := zeroAccount;
                 Session_Loaded := zeroAccount |},
              Some (ErrService "oauth: no token supplied"))
      (wafter empty_web [Exchange None "xyz"; AccountsList None]).
Proof.
  exact (auth_failure_keeps_session login_failing_env login_request
           {| Session_Id := "zz"; Session_Account := zeroAccount;
              Session_Loaded := zeroAccount |} empty_web None
           (ErrService "oauth: no token supplied") eq_refl eq_refl).
Defined.

(** X28.  Logging in end to end: a request to the [auth] handler from a
    visitor without session cookie, when listing and writes succeed, draws a
    session id, sets the cookie, exchanges the code, and after the handler
    caches the listed user name under the session and puts the account with
    the new token, in this order.  The next request that carries the cookie
    is handed that session with that account, loaded. *)
Theorem login_round_trip (wenv wenv' : WebEnv) (r r' : WebRequest) (w : Web)
    (t : oauth.Token) (accounts : AccountSummaries) :
  Cookie (Cookies r) "session" = None ->
  analyticsNewErr (services wenv) = None ->
  accountsListDo wenv (exchange wenv None (FormValue r "code"))
  = (Some t, inl accounts) ->
  Summaries_Username accounts <> "" ->
  let id := FormatInt36 (randInt63 wenv) in
  let a := SetToken {| Username := Summaries_Username accounts;
                       AccessToken := ""; RefreshToken := ""; Expiry := 0 |} t in
  memcacheSetErr (services wenv)
    {| memcache.Key := "s:" +:+ id;
       memcache.Value := Summaries_Username accounts;
       memcache.Expiration := time.Hour |} = None ->
  datastorePutErr (services wenv)
    (datastore.NewKey "Account" (Summaries_Username accounts)) a = None ->
  Cookie (Cookies r') "session" = Some id ->
  exists w1 : Web,
    ServeHTTP wenv (auth wenv) r w = Continue tt w1 /\
    wtrace w1
    = (wtrace w
       ++ [SetCookie "session" id 3600;
           Exchange None (FormValue r "code");
           AccountsList (exchange wenv None (FormValue r "code"));
           Svc (LogInfo "setting: %#v" (Some t));
           Redirect "/manage" 302;
           Svc (CacheSet {| memcache.Key := "s:" +:+ id;
                            memcache.Value := Summaries_Username accounts;
                            memcache.Expiration := time.Hour |});
           Svc (StorePut (datastore.NewKey "Account" (Summaries_Username accounts))
                         a)])%list /\
    ServeHTTP_session wenv' r' w1
    = Continue {| Session_Id := id; Session_Account := a; Session_Loaded := a |}
               (wafter w1
                  [Svc (CacheGet ("s:" +:+ id));
                   Svc (StoreGet (datastore.NewKey "Account"
                                    (Summaries_Username accounts)))]).
Proof.
  intros Hcookie Hnew Hlist Huser id a Hset Hput Hcookie'.
  set (s0 := {| Session_Id := id; Session_Account := zeroAccount;
                Session_Loaded := zeroAccount |}).
  set (s := {| Session_Id := id; Session_Account := a;
               Session_Loaded := zeroAccount |}).
  assert (Hua : Username a = Summaries_Username accounts)
    by (subst a; by rewrite SetToken_Username).
  assert (Hsession : ServeHTTP_session wenv r w
                     = Continue s0 (wafter w [SetCookie "session" id 3600])).
  { unfold ServeHTTP_session. rewrite Hcookie. by unfold_web. }
  pose proof (auth_run wenv r s0 (wafter w [SetCookie "session" id 3600])
                t accounts Hnew Hlist) as Hauth.
  cbn [Session_Id Session_Account Session_Loaded s0 zeroAccount
       Username AccessToken RefreshToken Expiry] in Hauth.
  fold a in Hauth. fold s in Hauth.
  match type of Hauth with
  | _ = Continue _ ?x => set (w2 := x) in Hauth
  end.
  assert (Hnone : GetToken zeroAccount = None) by reflexivity.
  assert (Hchanged : Session_Loaded s <> Session_Account s).
  { cbn [s Session_Loaded Session_Account]. intros Heq.
    apply Huser. rewrite <- Hua, <- Heq. done. }
  assert (Huser' : Username (Session_Account s) <> "")
    by (cbn [s Session_Account]; by rewrite Hua).
  assert (Hset' : memcacheSetErr (services wenv)
                    {| memcache.Key := "s:" +:+ Session_Id s;
                       memcache.Value := Username (Session_Account s);
                       memcache.Expiration := time.Hour |} = None)
    by (cbn [s Session_Id Session_Account]; by rewrite Hua).
  assert (Hput' : datastorePutErr (services wenv)
                    (datastore.NewKey "Account" (Username (Session_Account s)))
                    (Session_Account s) = None)
    by (cbn [s Session_Id Session_Account]; by rewrite Hua).
  pose proof (ServeHTTP_save_changed wenv s w2 Hchanged Huser') as Hsave.
  cbv zeta in Hsave. rewrite Hset', Hput' in Hsave.
  pose proof (ServeHTTP_run wenv (auth wenv) r w _ _ s0 s None Hsession Hauth)
    as Hrun.
  cbv iota in Hrun. rewrite Hsave in Hrun.
  eexists. split; [exact Hrun|split].
  - cbn [wcache wstore wtrace s Session_Id Session_Account].
    rewrite Hua. unfold w2, wafter. cbn [wcache wstore wtrace].
    rewrite Hnone, <- !app_assoc. by cbn [app].
  - pose proof (ServeHTTP_session_restored wenv wenv' s r' w2 _
                  Hchanged Huser' Hset' Hput' Hsave) as Hback.
    cbn [s Session_Id Session_Account] in Hback. rewrite Hua in Hback.
    cbn [s Session_Id Session_Account]. rewrite Hua.
    by apply Hback.
Qed.

Lemma login_round_trip_witness :
  exists w1 : Web,
    ServeHTTP login_env (auth login_env) login_request empty_web = Continue tt w1 /\
    ServeHTTP_session login_failing_env session_request w1
    = Continue {| Session_Id := "zz"; Session_Account := carol;
                  Session_Loaded := carol |}
               (wafter w1 [Svc (CacheGet "s:zz");
                           Svc (StoreGet (datastore.NewKey "Account" "carol"))]).
Proof.
  destruct (login_round_trip login_env login_failing_env login_request
              session_request empty_web carol_token carol_listing
              eq_refl eq_refl eq_refl ltac:(discriminate) eq_refl eq_refl eq_refl)
    as (w1 & Hrun & _ & Hback).
  exists w1. split; [exact Hrun|exact Hback].
Defined.
